(** * The multi-model ensemble analysis engine

    A shallow embedding of the ensemble logic of the repository:

    - [utils/ensemble.py]: [combine_analyses], [get_agreement_level],
      [create_consensus_description], [calculate_priority_score],
      [should_flag_for_review];
    - [scripts/image/apply_ensemble_analysis.py]: the methods
      [combine_concern_levels] and [combine_indicators] of the class
      [EnsembleAnalyzer].

    Modelling conventions.

    - The two model outputs are Python dictionaries holding dynamically typed
      values.  They are association lists from keys to [value]s; a missing
      key and a key bound to [None] are different things, as in Python.
    - Operations that raise in Python ([TypeError]) return [Raise]; the code
      is threaded through the [result] monad.
    - Python floats are modelled by the rationals they denote.  Every float
      the engine computes is a small sum of quarters, halves and tenths, and
      the outputs are rounded to two decimals, where the binary rounding
      error of a double is absorbed; [round] is round-half-even on the
      rational, which agrees with Python away from exact ties of the third
      decimal.
    - Text is [string].  [Py.lower] folds the letters A to Z, which is what
      [str.lower] does on ASCII text; where a statement is about every
      text, the folding is a parameter ([Folding]).
    - A Python [set] of [str] iterates in an order fixed by the string hashes
      of the running interpreter.  The set is modelled by its elements in
      insertion order, and [list(s)] by an enumeration function handed to
      [combine_analyses]. *)

From Stdlib Require Import ZArith QArith Qround Bool List String Ascii Lia.
From Stdlib Require Import Permutation DecimalString.
Import ListNotations.

Open Scope string_scope.
Open Scope Z_scope.

(** ** Python values, dictionaries and exceptions *)

Module Py.

(** The values found in an analysis record: [None], booleans, integers,
    text, and lists of text. *)
Inductive value : Type :=
| VNone
| VBool (b : bool)
| VInt (n : Z)
| VStr (s : string)
| VList (l : list string).

Inductive exn : Type :=
| TypeError.

Inductive result (A : Type) : Type :=
| Ok (a : A)
| Raise (e : exn).

Arguments Ok {A} a.
Arguments Raise {A} e.

Definition bind {A B : Type} (c : result A) (k : A -> result B) : result B :=
  match c with
  | Ok a => k a
  | Raise e => Raise e
  end.

Definition dict : Type := list (string * value).

(** [d.get(k)] as an option: the first binding of [k]. *)
Fixpoint lookup (d : dict) (k : string) : option value :=
  match d with
  | [] => None
  | (k', v) :: d' => if String.eqb k k' then Some v else lookup d' k
  end.

(** [d.get(k, default)]. *)
Definition get (d : dict) (k : string) (default : value) : value :=
  match lookup d k with
  | Some v => v
  | None => default
  end.

(** Truth value of an object in a condition. *)
Definition truthy (v : value) : bool :=
  match v with
  | VNone => false
  | VBool b => b
  | VInt n => negb (n =? 0)
  | VStr s => negb (String.eqb s "")
  | VList l => match l with [] => false | _ => true end
  end.

(** [a or b]. *)
Definition or_ (a b : value) : value := if truthy a then a else b.

(** [a == b]; [bool] is a subclass of [int], so [True == 1]. *)
Definition eqb (a b : value) : bool :=
  match a, b with
  | VNone, VNone => true
  | VBool x, VBool y => Bool.eqb x y
  | VBool x, VInt y | VInt y, VBool x => (if x then 1 else 0) =? y
  | VInt x, VInt y => x =? y
  | VStr x, VStr y => String.eqb x y
  | VList x, VList y =>
      if list_eq_dec String.string_dec x y then true else false
  | _, _ => false
  end.

(** [v > n] for an integer literal [n]: only numbers are ordered against
    an [int]. *)
Definition gt_int (v : value) (n : Z) : result bool :=
  match v with
  | VInt m => Ok (n <? m)
  | VBool b => Ok (n <? (if b then 1 else 0))
  | VNone | VStr _ | VList _ => Raise TypeError
  end.

(** [v[:n]]: text and lists can be sliced, the other values are not
    subscriptable. *)
Definition slice_to (n : nat) (v : value) : result value :=
  match v with
  | VStr s => Ok (VStr (String.substring 0 n s))
  | VList l => Ok (VList (firstn n l))
  | VNone | VBool _ | VInt _ => Raise TypeError
  end.

(** *** Text formatting, as an f-string does it *)

Definition hex_digit (n : N) : ascii :=
  ascii_of_N (if (n <? 10)%N then 48 + n else 87 + n)%N.

Fixpoint occurs (c : ascii) (s : string) : bool :=
  match s with
  | EmptyString => false
  | String c' s' => Ascii.eqb c c' || occurs c s'
  end.

Definition escape_char (quote c : ascii) : string :=
  let n := N_of_ascii c in
  if Ascii.eqb c quote then String "\" (String c "")
  else if Ascii.eqb c "\" then "\\"
  else if (n =? 10)%N then "\n"
  else if (n =? 13)%N then "\r"
  else if (n =? 9)%N then "\t"
  else if ((n <? 32) || (n =? 127))%N
       then String "\" (String "x" (String (hex_digit (n / 16))
                                      (String (hex_digit (n mod 16)) "")))
  else String c "".

Fixpoint escape (quote : ascii) (s : string) : string :=
  match s with
  | EmptyString => EmptyString
  | String c s' => escape_char quote c ++ escape quote s'
  end.

(** [repr(s)]: single quotes, unless the text has a single quote and no
    double quote. *)
Definition repr_str (s : string) : string :=
  let dquote : ascii := ascii_of_N 34 in
  let quote : ascii :=
    if occurs "'" s && negb (occurs dquote s) then dquote else "'"%char in
  String quote (escape quote s) ++ String quote "".

Definition str_of_int (n : Z) : string :=
  NilZero.string_of_int (Z.to_int n).

(** [str(v)], what [f"{v}"] inserts. *)
Definition str (v : value) : string :=
  match v with
  | VNone => "None"
  | VBool true => "True"
  | VBool false => "False"
  | VInt n => str_of_int n
  | VStr s => s
  | VList l => "[" ++ String.concat ", " (map repr_str l) ++ "]"
  end.

(** *** Text search *)

Definition lower_char (c : ascii) : ascii :=
  let n := N_of_ascii c in
  if ((65 <=? n) && (n <=? 90))%N then ascii_of_N (n + 32) else c.

(** [s.lower()]. *)
Fixpoint lower (s : string) : string :=
  match s with
  | EmptyString => EmptyString
  | String c s' => String (lower_char c) (lower s')
  end.

(** [needle in hay] on text. *)
Fixpoint contains (needle hay : string) : bool :=
  String.prefix needle hay
  || match hay with
     | EmptyString => false
     | String _ hay' => contains needle hay'
     end.

(** The characters of a text, as iterating over it yields them. *)
Fixpoint chars (s : string) : list string :=
  match s with
  | EmptyString => []
  | String c s' => String c "" :: chars s'
  end.

(** [l.append(x)]. *)
Definition append (l : list string) (x : string) : list string :=
  (l ++ [x])%list.

(** *** Sets of text *)

(** A set is kept as the list of its elements in insertion order. *)
Definition pyset : Type := list string.

Definition set_add (s : pyset) (x : string) : pyset :=
  if existsb (String.eqb x) s then s else (s ++ [x])%list.

(** [s.update(it)]: iterates over [it]. *)
Definition set_update (s : pyset) (it : value) : result pyset :=
  match it with
  | VList l => Ok (fold_left set_add l s)
  | VStr t => Ok (fold_left set_add (chars t) s)
  | VNone | VBool _ | VInt _ => Raise TypeError
  end.

(** *** Numbers *)

(** [min(a, b)] on floats: [b] when [b < a], else [a]. *)
Definition min (a b : Q) : Q := if Qle_bool a b then a else b.

(** Round half to even, to the nearest integer. *)
Definition round_half_even (q : Q) : Z :=
  let f := Qfloor q in
  match (q - inject_Z f ?= 1 # 2)%Q with
  | Lt => f
  | Gt => f + 1
  | Eq => if Z.even f then f else f + 1
  end.

(** [round(q, 2)]. *)
Definition round2 (q : Q) : Q :=
  Qred (round_half_even (q * 100) # 100).

End Py.

Import Py.

Declare Scope py_scope.
Notation "x <- c ;; k" := (bind c (fun x => k))
  (at level 61, c at next level, right associativity) : py_scope.
Open Scope py_scope.

(** ** [utils/ensemble.py] *)

Module Ensemble.

(** The record returned by [combine_analyses]. *)
Record EnsembleResult : Type := {
  ensemble_concern_level : string;
  ensemble_confidence : Q;
  llava_score : Z;
  gemma_score : Z;
  agreement_level : string;
  combined_indicators : list string;
  consensus_description : string
}.

Fixpoint assoc (t : list (string * Z)) (k : string) : option Z :=
  match t with
  | [] => None
  | (k', n) :: t' => if String.eqb k k' then Some n else assoc t' k
  end.

(** [t.get(key, default)] on a table keyed by text: any hashable key may be
    looked up, a list is unhashable. *)
Definition table_get (t : list (string * Z)) (key : value) (default : Z)
  : result Z :=
  match key with
  | VStr s => Ok (match assoc t s with Some n => n | None => default end)
  | VNone | VBool _ | VInt _ => Ok default
  | VList _ => Raise TypeError
  end.

Definition concern_map : list (string * Z) :=
  [ ("low", 1); ("medium", 2); ("high", 3); ("critical", 4);
    ("minimal", 1); ("moderate", 2); ("severe", 3); ("extreme", 4) ].

Definition get_agreement_level (score_difference : Q) : string :=
  if Qeq_bool score_difference 0 then "perfect"
  else if Qle_bool score_difference 1 then "high"
  else if Qle_bool score_difference 2 then "moderate"
  else "low".

(** [if d.get(k): descriptions.append(prefix + d[k][:200])]. *)
Definition describe_scene (descriptions : list string) (d : dict)
           (prefix : string) : result (list string) :=
  if truthy (get d "scene_description" VNone) then
    cut <- slice_to 200 (get d "scene_description" VNone) ;;
    Ok (append descriptions (prefix ++ str cut))
  else Ok descriptions.

Definition create_consensus_description (llava_result gemma_result : dict)
  : result string :=
  let descriptions : list string := [] in
  let llava_concern := get llava_result "concern_level" (VStr "unknown") in
  let gemma_concern :=
    or_ (get gemma_result "concern_level" VNone)
        (get gemma_result "standard_concern_level" (VStr "unknown")) in
  let descriptions :=
    if Py.eqb llava_concern gemma_concern then
      append descriptions
        ("Both models agree on " ++ str llava_concern ++ " concern level.")
    else
      append descriptions
        ("Models show " ++ str llava_concern ++ " (llava) and "
           ++ str gemma_concern ++ " (gemma) concern levels.") in
  descriptions <- describe_scene descriptions llava_result
                    "Visual analysis: " ;;
  descriptions <- describe_scene descriptions gemma_result
                    "Humanitarian perspective: " ;;
  has_personnel <- gt_int (get llava_result "personnel_count" (VInt 0)) 0 ;;
  let descriptions :=
    if has_personnel then
      append descriptions
        ("Personnel count: "
           ++ str (get llava_result "personnel_count" VNone))
    else descriptions in
  let descriptions :=
    if truthy (get llava_result "supervision_present" VNone) then
      append descriptions "Supervision/control present"
    else descriptions in
  Ok (String.concat " " descriptions).

(** [if d.get(k): s.update(d[k])]. *)
Definition update_from (s : pyset) (d : dict) (k : string) : result pyset :=
  if truthy (get d k VNone) then set_update s (get d k VNone) else Ok s.

(** [enum] is the order in which the interpreter iterates over a set. *)
Definition combine_analyses (enum : pyset -> list string)
           (llava_result gemma_result : dict) : result EnsembleResult :=
  llava_score <-
    table_get concern_map (get llava_result "concern_level" (VStr "low")) 1 ;;
  let gemma_concern :=
    or_ (get gemma_result "concern_level" VNone)
        (get gemma_result "standard_concern_level" (VStr "low")) in
  gemma_score <- table_get concern_map gemma_concern 1 ;;
  let avg_score := (inject_Z (llava_score + gemma_score) / 2)%Q in
  let ensemble_level :=
    if Qle_bool 3.5 avg_score then "critical"
    else if Qle_bool 2.5 avg_score then "high"
    else if Qle_bool 1.5 avg_score then "medium"
    else "low" in
  let score_difference := Z.abs (llava_score - gemma_score) in
  let confidence := (1.0 - inject_Z score_difference * 0.25)%Q in
  let confidence :=
    if (3 <=? llava_score) && (3 <=? gemma_score)
    then Py.min 1.0 (confidence + 0.1)%Q
    else confidence in
  let combined_indicators : pyset := [] in
  combined_indicators <-
    update_from combined_indicators llava_result "concern_indicators" ;;
  combined_indicators <-
    update_from combined_indicators llava_result "restriction_indicators" ;;
  combined_indicators <-
    update_from combined_indicators gemma_result "exploitation_indicators" ;;
  combined_indicators <-
    update_from combined_indicators gemma_result "control_indicators" ;;
  combined_indicators <-
    update_from combined_indicators gemma_result "welfare_concerns" ;;
  consensus_description <-
    create_consensus_description llava_result gemma_result ;;
  Ok {| ensemble_concern_level := ensemble_level;
        ensemble_confidence := round2 confidence;
        llava_score := llava_score;
        gemma_score := gemma_score;
        agreement_level := get_agreement_level (inject_Z score_difference);
        combined_indicators := firstn 10 (enum combined_indicators);
        consensus_description := consensus_description |}.

Definition concern_scores : list (string * Z) :=
  [ ("low", 1); ("medium", 2); ("high", 3); ("critical", 4) ].

Definition calculate_priority_score (ensemble_result : EnsembleResult)
           (llava_result gemma_result : dict) : result Q :=
  let score := 0.0%Q in
  let score :=
    (score
     + inject_Z
         (match assoc concern_scores
                  (ensemble_concern_level ensemble_result) with
          | Some n => n
          | None => 0
          end * 2))%Q in
  let score := (score + ensemble_confidence ensemble_result * 2)%Q in
  let indicator_count :=
    Z.of_nat (List.length (combined_indicators ensemble_result)) in
  let score := (score + Py.min (inject_Z indicator_count * 0.5) 3)%Q in
  many <- gt_int (get llava_result "personnel_count" (VInt 0)) 5 ;;
  let score := if many then (score + 1)%Q else score in
  crowd <- gt_int (get llava_result "personnel_count" (VInt 0)) 10 ;;
  let score := if crowd then (score + 1)%Q else score in
  let score :=
    if truthy (get llava_result "supervision_present" VNone)
    then (score + 1)%Q else score in
  Ok (round2 score).

Definition should_flag_for_review (ensemble_result : EnsembleResult) : bool :=
  if (String.eqb (ensemble_concern_level ensemble_result) "high"
      || String.eqb (ensemble_concern_level ensemble_result) "critical")
     && Qle_bool 0.75 (ensemble_confidence ensemble_result)
  then true
  else if String.eqb (agreement_level ensemble_result) "low"
          && ((3 <=? llava_score ensemble_result)
              || (3 <=? gemma_score ensemble_result))
  then true
  else if (5 <=? List.length (combined_indicators ensemble_result))%nat
  then true
  else false.

End Ensemble.

(** ** [scripts/image/apply_ensemble_analysis.py] *)

Module EnsembleAnalyzer.

(** [self.concern_scores], set by [__init__]. *)
Definition concern_scores : list (string * Z) :=
  [ ("low", 1); ("medium", 2); ("high", 3); ("critical", 4) ].

(** [self.concern_scores.get(label, 1)]. *)
Definition score_of (label : string) : Z :=
  match Ensemble.assoc concern_scores label with
  | Some n => n
  | None => 1
  end.

Definition combine_concern_levels (llava_concern gemma_concern : string)
  : string * Q :=
  let llava_score := score_of llava_concern in
  let gemma_score := score_of gemma_concern in
  let avg_score := (inject_Z (llava_score + gemma_score) / 2)%Q in
  let ensemble_level :=
    if Qle_bool 3.5 avg_score then "critical"
    else if Qle_bool 2.5 avg_score then "high"
    else if Qle_bool 1.5 avg_score then "medium"
    else "low" in
  let score_difference := Z.abs (llava_score - gemma_score) in
  let confidence :=
    if score_difference =? 0 then 1.0%Q
    else if score_difference =? 1 then 0.75%Q
    else if score_difference =? 2 then 0.5%Q
    else 0.25%Q in
  let confidence :=
    if String.eqb ensemble_level "high"
       || String.eqb ensemble_level "critical"
    then Py.min 1.0 (confidence + 0.1)%Q
    else confidence in
  (ensemble_level, confidence).

(** The test of the inner loop: the two indicators are similar when one is
    found inside the other, letter case aside. *)
Definition similar (indicator existing : string) : bool :=
  contains (lower indicator) (lower existing)
  || contains (lower existing) (lower indicator).

(** The loop over [gemma_indicators]. *)
Fixpoint add_new (all_indicators gemma_indicators : list string)
  : list string :=
  match gemma_indicators with
  | [] => all_indicators
  | indicator :: rest =>
      let is_duplicate := existsb (similar indicator) all_indicators in
      if negb is_duplicate
      then add_new (append all_indicators indicator) rest
      else add_new all_indicators rest
  end.

Definition combine_indicators (llava_indicators gemma_indicators : list string)
  : list string :=
  let all_indicators : list string := [] in
  let all_indicators :=
    match llava_indicators with
    | [] => all_indicators
    | _ => (all_indicators ++ llava_indicators)%list
    end in
  let all_indicators :=
    match gemma_indicators with
    | [] => all_indicators
    | _ => add_new all_indicators gemma_indicators
    end in
  firstn 15 all_indicators.

(** The indicators of one database row, as [process_ensemble_analysis]
    pools them before the call. *)
Definition row_indicators
           (concern_indicators restriction_indicators gemma_indicators
            : list string) : list string :=
  combine_indicators (concern_indicators ++ restriction_indicators)
                     gemma_indicators.

End EnsembleAnalyzer.

Import Ensemble.

(** ** The parts of [combine_analyses], named for the proofs *)

Module View.

(** The label read from the first argument. *)
Definition llava_label (llava_result : dict) : value :=
  get llava_result "concern_level" (VStr "low").

(** The label read from the second argument, under either field name. *)
Definition gemma_label (gemma_result : dict) : value :=
  or_ (get gemma_result "concern_level" VNone)
      (get gemma_result "standard_concern_level" (VStr "low")).

Definition level_of (llava_score gemma_score : Z) : string :=
  let avg_score := (inject_Z (llava_score + gemma_score) / 2)%Q in
  if Qle_bool 3.5 avg_score then "critical"
  else if Qle_bool 2.5 avg_score then "high"
  else if Qle_bool 1.5 avg_score then "medium"
  else "low".

Definition confidence_of (llava_score gemma_score : Z) : Q :=
  let score_difference := Z.abs (llava_score - gemma_score) in
  let confidence := (1.0 - inject_Z score_difference * 0.25)%Q in
  if (3 <=? llava_score) && (3 <=? gemma_score)
  then Py.min 1.0 (confidence + 0.1)%Q
  else confidence.

(** The set of indicators before it is turned into a list. *)
Definition pooled (llava_result gemma_result : dict) : result pyset :=
  s <- update_from [] llava_result "concern_indicators" ;;
  s <- update_from s llava_result "restriction_indicators" ;;
  s <- update_from s gemma_result "exploitation_indicators" ;;
  s <- update_from s gemma_result "control_indicators" ;;
  update_from s gemma_result "welfare_concerns".

(** The record's label normalizes to the same score in either argument
    position. *)
Definition position_free (d : dict) : Prop :=
  table_get concern_map (llava_label d) 1
  = table_get concern_map (gemma_label d) 1.

(** The list held under [k], when there is one. *)
Definition listed (d : dict) (k : string) : list string :=
  match get d k VNone with
  | VList l => l
  | _ => []
  end.

(** The field [k] is missing, [None], or a list of text. *)
Definition list_field (d : dict) (k : string) : Prop :=
  match get d k VNone with
  | VList _ | VNone => True
  | _ => False
  end.

(** The field [k] is missing, [None], or a text. *)
Definition text_field (d : dict) (k : string) : Prop :=
  match get d k VNone with
  | VStr _ | VNone => True
  | _ => False
  end.

(** The field [k] is missing or a number. *)
Definition count_field (d : dict) (k : string) : Prop :=
  match get d k (VInt 0) with
  | VInt _ | VBool _ => True
  | _ => False
  end.

(** The personnel count as a number; a missing count is 0. *)
Definition personnel (llava_result : dict) : Z :=
  match get llava_result "personnel_count" (VInt 0) with
  | VInt n => n
  | VBool true => 1
  | _ => 0
  end.

(** Every indicator of the two records, in the order of pooling. *)
Definition all_indicators (llava_result gemma_result : dict) : list string :=
  (listed llava_result "concern_indicators"
   ++ listed llava_result "restriction_indicators"
   ++ listed gemma_result "exploitation_indicators"
   ++ listed gemma_result "control_indicators"
   ++ listed gemma_result "welfare_concerns")%list.

(** The five indicator fields are lists where present. *)
Definition list_fields (llava_result gemma_result : dict) : Prop :=
  list_field llava_result "concern_indicators"
  /\ list_field llava_result "restriction_indicators"
  /\ list_field gemma_result "exploitation_indicators"
  /\ list_field gemma_result "control_indicators"
  /\ list_field gemma_result "welfare_concerns".

(** The first record, each field missing or of the type the interface
    gives it. *)
Definition typed_llava (d : dict) : Prop :=
  text_field d "concern_level"
  /\ text_field d "scene_description"
  /\ count_field d "personnel_count"
  /\ list_field d "concern_indicators"
  /\ list_field d "restriction_indicators".

(** The second record, likewise. *)
Definition typed_gemma (d : dict) : Prop :=
  text_field d "concern_level"
  /\ text_field d "standard_concern_level"
  /\ text_field d "scene_description"
  /\ list_field d "exploitation_indicators"
  /\ list_field d "control_indicators"
  /\ list_field d "welfare_concerns".

(** An iteration order of sets: it lists the elements of the set, each
    once. *)
Definition set_order (enum : pyset -> list string) : Prop :=
  forall s : pyset, Permutation (enum s) s.

End View.

(** ** The specification's tables and formulas *)

Module Spec.

Definition one_of (label : string) (labels : list string) : bool :=
  existsb (String.eqb label) labels.

(** The labels of the two vocabularies. *)
Definition known_labels : list string :=
  [ "low"; "medium"; "high"; "critical";
    "minimal"; "moderate"; "severe"; "extreme" ].

(** The vocabulary table of the normalizer; anything else scores 1. *)
Definition normalize (label : string) : Z :=
  if one_of label ["critical"; "extreme"] then 4
  else if one_of label ["high"; "severe"] then 3
  else if one_of label ["medium"; "moderate"] then 2
  else 1.

(** The standard half of the table alone. *)
Definition normalize_standard (label : string) : Z :=
  if one_of label ["critical"] then 4
  else if one_of label ["high"] then 3
  else if one_of label ["medium"] then 2
  else 1.

(** A missing label, or one that is not text, scores 1. *)
Definition normalize_value (label : value) : Z :=
  match label with
  | VStr s => normalize s
  | _ => 1
  end.

(** [1.0 - 0.25 * diff]. *)
Definition base_confidence (sA sB : Z) : Q :=
  (1 - (1 # 4) * inject_Z (Z.abs (sA - sB)))%Q.

(** [+0.1], capped at [1.0]. *)
Definition boost (c : Q) : Q :=
  if Qle_bool (c + (1 # 10)) 1 then (c + (1 # 10))%Q else 1%Q.

(** The label of an average, by half-open thresholds. *)
Definition level_for (avg : Q) (level : string) : Prop :=
  ((7 # 2) <= avg -> level = "critical")%Q
  /\ ((5 # 2) <= avg < (7 # 2) -> level = "high")%Q
  /\ ((3 # 2) <= avg < (5 # 2) -> level = "medium")%Q
  /\ (avg < (3 # 2) -> level = "low")%Q.

Definition average (sA sB : Z) : Q := (inject_Z (sA + sB) / 2)%Q.

(** The canonical score of a combined level. *)
Definition canonical_score (level : string) : Z :=
  if String.eqb level "low" then 1
  else if String.eqb level "medium" then 2
  else if String.eqb level "high" then 3
  else if String.eqb level "critical" then 4
  else 0.

(** The additive priority: twice the canonical score, twice the
    confidence, half a point per indicator up to three points, one point
    above five persons and one more above ten, one point for supervision. *)
Definition priority_sum (level_score : Z) (confidence : Q) (indicators : nat)
           (personnel : Z) (supervised : bool) : Q :=
  (2 * inject_Z level_score
   + 2 * confidence
   + (if (indicators <=? 6)%nat
      then (1 # 2) * inject_Z (Z.of_nat indicators) else 3)
   + (if 5 <? personnel then 1 else 0)
   + (if 10 <? personnel then 1 else 0)
   + (if supervised then 1 else 0))%Q.

(** [needle] occurs inside [hay]. *)
Definition substring (needle hay : string) : Prop :=
  exists before after : string, hay = before ++ needle ++ after.

End Spec.

(** ** [combine_indicators] on any text

    [str.lower] folds every cased letter of Unicode, and [Py.lower] is
    what it does on ASCII text.  Here the folding is a parameter, so that
    the definitions stand for the method on every text; a text is held as
    the sequence of its UTF-8 bytes, and as that encoding is
    self-synchronising one text occurs inside another exactly when its
    bytes do. *)

Module Folding.

Section Lower.

(** [str.lower]. *)
Variable lower : string -> string.

(** The test of the inner loop:
    [indicator.lower() in existing.lower()
     or existing.lower() in indicator.lower()]. *)
Definition similar (indicator existing : string) : bool :=
  contains (lower indicator) (lower existing)
  || contains (lower existing) (lower indicator).

(** The loop over [gemma_indicators]. *)
Fixpoint add_new (all_indicators gemma_indicators : list string)
  : list string :=
  match gemma_indicators with
  | [] => all_indicators
  | indicator :: rest =>
      let is_duplicate := existsb (similar indicator) all_indicators in
      if negb is_duplicate
      then add_new (append all_indicators indicator) rest
      else add_new all_indicators rest
  end.

Definition combine_indicators (llava_indicators gemma_indicators : list string)
  : list string :=
  let all_indicators : list string := [] in
  let all_indicators :=
    match llava_indicators with
    | [] => all_indicators
    | _ => (all_indicators ++ llava_indicators)%list
    end in
  let all_indicators :=
    match gemma_indicators with
    | [] => all_indicators
    | _ => add_new all_indicators gemma_indicators
    end in
  firstn 15 all_indicators.

(** The indicators of one database row, as [process_ensemble_analysis]
    pools them before the call. *)
Definition row_indicators
           (concern_indicators restriction_indicators gemma_indicators
            : list string) : list string :=
  combine_indicators (concern_indicators ++ restriction_indicators)
                     gemma_indicators.

(** Containment in either direction, once both texts are folded. *)
Definition overlap (a b : string) : Prop :=
  Spec.substring (lower a) (lower b) \/ Spec.substring (lower b) (lower a).

End Lower.

(** A text of ASCII characters. *)
Fixpoint ascii_text (s : string) : bool :=
  match s with
  | EmptyString => true
  | String c s' => (N_of_ascii c <? 128)%N && ascii_text s'
  end.

(** What [str.lower] does on ASCII text: it folds the letters A to Z and
    leaves every other character. *)
Definition lowers_ascii (lower : string -> string) : Prop :=
  forall s, ascii_text s = true -> lower s = Py.lower s.

(** The elements of a list at the positions that a mask marks. *)
Fixpoint select {A : Type} (mask : list bool) (l : list A) : list A :=
  match mask, l with
  | b :: mask', x :: l' =>
      if b then x :: select mask' l' else select mask' l'
  | _, _ => []
  end.

End Folding.

(** ** Sample records *)

Module Sample.

(** The end-to-end scenario: the first model says high, the second says
    severe under its standard field name only. *)
Definition high_llava : dict :=
  [ ("concern_level", VStr "high");
    ("concern_indicators", VList ["no safety gear"; "working at height"]) ].

Definition severe_gemma : dict :=
  [ ("standard_concern_level", VStr "severe");
    ("exploitation_indicators", VList ["overcrowded conditions"]) ].

Definition high_severe : EnsembleResult :=
  {| ensemble_concern_level := "high";
     ensemble_confidence := 1;
     llava_score := 3;
     gemma_score := 3;
     agreement_level := "perfect";
     combined_indicators :=
       ["no safety gear"; "working at height"; "overcrowded conditions"];
     consensus_description :=
       "Models show high (llava) and severe (gemma) concern levels." |}.

(** The same two records with their positions exchanged. *)
Definition severe_high : EnsembleResult :=
  {| ensemble_concern_level := "medium";
     ensemble_confidence := 1 # 2;
     llava_score := 1;
     gemma_score := 3;
     agreement_level := "moderate";
     combined_indicators := [];
     consensus_description :=
       "Models show unknown (llava) and high (gemma) concern levels." |}.

(** The missing-data scenario: no label on one side, critical on the
    other. *)
Definition unlabelled : dict := [].

Definition critical_gemma : dict := [ ("concern_level", VStr "critical") ].

Definition unlabelled_critical : EnsembleResult :=
  {| ensemble_concern_level := "high";
     ensemble_confidence := 1 # 4;
     llava_score := 1;
     gemma_score := 4;
     agreement_level := "low";
     combined_indicators := [];
     consensus_description :=
       "Models show unknown (llava) and critical (gemma) concern levels." |}.

(** A row in which every nullable column but the personnel count is
    NULL. *)
Definition null_elsewhere : dict :=
  [ ("concern_level", VNone);
    ("concern_indicators", VList []);
    ("restriction_indicators", VList []);
    ("scene_description", VNone);
    ("personnel_count", VInt 0);
    ("supervision_present", VNone) ].

Definition null_elsewhere_result : EnsembleResult :=
  {| ensemble_concern_level := "low";
     ensemble_confidence := 1;
     llava_score := 1;
     gemma_score := 1;
     agreement_level := "perfect";
     combined_indicators := [];
     consensus_description :=
       "Models show None (llava) and unknown (gemma) concern levels." |}.

(** Two records that keep their label under [concern_level]. *)
Definition plain_high : dict := [ ("concern_level", VStr "high") ].

Definition plain_minimal : dict := [ ("concern_level", VStr "minimal") ].

Definition high_minimal : EnsembleResult :=
  {| ensemble_concern_level := "medium";
     ensemble_confidence := 1 # 2;
     llava_score := 3;
     gemma_score := 1;
     agreement_level := "moderate";
     combined_indicators := [];
     consensus_description :=
       "Models show high (llava) and minimal (gemma) concern levels." |}.

Definition minimal_high : EnsembleResult :=
  {| ensemble_concern_level := "medium";
     ensemble_confidence := 1 # 2;
     llava_score := 1;
     gemma_score := 3;
     agreement_level := "moderate";
     combined_indicators := [];
     consensus_description :=
       "Models show minimal (llava) and high (gemma) concern levels." |}.

(** A row whose personnel count is NULL in the database, as the caller in
    [process_missing_gemma.py] hands it over. *)
Definition null_personnel : dict :=
  [ ("concern_level", VStr "low");
    ("concern_indicators", VList []);
    ("restriction_indicators", VList []);
    ("scene_description", VStr "Workers on a building site");
    ("personnel_count", VNone);
    ("supervision_present", VBool false) ].

(** Two helmet indicators, neither of which contains the other. *)
Definition helmets_llava : dict :=
  [ ("concern_level", VStr "medium");
    ("concern_indicators", VList ["no helmets"; "no safety helmets worn"]) ].

Definition helmets_result : EnsembleResult :=
  {| ensemble_concern_level := "medium";
     ensemble_confidence := 3 # 4;
     llava_score := 2;
     gemma_score := 1;
     agreement_level := "high";
     combined_indicators := ["no helmets"; "no safety helmets worn"];
     consensus_description :=
       "Models show medium (llava) and unknown (gemma) concern levels." |}.

(** Eleven distinct indicators, one more than [combine_analyses] keeps. *)
Definition eleven_llava : dict :=
  [ ("concern_level", VStr "high");
    ("concern_indicators",
     VList [ "no helmets"; "no harnesses"; "no gloves"; "no boots";
             "working at height"; "night work"; "overcrowded dormitory";
             "guards present"; "fenced compound"; "passports withheld";
             "visible injuries" ]) ].

Definition first_ten : list string :=
  [ "no helmets"; "no harnesses"; "no gloves"; "no boots";
    "working at height"; "night work"; "overcrowded dormitory";
    "guards present"; "fenced compound"; "passports withheld" ].

Definition last_ten : list string :=
  [ "visible injuries"; "passports withheld"; "fenced compound";
    "guards present"; "overcrowded dormitory"; "night work";
    "working at height"; "no boots"; "no gloves"; "no harnesses" ].

(** A result of the highest priority, as in the test suite. *)
Definition critical_result : EnsembleResult :=
  {| ensemble_concern_level := "critical";
     ensemble_confidence := 0.9;
     llava_score := 4;
     gemma_score := 4;
     agreement_level := "perfect";
     combined_indicators :=
       ["no safety"; "guards"; "overcrowded"; "injuries"; "forced labor"];
     consensus_description := "Both models agree on critical concern level."
  |}.

Definition crowded_llava : dict :=
  [ ("personnel_count", VInt 15); ("supervision_present", VBool true) ].

(** Two iteration orders of a set: insertion order, and its reverse. *)
Definition insertion_order (s : pyset) : list string := s.

Definition reverse_order (s : pyset) : list string := rev s.

End Sample.

(** ** [EnsembleAnalyzer.process_ensemble_analysis]

    The table [content_analysis] is a list of rows, with the columns the
    batch reads or writes.  The [SELECT] is a filter that keeps the rows
    with both labels (and, unless the update is forced, without an ensemble
    level), ordered by [result_id]; [session.query(ContentAnalysis).get] is
    a search by primary key, and the assignments to the mapped object
    update that row.  An exception leaves the table as it was: the loop
    runs before the commit, and the summary fails only when no row was
    written.  What the batch prints is returned as a summary. *)

Module Batch.

Record Row : Type := {
  id : Z;
  result_id : Z;
  concern_level : option string;
  concern_indicators : option (list string);
  restriction_indicators : option (list string);
  gemma_concern_level : option string;
  gemma_indicators : option (list string);
  ensemble_concern_level : option string;
  ensemble_confidence : option Q
}.

Definition Table : Type := list Row.

(** A row of the query result: both labels are there. *)
Record Fetched : Type := {
  rec_id : Z;
  rec_result_id : Z;
  rec_concern_level : string;
  rec_concern_indicators : option (list string);
  rec_restriction_indicators : option (list string);
  rec_gemma_concern_level : string;
  rec_gemma_indicators : option (list string)
}.

Inductive exn : Type :=
| KeyError
| ZeroDivisionError.

Inductive outcome (A : Type) : Type :=
| Done (a : A)
| Fail (e : exn).

Arguments Done {A} a.
Arguments Fail {A} e.

(** The numbers of the printed summary; [processed_count] is also the
    value returned. *)
Record Summary : Type := {
  processed_count : Z;
  concern_distribution : list (string * Z);
  high_confidence_count : Z
}.

(** The [WHERE] clause, with the columns of the [SELECT]. *)
Definition select (force_update : bool) (row : Row) : option Fetched :=
  match concern_level row, gemma_concern_level row with
  | Some llava_concern, Some gemma_concern =>
      if force_update
         || match ensemble_concern_level row with
            | None => true
            | Some _ => false
            end
      then Some {| rec_id := id row;
                   rec_result_id := result_id row;
                   rec_concern_level := llava_concern;
                   rec_concern_indicators := concern_indicators row;
                   rec_restriction_indicators := restriction_indicators row;
                   rec_gemma_concern_level := gemma_concern;
                   rec_gemma_indicators := gemma_indicators row |}
      else None
  | _, _ => None
  end.

Fixpoint select_all (force_update : bool) (table : Table) : list Fetched :=
  match table with
  | [] => []
  | row :: table' =>
      match select force_update row with
      | Some record => record :: select_all force_update table'
      | None => select_all force_update table'
      end
  end.

(** [ORDER BY result_id], a column that the schema declares unique. *)
Fixpoint insert_by_result_id (record : Fetched) (sorted : list Fetched)
  : list Fetched :=
  match sorted with
  | [] => [record]
  | r :: sorted' =>
      if rec_result_id record <? rec_result_id r
      then record :: sorted
      else r :: insert_by_result_id record sorted'
  end.

Definition order_by_result_id (records : list Fetched) : list Fetched :=
  fold_right insert_by_result_id [] records.

(** [query.fetchall()]. *)
Definition fetchall (force_update : bool) (table : Table) : list Fetched :=
  order_by_result_id (select_all force_update table).

(** [records[:limit]]; a negative limit counts from the end. *)
Definition slice_to (limit : Z) (records : list Fetched) : list Fetched :=
  if 0 <=? limit
  then firstn (Z.to_nat limit) records
  else firstn (List.length records - Z.to_nat (- limit)) records.

(** [session.query(ContentAnalysis).get(key)]. *)
Definition get_row (table : Table) (key : Z) : option Row :=
  find (fun row => id row =? key) table.

(** The row of primary key [key] after the assignments [assign]. *)
Fixpoint update_row (table : Table) (key : Z) (assign : Row -> Row) : Table :=
  match table with
  | [] => []
  | row :: table' =>
      if id row =? key
      then assign row :: table'
      else row :: update_row table' key assign
  end.

Definition set_ensemble (level : string) (confidence : Q) (row : Row) : Row :=
  {| id := id row;
     result_id := result_id row;
     concern_level := concern_level row;
     concern_indicators := concern_indicators row;
     restriction_indicators := restriction_indicators row;
     gemma_concern_level := gemma_concern_level row;
     gemma_indicators := gemma_indicators row;
     ensemble_concern_level := Some level;
     ensemble_confidence := Some confidence |}.

(** [d[k] += 1]; a key that is not in [d] is a [KeyError]. *)
Fixpoint increment (d : list (string * Z)) (k : string)
  : option (list (string * Z)) :=
  match d with
  | [] => None
  | (k', n) :: d' =>
      if String.eqb k k'
      then Some ((k', n + 1) :: d')
      else option_map (cons (k', n)) (increment d' k)
  end.

(** [l.extend(x)] under [if x:]. *)
Definition extend_if (l : list string) (x : option (list string))
  : list string :=
  match x with
  | Some ((_ :: _) as items) => (l ++ items)%list
  | _ => l
  end.

(** The loop over the records. *)
Fixpoint process_records (records : list Fetched) (table : Table)
         (summary : Summary) : outcome (Table * Summary) :=
  match records with
  | [] => Done (table, summary)
  | record :: records' =>
      let (ensemble_level, confidence) :=
        EnsembleAnalyzer.combine_concern_levels
          (rec_concern_level record) (rec_gemma_concern_level record) in
      let llava_indicators : list string := [] in
      let llava_indicators :=
        extend_if llava_indicators (rec_concern_indicators record) in
      let llava_indicators :=
        extend_if llava_indicators (rec_restriction_indicators record) in
      let ensemble_indicators :=
        EnsembleAnalyzer.combine_indicators
          llava_indicators
          (match rec_gemma_indicators record with
           | Some ((_ :: _) as items) => items
           | _ => []
           end) in
      match get_row table (rec_id record) with
      | Some _ =>
          let table :=
            update_row table (rec_id record)
                       (set_ensemble ensemble_level confidence) in
          match increment (concern_distribution summary) ensemble_level with
          | None => Fail KeyError
          | Some distribution =>
              process_records records' table
                {| processed_count := processed_count summary + 1;
                   concern_distribution := distribution;
                   high_confidence_count :=
                     if Qle_bool 0.75 confidence
                     then high_confidence_count summary + 1
                     else high_confidence_count summary |}
          end
      | None => process_records records' table summary
      end
  end.

Definition initial_summary : Summary :=
  {| processed_count := 0;
     concern_distribution :=
       [ ("low", 0); ("medium", 0); ("high", 0); ("critical", 0) ];
     high_confidence_count := 0 |}.

(** The records the loop runs over: all of them, or the slice taken when
    the limit is set, not zero, and below their number. *)
Definition limited (limit : option Z) (records : list Fetched)
  : list Fetched :=
  match limit with
  | Some n =>
      if negb (n =? 0) && (n <? Z.of_nat (List.length records))
      then slice_to n records
      else records
  | None => records
  end.

(** The table after the commit and the summary, or [None] for the summary
    when there was nothing to process. *)
Definition process_ensemble_analysis (table : Table) (limit : option Z)
           (force_update : bool) : outcome (Table * option Summary) :=
  let records := fetchall force_update table in
  let total_records := Z.of_nat (List.length records) in
  let records := limited limit records in
  if total_records =? 0 then Done (table, None)
  else
    match process_records records table initial_summary with
    | Fail e => Fail e
    | Done (table', summary) =>
        if processed_count summary =? 0
        then Fail ZeroDivisionError
        else Done (table', Some summary)
    end.

(** The row as the batch leaves it when it is among the rows it
    processes. *)
Definition combined_row (row : Row) : Row :=
  match concern_level row, gemma_concern_level row with
  | Some llava_concern, Some gemma_concern =>
      set_ensemble
        (fst (EnsembleAnalyzer.combine_concern_levels
                llava_concern gemma_concern))
        (snd (EnsembleAnalyzer.combine_concern_levels
                llava_concern gemma_concern))
        row
  | _, _ => row
  end.

(** The sum of the counts of a distribution. *)
Fixpoint total (d : list (string * Z)) : Z :=
  match d with
  | [] => 0
  | (_, n) :: d' => n + total d'
  end.

(** The keys of the level distribution. *)
Definition levels : list string := ["low"; "medium"; "high"; "critical"].

(** A summary whose distribution has the four levels as keys and no
    negative count. *)
Definition well_formed (s : Summary) : Prop :=
  map fst (concern_distribution s) = levels
  /\ Forall (fun kn => 0 <= snd kn) (concern_distribution s).

(** The table in which the rows with a key among [keys] are combined. *)
Definition combined_where (keys : list Z) (table : Table) : Table :=
  map (fun row =>
         if existsb (Z.eqb (id row)) keys then combined_row row else row)
      table.

(** The row as a run without limit leaves it. *)
Definition processed_row (force_update : bool) (row : Row) : Row :=
  match select force_update row with
  | Some _ => combined_row row
  | None => row
  end.

(** Three rows: one with both labels, one already combined, one without
    the second label. *)
Definition sample_table : Table :=
  [ {| id := 1; result_id := 30;
       concern_level := Some "high";
       concern_indicators := Some ["no helmets"];
       restriction_indicators := None;
       gemma_concern_level := Some "critical";
       gemma_indicators := Some ["Helmets"; "guards"];
       ensemble_concern_level := None;
       ensemble_confidence := None |};
    {| id := 2; result_id := 10;
       concern_level := Some "low";
       concern_indicators := None;
       restriction_indicators := None;
       gemma_concern_level := Some "low";
       gemma_indicators := None;
       ensemble_concern_level := Some "low";
       ensemble_confidence := Some 1%Q |};
    {| id := 3; result_id := 20;
       concern_level := Some "medium";
       concern_indicators := None;
       restriction_indicators := None;
       gemma_concern_level := None;
       gemma_indicators := None;
       ensemble_concern_level := None;
       ensemble_confidence := None |} ].

End Batch.

(** ** [utils/gemma_analyzer.py]

    The parser of the second model's answer, whose result is the second
    argument of [combine_analyses] in [process_missing_gemma.py].  Text is
    ASCII, as for [lower]. *)

Module GemmaAnalyzer.

(** The characters [str.strip] removes. *)
Definition is_space (c : ascii) : bool :=
  let n := N_of_ascii c in
  (((9 <=? n) && (n <=? 13)) || ((28 <=? n) && (n <=? 32)))%N.

Fixpoint lstrip (s : string) : string :=
  match s with
  | EmptyString => EmptyString
  | String c s' => if is_space c then lstrip s' else s
  end.

Fixpoint rstrip (s : string) : string :=
  match s with
  | EmptyString => EmptyString
  | String c s' =>
      match rstrip s' with
      | EmptyString => if is_space c then EmptyString else String c EmptyString
      | (String _ _) as kept => String c kept
      end
  end.

(** [s.strip()]. *)
Definition strip (s : string) : string := rstrip (lstrip s).

Definition upper_char (c : ascii) : ascii :=
  let n := N_of_ascii c in
  if ((97 <=? n) && (n <=? 122))%N then ascii_of_N (n - 32) else c.

(** [s.upper()]. *)
Fixpoint upper (s : string) : string :=
  match s with
  | EmptyString => EmptyString
  | String c s' => String (upper_char c) (upper s')
  end.

Definition newline : ascii := ascii_of_N 10.

(** [s.split(newline)]. *)
Fixpoint split_lines (s : string) : list string :=
  match s with
  | EmptyString => [EmptyString]
  | String c s' =>
      if Ascii.eqb c newline then EmptyString :: split_lines s'
      else match split_lines s' with
           | first :: rest => String c first :: rest
           | [] => [String c EmptyString]
           end
  end.

(** [s[1:]]. *)
Definition tail (s : string) : string :=
  match s with
  | EmptyString => EmptyString
  | String _ s' => s'
  end.

Inductive section : Type :=
| exploitation
| control
| living
| welfare
| severity.

(** The dictionary [result]; the key [standard_concern_level] is added at
    the end. *)
Record Result : Type := {
  scene_description : string;
  exploitation_indicators : list string;
  control_indicators : list string;
  living_conditions : string;
  welfare_concerns : list string;
  concern_level : string;
  confidence_score : Q;
  raw_analysis : string;
  standard_concern_level : option string
}.

Record State : Type := {
  current_section : option section;
  current_content : list string;
  result : Result
}.

Definition with_exploitation (r : Result) (v : list string) : Result :=
  {| scene_description := scene_description r;
     exploitation_indicators := v;
     control_indicators := control_indicators r;
     living_conditions := living_conditions r;
     welfare_concerns := welfare_concerns r;
     concern_level := concern_level r;
     confidence_score := confidence_score r;
     raw_analysis := raw_analysis r;
     standard_concern_level := standard_concern_level r |}.

Definition with_control (r : Result) (v : list string) : Result :=
  {| scene_description := scene_description r;
     exploitation_indicators := exploitation_indicators r;
     control_indicators := v;
     living_conditions := living_conditions r;
     welfare_concerns := welfare_concerns r;
     concern_level := concern_level r;
     confidence_score := confidence_score r;
     raw_analysis := raw_analysis r;
     standard_concern_level := standard_concern_level r |}.

Definition with_living (r : Result) (v : string) : Result :=
  {| scene_description := scene_description r;
     exploitation_indicators := exploitation_indicators r;
     control_indicators := control_indicators r;
     living_conditions := v;
     welfare_concerns := welfare_concerns r;
     concern_level := concern_level r;
     confidence_score := confidence_score r;
     raw_analysis := raw_analysis r;
     standard_concern_level := standard_concern_level r |}.

Definition with_welfare (r : Result) (v : list string) : Result :=
  {| scene_description := scene_description r;
     exploitation_indicators := exploitation_indicators r;
     control_indicators := control_indicators r;
     living_conditions := living_conditions r;
     welfare_concerns := v;
     concern_level := concern_level r;
     confidence_score := confidence_score r;
     raw_analysis := raw_analysis r;
     standard_concern_level := standard_concern_level r |}.

Definition with_concern (r : Result) (level : string) (score : Q) : Result :=
  {| scene_description := scene_description r;
     exploitation_indicators := exploitation_indicators r;
     control_indicators := control_indicators r;
     living_conditions := living_conditions r;
     welfare_concerns := welfare_concerns r;
     concern_level := level;
     confidence_score := score;
     raw_analysis := raw_analysis r;
     standard_concern_level := standard_concern_level r |}.

Definition with_scene (r : Result) (v : string) : Result :=
  {| scene_description := v;
     exploitation_indicators := exploitation_indicators r;
     control_indicators := control_indicators r;
     living_conditions := living_conditions r;
     welfare_concerns := welfare_concerns r;
     concern_level := concern_level r;
     confidence_score := confidence_score r;
     raw_analysis := raw_analysis r;
     standard_concern_level := standard_concern_level r |}.

Definition with_standard (r : Result) (v : string) : Result :=
  {| scene_description := scene_description r;
     exploitation_indicators := exploitation_indicators r;
     control_indicators := control_indicators r;
     living_conditions := living_conditions r;
     welfare_concerns := welfare_concerns r;
     concern_level := concern_level r;
     confidence_score := confidence_score r;
     raw_analysis := raw_analysis r;
     standard_concern_level := Some v |}.

Definition enter (st : State) (s : section) : State :=
  {| current_section := Some s;
     current_content := [];
     result := result st |}.

(** [line.startswith(('1.', '2.', '3.', '4.', '5.'))]. *)
Definition numbered (line : string) : bool :=
  existsb (fun p => String.prefix p line) ["1."; "2."; "3."; "4."; "5."].

(** The body of the loop for one line. *)
Definition parse_line (st : State) (line : string) : State :=
  let line := strip line in
  if String.eqb line "" then st
  else if contains "EXPLOITATION" (upper line) then enter st exploitation
  else if contains "CONTROL" (upper line)
          || contains "RESTRICTION" (upper line)
       then enter st control
  else if contains "LIVING" (upper line) && contains "STANDARD" (upper line)
       then enter st living
  else if contains "WELFARE" (upper line) then enter st welfare
  else if contains "SEVERITY" (upper line) || contains "RATING" (upper line)
       then enter st severity
  else
    match current_section st with
    | Some s =>
        if negb (numbered line) then
          let current_content :=
            if String.prefix "-" line
            then append (current_content st) (strip (tail line))
            else append (current_content st) line in
          let result :=
            match s with
            | exploitation => with_exploitation (result st) current_content
            | control => with_control (result st) current_content
            | living =>
                with_living (result st) (String.concat " " current_content)
            | welfare => with_welfare (result st) current_content
            | severity =>
                let severity_text :=
                  lower (String.concat " " current_content) in
                if contains "extreme" severity_text
                then with_concern (result st) "extreme" 0.95
                else if contains "severe" severity_text
                then with_concern (result st) "severe" 0.85
                else if contains "moderate" severity_text
                then with_concern (result st) "moderate" 0.75
                else with_concern (result st) "minimal" 0.65
            end in
          {| current_section := Some s;
             current_content := current_content;
             result := result |}
        else st
    | None => st
    end.

Definition nonempty (l : list string) : bool :=
  match l with
  | [] => false
  | _ => true
  end.

(** The table that translates the labels of this model to the standard
    ones, read with the default [low]. *)
Definition standard_level (concern_level : string) : string :=
  if String.eqb concern_level "extreme" then "critical"
  else if String.eqb concern_level "severe" then "high"
  else if String.eqb concern_level "moderate" then "medium"
  else if String.eqb concern_level "minimal" then "low"
  else "low".

(** The body of the [try] block of [_parse_analysis_response]. *)
Definition parse_analysis_response (response_text : string) : Result :=
  let result :=
    {| scene_description := "";
       exploitation_indicators := [];
       control_indicators := [];
       living_conditions := "";
       welfare_concerns := [];
       concern_level := "minimal";
       confidence_score := 0.0;
       raw_analysis := response_text;
       standard_concern_level := None |} in
  let lines := split_lines response_text in
  let st :=
    fold_left parse_line lines
              {| current_section := None;
                 current_content := [];
                 result := result |} in
  let result := GemmaAnalyzer.result st in
  let result :=
    if nonempty (exploitation_indicators result)
       || nonempty (control_indicators result)
    then
      let descriptions : list string := [] in
      let descriptions :=
        if nonempty (exploitation_indicators result)
        then append descriptions
               ("Exploitation concerns: "
                  ++ String.concat ", "
                       (firstn 3 (exploitation_indicators result)))
        else descriptions in
      let descriptions :=
        if nonempty (control_indicators result)
        then append descriptions
               ("Control indicators: "
                  ++ String.concat ", "
                       (firstn 3 (control_indicators result)))
        else descriptions in
      let descriptions :=
        if nonempty (welfare_concerns result)
        then append descriptions
               ("Welfare issues: "
                  ++ String.concat ", " (firstn 3 (welfare_concerns result)))
        else descriptions in
      with_scene result (String.concat ". " descriptions)
    else result in
  with_standard result (standard_level (concern_level result)).

(** The entries of the result that hold text and lists, as the dictionary
    handed to [combine_analyses].  The number under [confidence_score] is
    left out, and so are the processing time and the model names that
    [analyze_image] adds on the way: the ensemble step reads none of them
    for what it combines. *)
Definition as_dict (r : Result) : dict :=
  ([ ("scene_description", VStr (scene_description r));
     ("exploitation_indicators", VList (exploitation_indicators r));
     ("control_indicators", VList (control_indicators r));
     ("living_conditions", VStr (living_conditions r));
     ("welfare_concerns", VList (welfare_concerns r));
     ("concern_level", VStr (concern_level r));
     ("raw_analysis", VStr (raw_analysis r)) ]
   ++ match standard_concern_level r with
      | Some level => [("standard_concern_level", VStr level)]
      | None => []
      end)%list.

(** The words that make a line a heading whenever it mentions one of
    them. *)
Definition heading_words : list string :=
  [ "EXPLOITATION"; "CONTROL"; "RESTRICTION"; "WELFARE"; "SEVERITY";
    "RATING" ].

(** The text mentions one of them, in whatever letter case. *)
Definition mentions_heading (s : string) : bool :=
  existsb (fun word => contains word (upper s)) heading_words.

(** The indicators of a result, list after list. *)
Definition indicators (r : Result) : list string :=
  (exploitation_indicators r ++ control_indicators r
   ++ welfare_concerns r)%list.

(** An answer with three sections. *)
Definition sample_response : string :=
  String.concat (String newline "")
    [ "1. EXPLOITATION INDICATORS:";
      "- no helmets";
      "  workers at height  ";
      "";
      "2. CONTROL AND RESTRICTION:";
      "- guards at the gate";
      "5. SEVERITY RATING:";
      "Severe, close to extreme" ].

End GemmaAnalyzer.

(** ** The ensemble step of [process_missing_gemma.py]

    The body that [process_missing_gemma_analysis] runs for one row once
    the second model has answered: it stores the second model's label and
    indicators, builds the first record from the columns of the row,
    combines, scores and flags.  An exception is caught by the loop, which
    rolls the row back and counts it as failed, like a missing answer. *)

Module MissingGemma.

(** The columns of the row that the step reads, as Python values: a NULL
    column is [None]. *)
Record Analysis : Type := {
  concern_level : value;
  concern_indicators : value;
  restriction_indicators : value;
  scene_description : value;
  personnel_count : value;
  supervision_present : value
}.

(** What the step writes to the row and reports. *)
Record Stored : Type := {
  gemma_description : value;
  gemma_concern_level : value;
  gemma_indicators : list string;
  ensemble_concern_level : string;
  ensemble_confidence : Q;
  priority : Q;
  flagged : bool
}.

(** [if d.get(k): l.extend(d[k])]. *)
Definition extend_from (l : list string) (d : dict) (k : string)
  : result (list string) :=
  if truthy (get d k VNone) then
    match get d k VNone with
    | VList items => Ok (l ++ items)%list
    | VStr t => Ok (l ++ chars t)%list
    | VNone | VBool _ | VInt _ => Raise TypeError
    end
  else Ok l.

(** The dictionary literal built from the row. *)
Definition llava_result (analysis : Analysis) : dict :=
  [ ("concern_level", concern_level analysis);
    ("concern_indicators", or_ (concern_indicators analysis) (VList []));
    ("restriction_indicators",
     or_ (restriction_indicators analysis) (VList []));
    ("scene_description", scene_description analysis);
    ("personnel_count", personnel_count analysis);
    ("supervision_present", supervision_present analysis) ].

(** The statements between the test of the answer and the commit. *)
Definition combine_row (enum : pyset -> list string) (analysis : Analysis)
           (gemma_result : dict) : result Stored :=
  let gemma_description := get gemma_result "scene_description" (VStr "") in
  let gemma_concern :=
    or_ (get gemma_result "standard_concern_level" VNone)
        (get gemma_result "concern_level" (VStr "low")) in
  let gemma_indicators : list string := [] in
  gemma_indicators <-
    extend_from gemma_indicators gemma_result "exploitation_indicators" ;;
  gemma_indicators <-
    extend_from gemma_indicators gemma_result "control_indicators" ;;
  gemma_indicators <-
    extend_from gemma_indicators gemma_result "welfare_concerns" ;;
  let llava_result := llava_result analysis in
  combined <- combine_analyses enum llava_result gemma_result ;;
  priority <- calculate_priority_score combined llava_result gemma_result ;;
  Ok {| gemma_description := gemma_description;
        gemma_concern_level := gemma_concern;
        gemma_indicators := firstn 10 gemma_indicators;
        ensemble_concern_level := Ensemble.ensemble_concern_level combined;
        ensemble_confidence := Ensemble.ensemble_confidence combined;
        priority := priority;
        flagged := should_flag_for_review combined |}.

(** ['error_message' not in d]. *)
Definition lacks (d : dict) (k : string) : bool :=
  match lookup d k with
  | Some _ => false
  | None => true
  end.

(** One round of the loop for a row and the answer of the second model:
    what is committed, or [None] when the row is counted as failed and
    left as it was. *)
Definition ensemble_step (enum : pyset -> list string) (analysis : Analysis)
           (gemma_result : option dict) : option Stored :=
  match gemma_result with
  | Some ((_ :: _) as answer) =>
      if lacks answer "error_message"
      then match combine_row enum analysis answer with
           | Ok stored => Some stored
           | Raise _ => None
           end
      else None
  | _ => None
  end.

(** Every column holds NULL or a value of its declared type. *)
Definition column_typed (analysis : Analysis) : Prop :=
  match concern_level analysis with
  | VNone | VStr _ => True | _ => False end
  /\ match concern_indicators analysis with
     | VNone | VList _ => True | _ => False end
  /\ match restriction_indicators analysis with
     | VNone | VList _ => True | _ => False end
  /\ match scene_description analysis with
     | VNone | VStr _ => True | _ => False end
  /\ match personnel_count analysis with
     | VNone | VInt _ => True | _ => False end
  /\ match supervision_present analysis with
     | VNone | VBool _ => True | _ => False end.

(** A row of the sample with five persons, and the same with a NULL
    count. *)
Definition counted_row : Analysis :=
  {| concern_level := VStr "high";
     concern_indicators := VList ["no safety gear"; "working at height"];
     restriction_indicators := VNone;
     scene_description := VStr "Workers on a building site";
     personnel_count := VInt 5;
     supervision_present := VBool false |}.

Definition uncounted_row : Analysis :=
  {| concern_level := VStr "high";
     concern_indicators := VList ["no safety gear"; "working at height"];
     restriction_indicators := VNone;
     scene_description := VStr "Workers on a building site";
     personnel_count := VNone;
     supervision_present := VBool false |}.

End MissingGemma.

(** ** Shapes of field values *)

Module Shape.

Import View.

(** A value that can be a dictionary key. *)
Definition hashable (v : value) : Prop :=
  match v with
  | VList _ => False
  | _ => True
  end.

(** A value that a condition skips, or that can be iterated and sliced. *)
Definition skipped_or_sequence (v : value) : Prop :=
  match v with
  | VStr _ | VList _ => True
  | _ => truthy v = false
  end.

(** A value that can be compared with an integer. *)
Definition number (v : value) : Prop :=
  match v with
  | VInt _ | VBool _ => True
  | _ => False
  end.

(** The fields [combine_analyses] reads from its first argument. *)
Definition llava_keys : list string :=
  [ "concern_level"; "concern_indicators"; "restriction_indicators";
    "scene_description"; "personnel_count"; "supervision_present" ].

(** The fields it reads from its second argument. *)
Definition gemma_keys : list string :=
  [ "concern_level"; "standard_concern_level"; "exploitation_indicators";
    "control_indicators"; "welfare_concerns"; "scene_description" ].

(** Two dictionaries bind the keys of [keys] alike. *)
Definition agree_on (keys : list string) (d d' : dict) : Prop :=
  forall k, In k keys -> lookup d k = lookup d' k.

(** The shapes on which [combine_analyses] returns. *)
Definition accepted (llava_result gemma_result : dict) : Prop :=
  hashable (llava_label llava_result)
  /\ hashable (gemma_label gemma_result)
  /\ skipped_or_sequence (get llava_result "concern_indicators" VNone)
  /\ skipped_or_sequence (get llava_result "restriction_indicators" VNone)
  /\ skipped_or_sequence (get gemma_result "exploitation_indicators" VNone)
  /\ skipped_or_sequence (get gemma_result "control_indicators" VNone)
  /\ skipped_or_sequence (get gemma_result "welfare_concerns" VNone)
  /\ skipped_or_sequence (get llava_result "scene_description" VNone)
  /\ skipped_or_sequence (get gemma_result "scene_description" VNone)
  /\ number (get llava_result "personnel_count" (VInt 0)).

(** The label of the second record as the narrative reads it. *)
Definition gemma_narrative_label (gemma_result : dict) : value :=
  or_ (get gemma_result "concern_level" VNone)
      (get gemma_result "standard_concern_level" (VStr "unknown")).

(** The first record of the sample, with a field nothing reads. *)
Definition timed_llava : dict :=
  ("processing_time", VInt 3) :: Sample.high_llava.

End Shape.

Import View.

(** ** Basic facts *)

Lemma bind_ok {A B : Type} (c : result A) (k : A -> result B) (b : B) :
  bind c k = Ok b -> exists a, c = Ok a /\ k a = Ok b.
Proof.
  destruct c as [a | e]; simpl; intros H.
  - exists a. split; [reflexivity | exact H].
  - discriminate H.
Qed.

Lemma table_get_concern_map_range (v : value) (n : Z) :
  table_get concern_map v 1 = Ok n -> 1 <= n <= 4.
Proof.
  destruct v as [ | b | m | s | l]; simpl; intros H;
    try (injection H as <-; lia); try discriminate H.
  repeat match type of H with
         | context [String.eqb s ?k] => destruct (String.eqb s k)
         end; injection H as <-; lia.
Qed.

Lemma score_of_range (label : string) :
  1 <= EnsembleAnalyzer.score_of label <= 4.
Proof.
  unfold EnsembleAnalyzer.score_of, EnsembleAnalyzer.concern_scores; simpl.
  repeat match goal with
         | |- context [String.eqb label ?k] => destruct (String.eqb label k)
         end; lia.
Qed.

Lemma small_cases (n : Z) :
  1 <= n <= 4 -> n = 1 \/ n = 2 \/ n = 3 \/ n = 4.
Proof. lia. Qed.

(** Splits a score known to lie in 1..4 into its four values. *)
Ltac split_score H :=
  apply small_cases in H; destruct H as [-> | [-> | [-> | ->]]].

(** What a successful call of [combine_analyses] has computed. *)
Lemma combine_analyses_ok enum llava gemma r :
  combine_analyses enum llava gemma = Ok r ->
  exists sA sB pool text,
    table_get concern_map (llava_label llava) 1 = Ok sA
    /\ table_get concern_map (gemma_label gemma) 1 = Ok sB
    /\ pooled llava gemma = Ok pool
    /\ create_consensus_description llava gemma = Ok text
    /\ r = {| ensemble_concern_level := level_of sA sB;
              ensemble_confidence := round2 (confidence_of sA sB);
              llava_score := sA;
              gemma_score := sB;
              agreement_level :=
                get_agreement_level (inject_Z (Z.abs (sA - sB)));
              combined_indicators := firstn 10 (enum pool);
              consensus_description := text |}.
Proof.
  unfold combine_analyses. intros H.
  apply bind_ok in H as (sA & HA & H).
  apply bind_ok in H as (sB & HB & H).
  apply bind_ok in H as (s1 & H1 & H).
  apply bind_ok in H as (s2 & H2 & H).
  apply bind_ok in H as (s3 & H3 & H).
  apply bind_ok in H as (s4 & H4 & H).
  apply bind_ok in H as (s5 & H5 & H).
  apply bind_ok in H as (text & Ht & H).
  exists sA, sB, s5, text.
  repeat split; try assumption.
  - unfold pooled. rewrite H1; simpl. rewrite H2; simpl.
    rewrite H3; simpl. rewrite H4; simpl. exact H5.
  - injection H as <-. reflexivity.
Qed.

Lemma combine_analyses_scores enum llava gemma r :
  combine_analyses enum llava gemma = Ok r ->
  1 <= llava_score r <= 4 /\ 1 <= gemma_score r <= 4.
Proof.
  intros H. apply combine_analyses_ok in H
    as (sA & sB & pool & text & HA & HB & _ & _ & ->); simpl.
  split; eapply table_get_concern_map_range; eassumption.
Qed.

(** Replaces a closed call by its value. *)
Ltac eval_call f :=
  repeat match goal with
         | |- context [f ?a ?b] =>
             let v := eval vm_compute in (f a b) in
             change (f a b) with v
         end.

Ltac q_arith := unfold Qle, Qlt, Qeq; cbn; lia.

(** ** The combined concern level *)

Lemma level_of_thresholds (sA sB : Z) :
  1 <= sA <= 4 -> 1 <= sB <= 4 ->
  Spec.level_for (Spec.average sA sB) (level_of sA sB).
Proof.
  intros HA HB. split_score HA; split_score HB;
    eval_call level_of; unfold Spec.level_for, Spec.average;
    repeat split; intros Hq; try reflexivity;
    exfalso; revert Hq; q_arith.
Qed.

Lemma combine_concern_levels_level (la ga : string) :
  fst (EnsembleAnalyzer.combine_concern_levels la ga)
  = level_of (EnsembleAnalyzer.score_of la) (EnsembleAnalyzer.score_of ga).
Proof. reflexivity. Qed.

(** C2: in both implementations the combined concern label is read off the
    average of the two normalized scores by half-open thresholds: critical
    from 3.5, high from 2.5, medium from 1.5, low below.  Scores (3,4) give
    critical, (2,3) high, (1,2) medium and (1,1) low. *)
Theorem combined_level_thresholds :
  (forall enum llava gemma r,
      combine_analyses enum llava gemma = Ok r ->
      Spec.level_for (Spec.average (llava_score r) (gemma_score r))
                     (ensemble_concern_level r))
  /\ (forall la ga : string,
         Spec.level_for
           (Spec.average (EnsembleAnalyzer.score_of la)
                         (EnsembleAnalyzer.score_of ga))
           (fst (EnsembleAnalyzer.combine_concern_levels la ga)))
  /\ (forall enum,
         combine_analyses enum [("concern_level", VStr "high")]
                          [("concern_level", VStr "extreme")]
         = Ok {| ensemble_concern_level := "critical";
                 ensemble_confidence := 17 # 20;
                 llava_score := 3;
                 gemma_score := 4;
                 agreement_level := "high";
                 combined_indicators := firstn 10 (enum []);
                 consensus_description :=
                   "Models show high (llava) and extreme (gemma) concern levels."
              |})
  /\ fst (EnsembleAnalyzer.combine_concern_levels "high" "critical")
     = "critical"
  /\ fst (EnsembleAnalyzer.combine_concern_levels "medium" "high") = "high"
  /\ fst (EnsembleAnalyzer.combine_concern_levels "low" "medium") = "medium"
  /\ fst (EnsembleAnalyzer.combine_concern_levels "low" "low") = "low".
Proof.
  split; [ | split; [ | split; [ | repeat split ] ] ].
  - intros enum llava gemma r H.
    destruct (combine_analyses_scores _ _ _ _ H) as [HA HB].
    apply combine_analyses_ok in H
      as (sA & sB & pool & text & _ & _ & _ & _ & ->); simpl in *.
    apply level_of_thresholds; assumption.
  - intros la ga. rewrite combine_concern_levels_level.
    apply level_of_thresholds; apply score_of_range.
  - intros enum. reflexivity.
Qed.

(** The theorem at the end-to-end scenario of the specification. *)
Lemma combined_level_thresholds_witness :
  combine_analyses Sample.insertion_order Sample.high_llava Sample.severe_gemma
  = Ok Sample.high_severe
  /\ Spec.level_for (Spec.average 3 3) "high".
Proof.
  assert (H : combine_analyses Sample.insertion_order Sample.high_llava
                               Sample.severe_gemma
              = Ok Sample.high_severe) by reflexivity.
  split; [exact H | ].
  exact (proj1 combined_level_thresholds _ _ _ _ H).
Defined.

(** ** The confidence *)

(** Rounding to two decimals leaves the confidences of [combine_analyses]
    as they are. *)
Lemma confidence_of_formula (sA sB : Z) :
  1 <= sA <= 4 -> 1 <= sB <= 4 ->
  (round2 (confidence_of sA sB) ==
   if (3 <=? sA) && (3 <=? sB)
   then Spec.boost (Spec.base_confidence sA sB)
   else Spec.base_confidence sA sB)%Q.
Proof.
  intros HA HB. split_score HA; split_score HB; vm_compute; reflexivity.
Qed.

Lemma combine_concern_levels_formula (la ga : string) :
  let sA := EnsembleAnalyzer.score_of la in
  let sB := EnsembleAnalyzer.score_of ga in
  (snd (EnsembleAnalyzer.combine_concern_levels la ga) ==
   if 5 <=? sA + sB
   then Spec.boost (Spec.base_confidence sA sB)
   else Spec.base_confidence sA sB)%Q.
Proof.
  intros sA sB.
  assert (HA : 1 <= sA <= 4) by apply score_of_range.
  assert (HB : 1 <= sB <= 4) by apply score_of_range.
  unfold EnsembleAnalyzer.combine_concern_levels.
  fold sA. fold sB. clearbody sA sB.
  split_score HA; split_score HB; vm_compute; reflexivity.
Qed.

(** C1, as the code has it: [combine_analyses] returns
    [1.0 - 0.25 * |sA - sB|], with [+0.1] capped at [1.0] added exactly when
    both scores are at least 3, so that scores (4,1) get 0.25 and no boost.
    [EnsembleAnalyzer.combine_concern_levels] starts from the same base
    value (1.0, 0.75, 0.5, 0.25 for a difference of 0, 1, 2, 3) but adds the
    capped [+0.1] exactly when the combined level is high or critical, that
    is when [sA + sB >= 5]; there scores (4,1) get 0.35. *)
Theorem confidence_by_agreement :
  (forall enum llava gemma r,
      combine_analyses enum llava gemma = Ok r ->
      let sA := llava_score r in
      let sB := gemma_score r in
      (ensemble_confidence r ==
       if (3 <=? sA) && (3 <=? sB)
       then Spec.boost (Spec.base_confidence sA sB)
       else Spec.base_confidence sA sB)%Q)
  /\ (forall la ga : string,
         let sA := EnsembleAnalyzer.score_of la in
         let sB := EnsembleAnalyzer.score_of ga in
         (snd (EnsembleAnalyzer.combine_concern_levels la ga) ==
          if 5 <=? sA + sB
          then Spec.boost (Spec.base_confidence sA sB)
          else Spec.base_confidence sA sB)%Q
         /\ ((5 <=? sA + sB)
             = Spec.one_of (fst (EnsembleAnalyzer.combine_concern_levels la ga))
                           ["high"; "critical"]))
  /\ (forall sA sB : Z,
         (Z.abs (sA - sB) = 0 -> (Spec.base_confidence sA sB == 1)%Q)
         /\ (Z.abs (sA - sB) = 1 -> (Spec.base_confidence sA sB == (3 # 4))%Q)
         /\ (Z.abs (sA - sB) = 2 -> (Spec.base_confidence sA sB == (1 # 2))%Q)
         /\ (Z.abs (sA - sB) = 3 -> (Spec.base_confidence sA sB == (1 # 4))%Q))
  /\ (forall enum,
         combine_analyses enum [("concern_level", VStr "critical")]
                          [("concern_level", VStr "low")]
         = Ok {| ensemble_concern_level := "high";
                 ensemble_confidence := 1 # 4;
                 llava_score := 4;
                 gemma_score := 1;
                 agreement_level := "low";
                 combined_indicators := firstn 10 (enum []);
                 consensus_description :=
                   "Models show critical (llava) and low (gemma) concern levels."
              |})
  /\ (snd (EnsembleAnalyzer.combine_concern_levels "critical" "low")
      == (35 # 100))%Q.
Proof.
  split; [ | split; [ | split; [ | split ] ] ].
  - intros enum llava gemma r H.
    destruct (combine_analyses_scores _ _ _ _ H) as [HA HB].
    apply combine_analyses_ok in H
      as (sA & sB & pool & text & _ & _ & _ & _ & ->); simpl in *.
    apply confidence_of_formula; assumption.
  - intros la ga sA sB. split.
    + apply combine_concern_levels_formula.
    + rewrite combine_concern_levels_level. fold sA. fold sB.
      assert (HA : 1 <= sA <= 4) by apply score_of_range.
      assert (HB : 1 <= sB <= 4) by apply score_of_range.
      clearbody sA sB. split_score HA; split_score HB; reflexivity.
  - intros sA sB. unfold Spec.base_confidence.
    repeat split; intros ->; reflexivity.
  - intros enum. reflexivity.
  - reflexivity.
Qed.

(** The theorem at the missing-data scenario: scores (1,4), no boost. *)
Lemma confidence_by_agreement_witness :
  combine_analyses Sample.insertion_order Sample.unlabelled
                   Sample.critical_gemma
  = Ok Sample.unlabelled_critical
  /\ ((1 # 4) == Spec.base_confidence 1 4)%Q.
Proof.
  assert (H : combine_analyses Sample.insertion_order Sample.unlabelled
                               Sample.critical_gemma
              = Ok Sample.unlabelled_critical) by reflexivity.
  split; [exact H | ].
  exact (proj1 confidence_by_agreement _ _ _ _ H).
Defined.

(** C1 fails as stated: with labels critical and low, that is scores (4,1),
    [combine_concern_levels] returns the boosted 0.35, not
    [1.0 - 0.25 * 3 = 0.25]. *)
Lemma confidence_boost_counterexample :
  EnsembleAnalyzer.score_of "critical" = 4
  /\ EnsembleAnalyzer.score_of "low" = 1
  /\ (snd (EnsembleAnalyzer.combine_concern_levels "critical" "low")
      == (35 # 100))%Q
  /\ Qeq_bool (snd (EnsembleAnalyzer.combine_concern_levels "critical" "low"))
              (Spec.base_confidence 4 1)
     = false.
Proof. repeat split. Qed.

(** C10: the confidence returned by [combine_analyses] lies between 0.25
    and 1.0. *)
Theorem ensemble_confidence_range enum llava gemma r :
  combine_analyses enum llava gemma = Ok r ->
  ((1 # 4) <= ensemble_confidence r <= 1)%Q.
Proof.
  intros H.
  destruct (combine_analyses_scores _ _ _ _ H) as [HA HB].
  apply combine_analyses_ok in H
    as (sA & sB & pool & text & _ & _ & _ & _ & ->); simpl in *.
  split_score HA; split_score HB; vm_compute; split; discriminate.
Qed.

(** The theorem at the missing-data scenario, where the lower bound is
    met. *)
Lemma ensemble_confidence_range_witness :
  combine_analyses Sample.insertion_order Sample.unlabelled
                   Sample.critical_gemma
  = Ok Sample.unlabelled_critical
  /\ ((1 # 4) <= (1 # 4) <= 1)%Q.
Proof.
  assert (H : combine_analyses Sample.insertion_order Sample.unlabelled
                               Sample.critical_gemma
              = Ok Sample.unlabelled_critical) by reflexivity.
  split; [exact H | ].
  exact (ensemble_confidence_range _ _ _ _ H).
Defined.

(** Both bounds are reached. *)
Lemma ensemble_confidence_bounds_met :
  ensemble_confidence Sample.unlabelled_critical = (1 # 4)%Q
  /\ ensemble_confidence Sample.high_severe = 1%Q.
Proof. split; reflexivity. Qed.

(** ** The normalizer *)

Lemma eqb_false_of_not_in (s k : string) (l : list string) :
  ~ In s l -> In k l -> String.eqb s k = false.
Proof.
  intros Hs Hk. apply String.eqb_neq. intros ->. exact (Hs Hk).
Qed.

Lemma table_get_unknown (s : string) :
  ~ In s Spec.known_labels -> table_get concern_map (VStr s) 1 = Ok 1.
Proof.
  intros Hs. simpl.
  repeat match goal with
         | |- context [String.eqb s ?k] =>
             rewrite (eqb_false_of_not_in s k Spec.known_labels Hs)
               by (simpl; tauto)
         end.
  reflexivity.
Qed.

Lemma table_get_normalize (s : string) :
  table_get concern_map (VStr s) 1 = Ok (Spec.normalize s).
Proof.
  unfold Spec.normalize, Spec.one_of. simpl.
  repeat match goal with
         | |- context [String.eqb s ?k] =>
             destruct (String.eqb_spec s k) as [-> | ?]; [reflexivity | ]
         end.
  reflexivity.
Qed.

Lemma score_of_normalize_standard (s : string) :
  EnsembleAnalyzer.score_of s = Spec.normalize_standard s.
Proof.
  unfold EnsembleAnalyzer.score_of, Spec.normalize_standard, Spec.one_of.
  simpl.
  repeat match goal with
         | |- context [String.eqb s ?k] =>
             destruct (String.eqb_spec s k) as [-> | ?]; [reflexivity | ]
         end.
  reflexivity.
Qed.

(** C5, as the code has it: [combine_analyses] normalizes the labels of
    both models by the eight-entry table (low/minimal 1, medium/moderate 2,
    high/severe 3, critical/extreme 4), and a label that is unknown or
    missing scores 1 without an error.  [EnsembleAnalyzer] knows the
    standard four labels only: there minimal, moderate, severe and extreme
    score 1 like any unknown label. *)
Theorem label_normalization :
  (table_get concern_map (VStr "low") 1 = Ok 1
   /\ table_get concern_map (VStr "medium") 1 = Ok 2
   /\ table_get concern_map (VStr "high") 1 = Ok 3
   /\ table_get concern_map (VStr "critical") 1 = Ok 4
   /\ table_get concern_map (VStr "minimal") 1 = Ok 1
   /\ table_get concern_map (VStr "moderate") 1 = Ok 2
   /\ table_get concern_map (VStr "severe") 1 = Ok 3
   /\ table_get concern_map (VStr "extreme") 1 = Ok 4)
  /\ (forall s : string,
         ~ In s Spec.known_labels -> table_get concern_map (VStr s) 1 = Ok 1)
  /\ table_get concern_map VNone 1 = Ok 1
  /\ (forall d : dict,
         lookup d "concern_level" = None ->
         llava_label d = VStr "low"
         /\ (lookup d "standard_concern_level" = None ->
             gemma_label d = VStr "low"))
  /\ (forall enum llava gemma r,
         combine_analyses enum llava gemma = Ok r ->
         llava_score r = Spec.normalize_value (llava_label llava)
         /\ gemma_score r = Spec.normalize_value (gemma_label gemma))
  /\ (forall s : string,
         EnsembleAnalyzer.score_of s = Spec.normalize_standard s)
  /\ (EnsembleAnalyzer.score_of "minimal" = 1
      /\ EnsembleAnalyzer.score_of "moderate" = 1
      /\ EnsembleAnalyzer.score_of "severe" = 1
      /\ EnsembleAnalyzer.score_of "extreme" = 1).
Proof.
  split; [repeat split | ].
  split; [exact table_get_unknown | ].
  split; [reflexivity | ].
  split; [ | split; [ | split; [exact score_of_normalize_standard
                               | repeat split ] ] ].
  - intros d Hd. unfold llava_label, gemma_label, get. rewrite Hd.
    split; [reflexivity | ]. intros ->. reflexivity.
  - intros enum llava gemma r H.
    apply combine_analyses_ok in H
      as (sA & sB & pool & text & HA & HB & _ & _ & ->); simpl.
    split.
    + destruct (llava_label llava) as [ | b | n | s | l];
        try rewrite table_get_normalize in HA;
        try discriminate HA; injection HA as <-; reflexivity.
    + destruct (gemma_label gemma) as [ | b | n | s | l];
        try rewrite table_get_normalize in HB;
        try discriminate HB; injection HB as <-; reflexivity.
Qed.

(** The theorem at the end-to-end scenario: high scores 3, and severe,
    found under the second field name, scores 3. *)
Lemma label_normalization_witness :
  combine_analyses Sample.insertion_order Sample.high_llava Sample.severe_gemma
  = Ok Sample.high_severe
  /\ 3 = Spec.normalize_value (VStr "high")
  /\ 3 = Spec.normalize_value (VStr "severe").
Proof.
  assert (H : combine_analyses Sample.insertion_order Sample.high_llava
                               Sample.severe_gemma
              = Ok Sample.high_severe) by reflexivity.
  split; [exact H | ].
  exact (proj1 (proj2 (proj2 (proj2 (proj2 label_normalization))))
           _ _ _ _ H).
Defined.

(** C5 fails as stated on the second implementation: the alternate labels
    above minimal do not get their table score there. *)
Lemma alternate_labels_counterexample :
  (Spec.normalize "moderate" = 2 /\ EnsembleAnalyzer.score_of "moderate" = 1)
  /\ (Spec.normalize "severe" = 3 /\ EnsembleAnalyzer.score_of "severe" = 1)
  /\ (Spec.normalize "extreme" = 4 /\ EnsembleAnalyzer.score_of "extreme" = 1)
  /\ EnsembleAnalyzer.combine_concern_levels "high" "severe"
     = ("medium", 0.5%Q).
Proof. repeat split. Qed.

(** ** Exchanging the two arguments *)

Lemma level_of_sym (sA sB : Z) : level_of sA sB = level_of sB sA.
Proof. unfold level_of. rewrite (Z.add_comm sA sB). reflexivity. Qed.

Lemma confidence_of_sym (sA sB : Z) :
  confidence_of sA sB = confidence_of sB sA.
Proof.
  unfold confidence_of.
  replace (Z.abs (sB - sA)) with (Z.abs (sA - sB)) by lia.
  rewrite (andb_comm (3 <=? sA)). reflexivity.
Qed.

(** A record whose label is a non-empty text under [concern_level] reads
    the same in both positions. *)
Lemma position_free_plain (d : dict) (s : string) :
  lookup d "concern_level" = Some (VStr s) -> s <> "" -> position_free d.
Proof.
  intros Hd Hs. unfold position_free, llava_label, gemma_label, get, or_.
  rewrite Hd. simpl.
  destruct (String.eqb_spec s ""); [contradiction | reflexivity].
Qed.

(** So does a record with neither label field. *)
Lemma position_free_unlabelled (d : dict) :
  lookup d "concern_level" = None ->
  lookup d "standard_concern_level" = None -> position_free d.
Proof.
  intros H1 H2. unfold position_free, llava_label, gemma_label, get, or_.
  rewrite H1, H2. reflexivity.
Qed.

(** C4, as the code has it: [combine_analyses] returns the same level and
    the same confidence for (A, B) and for (B, A) whenever each record's
    label normalizes to the same score in either position, as it does when
    the label is a non-empty text under [concern_level]. *)
Theorem combine_analyses_exchange enum enum' A B r r' :
  position_free A -> position_free B ->
  combine_analyses enum A B = Ok r ->
  combine_analyses enum' B A = Ok r' ->
  ensemble_concern_level r = ensemble_concern_level r'
  /\ ensemble_confidence r = ensemble_confidence r'
  /\ agreement_level r = agreement_level r'.
Proof.
  unfold position_free. intros PA PB H H'.
  apply combine_analyses_ok in H
    as (sA & sB & pool & text & HA & HB & _ & _ & ->).
  apply combine_analyses_ok in H'
    as (sB' & sA' & pool' & text' & HB' & HA' & _ & _ & ->).
  simpl.
  assert (sA' = sA) by congruence.
  assert (sB' = sB) by congruence.
  subst sA' sB'.
  rewrite (level_of_sym sB sA), (confidence_of_sym sB sA).
  replace (Z.abs (sB - sA)) with (Z.abs (sA - sB)) by lia.
  repeat split.
Qed.

(** The theorem at two records labelled high and minimal. *)
Lemma combine_analyses_exchange_witness :
  position_free Sample.plain_high
  /\ position_free Sample.plain_minimal
  /\ combine_analyses Sample.insertion_order Sample.plain_high
                      Sample.plain_minimal
     = Ok Sample.high_minimal
  /\ combine_analyses Sample.reverse_order Sample.plain_minimal
                      Sample.plain_high
     = Ok Sample.minimal_high
  /\ "medium" = "medium"
  /\ (1 # 2)%Q = (1 # 2)%Q
  /\ "moderate" = "moderate".
Proof.
  assert (PA : position_free Sample.plain_high) by reflexivity.
  assert (PB : position_free Sample.plain_minimal) by reflexivity.
  assert (H : combine_analyses Sample.insertion_order Sample.plain_high
                               Sample.plain_minimal
              = Ok Sample.high_minimal) by reflexivity.
  assert (H' : combine_analyses Sample.reverse_order Sample.plain_minimal
                                Sample.plain_high
               = Ok Sample.minimal_high) by reflexivity.
  split; [exact PA | split; [exact PB | split; [exact H | split; [exact H' | ]]]].
  exact (combine_analyses_exchange _ _ _ _ _ _ PA PB H H').
Defined.

(** C4 fails as stated: a record that carries its label under
    [standard_concern_level] only is read as severe in the second position
    and as unlabelled in the first. *)
Lemma combine_analyses_exchange_counterexample :
  combine_analyses Sample.insertion_order Sample.high_llava Sample.severe_gemma
  = Ok Sample.high_severe
  /\ combine_analyses Sample.insertion_order Sample.severe_gemma
                      Sample.high_llava
     = Ok Sample.severe_high
  /\ ensemble_concern_level Sample.high_severe = "high"
  /\ ensemble_concern_level Sample.severe_high = "medium"
  /\ ensemble_confidence Sample.high_severe = 1%Q
  /\ ensemble_confidence Sample.severe_high = (1 # 2)%Q.
Proof. repeat split. Qed.

(** ** The review flag *)

(** C6: [should_flag_for_review] answers true exactly when the level is
    high or critical with confidence at least 0.75, or the agreement is low
    with one of the two scores at least 3, or there are at least five
    combined indicators. *)
Theorem should_flag_for_review_iff (r : EnsembleResult) :
  should_flag_for_review r = true
  <-> ((ensemble_concern_level r = "high"
        \/ ensemble_concern_level r = "critical")
       /\ (0.75 <= ensemble_confidence r)%Q)
      \/ (agreement_level r = "low"
          /\ (3 <= llava_score r \/ 3 <= gemma_score r))
      \/ (5 <= List.length (combined_indicators r))%nat.
Proof.
  unfold should_flag_for_review.
  destruct (String.eqb_spec (ensemble_concern_level r) "high") as [Hh | Hh];
    destruct (String.eqb_spec (ensemble_concern_level r) "critical")
      as [Hc | Hc];
    destruct (Qle_bool 0.75 (ensemble_confidence r)) eqn:Hq;
    destruct (String.eqb_spec (agreement_level r) "low") as [Ha | Ha];
    destruct (Z.leb_spec 3 (llava_score r));
    destruct (Z.leb_spec 3 (gemma_score r));
    destruct (Nat.leb_spec 5 (List.length (combined_indicators r)));
    simpl;
    try (apply Qle_bool_iff in Hq);
    try (assert (Hn : ~ (0.75 <= ensemble_confidence r)%Q)
           by (rewrite <- Qle_bool_iff, Hq; discriminate));
    split; intros Hflag; try reflexivity; try discriminate Hflag;
    try tauto; try (exfalso; intuition lia).
Qed.

(** ** Text search and letter case *)

Lemma prefix_iff (needle hay : string) :
  String.prefix needle hay = true <-> exists after, hay = needle ++ after.
Proof.
  revert needle. induction hay as [ | c hay IH]; intros [ | a needle]; simpl.
  - split; [intros _; exists ""; reflexivity | reflexivity].
  - split; [discriminate | intros [after H]; discriminate H].
  - split; [intros _; eexists; reflexivity | reflexivity].
  - destruct (ascii_dec a c) as [-> | Hac].
    + rewrite IH. split; intros [after H]; exists after.
      * rewrite H. reflexivity.
      * injection H as H. exact H.
    + split; [discriminate | ].
      intros [after H]. injection H as H _. congruence.
Qed.

(** [contains] decides the occurrence of one text inside another. *)
Lemma contains_iff (needle hay : string) :
  contains needle hay = true <-> Spec.substring needle hay.
Proof.
  unfold Spec.substring.
  induction hay as [ | c hay IH]; cbn [contains]; rewrite orb_true_iff.
  - split.
    + intros [H | H]; [ | discriminate H].
      apply prefix_iff in H as [after H]. exists "", after. exact H.
    + intros (before & after & H). left. apply prefix_iff.
      destruct before; [ | discriminate H].
      exists after. exact H.
  - rewrite IH. split.
    + intros [H | (before & after & H)].
      * apply prefix_iff in H as [after H]. exists "", after. exact H.
      * exists (String c before), after. simpl. rewrite H. reflexivity.
    + intros (before & after & H). destruct before as [ | b before].
      * left. apply prefix_iff. exists after. exact H.
      * right. injection H as _ H. exists before, after. exact H.
Qed.

(** ** The indicator lists of [EnsembleAnalyzer] *)

Lemma add_new_app (acc g1 g2 : list string) :
  EnsembleAnalyzer.add_new acc (g1 ++ g2)
  = EnsembleAnalyzer.add_new (EnsembleAnalyzer.add_new acc g1) g2.
Proof.
  revert acc. induction g1 as [ | i g1 IH]; intros acc; simpl.
  - reflexivity.
  - destruct (existsb (EnsembleAnalyzer.similar i) acc); simpl; apply IH.
Qed.

(** Accepted indicators are never removed again. *)
Lemma add_new_extends (acc g : list string) :
  exists kept, EnsembleAnalyzer.add_new acc g = (acc ++ kept)%list.
Proof.
  revert acc. induction g as [ | i g IH]; intros acc; simpl.
  - exists []. symmetry. apply app_nil_r.
  - destruct (existsb (EnsembleAnalyzer.similar i) acc); simpl.
    + apply IH.
    + destruct (IH (append acc i)) as [kept H]. exists (i :: kept).
      rewrite H. unfold append. rewrite <- app_assoc. reflexivity.
Qed.

Lemma combine_indicators_eq (llava gemma : list string) :
  EnsembleAnalyzer.combine_indicators llava gemma
  = firstn 15 (EnsembleAnalyzer.add_new llava gemma).
Proof.
  unfold EnsembleAnalyzer.combine_indicators.
  destruct llava, gemma; reflexivity.
Qed.

(** ** The indicator set of [combine_analyses] *)

Lemma existsb_eqb_iff (x : string) (s : list string) :
  existsb (String.eqb x) s = true <-> In x s.
Proof.
  rewrite existsb_exists. split.
  - intros (y & Hy & E). apply String.eqb_eq in E. subst y. exact Hy.
  - intros H. exists x. split; [exact H | apply String.eqb_refl].
Qed.

Lemma set_add_in (s : pyset) (y x : string) :
  In x (set_add s y) <-> In x s \/ x = y.
Proof.
  unfold set_add. destruct (existsb (String.eqb y) s) eqn:E.
  - apply existsb_eqb_iff in E. split; [tauto | ].
    intros [H | ->]; assumption.
  - rewrite in_app_iff. simpl. intuition congruence.
Qed.

Lemma set_add_nodup (s : pyset) (y : string) :
  NoDup s -> NoDup (set_add s y).
Proof.
  intros Hs. unfold set_add. destruct (existsb (String.eqb y) s) eqn:E.
  - exact Hs.
  - apply NoDup_app.
    + exact Hs.
    + repeat constructor. intros [].
    + intros x Hx [<- | []].
      apply existsb_eqb_iff in Hx. congruence.
Qed.

Lemma set_add_length (s : pyset) (y : string) :
  (List.length (set_add s y) <= S (List.length s))%nat.
Proof.
  unfold set_add. destruct (existsb (String.eqb y) s).
  - lia.
  - rewrite length_app. simpl. lia.
Qed.

Lemma fold_set_add (l : list string) (s : pyset) :
  NoDup s ->
  NoDup (fold_left set_add l s)
  /\ (forall x, In x (fold_left set_add l s) <-> In x s \/ In x l)
  /\ (List.length (fold_left set_add l s)
      <= List.length s + List.length l)%nat.
Proof.
  revert s. induction l as [ | y l IH]; intros s Hs; simpl.
  - split; [exact Hs | split; [intros x; tauto | lia]].
  - destruct (IH (set_add s y) (set_add_nodup s y Hs)) as (N & M & L).
    split; [exact N | split].
    + intros x. rewrite M, set_add_in. intuition congruence.
    + pose proof (set_add_length s y). lia.
Qed.

Lemma update_from_list (s : pyset) (d : dict) (k : string) :
  list_field d k -> update_from s d k = Ok (fold_left set_add (listed d k) s).
Proof.
  unfold list_field, update_from, listed.
  destruct (get d k VNone) as [ | b | n | t | l]; simpl; try contradiction.
  - reflexivity.
  - destruct l; reflexivity.
Qed.

(** With list fields the pooled set is what the five lists add, one after
    the other, to the empty set. *)
Lemma pooled_lists (llava gemma : dict) :
  list_fields llava gemma ->
  pooled llava gemma = Ok (fold_left set_add (all_indicators llava gemma) []).
Proof.
  intros (H1 & H2 & H3 & H4 & H5). unfold pooled, all_indicators.
  rewrite !fold_left_app.
  rewrite (update_from_list _ _ _ H1); simpl.
  rewrite (update_from_list _ _ _ H2); simpl.
  rewrite (update_from_list _ _ _ H3); simpl.
  rewrite (update_from_list _ _ _ H4); simpl.
  apply (update_from_list _ _ _ H5).
Qed.

Lemma in_firstn {A : Type} (n : nat) (l : list A) (x : A) :
  In x (firstn n l) -> In x l.
Proof.
  revert l. induction n as [ | n IH]; intros [ | a l]; simpl; try tauto.
  intros [H | H]; [left; exact H | right; apply IH; exact H].
Qed.

Lemma nodup_firstn {A : Type} (n : nat) (l : list A) :
  NoDup l -> NoDup (firstn n l).
Proof.
  revert l. induction n as [ | n IH]; intros [ | a l] H; simpl;
    try constructor.
  - inversion H as [ | ? ? Ha Hl]; subst. intros Hin. apply Ha.
    apply in_firstn with n. exact Hin.
  - inversion H; subst. apply IH. assumption.
Qed.

(** The combined indicators of [combine_analyses], whatever the iteration
    order: distinct texts among the pooled ones, at most ten, and all of
    them when there are no more than ten. *)
Lemma combined_indicators_set enum llava gemma r :
  set_order enum -> list_fields llava gemma ->
  combine_analyses enum llava gemma = Ok r ->
  NoDup (combined_indicators r)
  /\ (List.length (combined_indicators r) <= 10)%nat
  /\ (forall x, In x (combined_indicators r) ->
                In x (all_indicators llava gemma))
  /\ ((List.length (all_indicators llava gemma) <= 10)%nat ->
      forall x, In x (all_indicators llava gemma) ->
                In x (combined_indicators r)).
Proof.
  intros Henum Hfields H.
  apply combine_analyses_ok in H
    as (sA & sB & pool & text & _ & _ & Hpool & _ & ->).
  cbn [combined_indicators].
  rewrite (pooled_lists _ _ Hfields) in Hpool. injection Hpool as <-.
  set (all := all_indicators llava gemma).
  destruct (fold_set_add all [] (NoDup_nil _)) as (N & M & L).
  set (pool := fold_left set_add all []) in *.
  pose proof (Henum pool) as P.
  assert (Np : NoDup (enum pool))
    by (apply (Permutation_NoDup (Permutation_sym P)); exact N).
  repeat split.
  - apply nodup_firstn. exact Np.
  - rewrite length_firstn. lia.
  - intros x Hx. apply in_firstn in Hx.
    apply (Permutation_in _ P) in Hx. apply M in Hx.
    destruct Hx as [[] | Hx]. exact Hx.
  - intros Hlen x Hx.
    rewrite firstn_all2.
    + apply (Permutation_in _ (Permutation_sym P)). apply M.
      right. exact Hx.
    + rewrite (Permutation_length P). simpl in L. lia.
Qed.

(** The pooled set holds as many texts as there are distinct ones among
    the pooled indicators. *)
Lemma pooled_distinct (all : list string) :
  List.length (fold_left set_add all [])
  = List.length (nodup string_dec all).
Proof.
  destruct (fold_set_add all [] (NoDup_nil _)) as (N & M & _).
  apply Permutation_length, NoDup_Permutation.
  - exact N.
  - apply NoDup_nodup.
  - intros x. rewrite M, nodup_In. simpl. tauto.
Qed.

(** The combined indicators of [combine_analyses] by number: ten of the
    distinct pooled texts, or all of them when there are no more than
    ten. *)
Lemma combined_indicators_distinct enum llava gemma r :
  set_order enum -> list_fields llava gemma ->
  combine_analyses enum llava gemma = Ok r ->
  List.length (combined_indicators r)
  = Nat.min 10 (List.length (nodup string_dec (all_indicators llava gemma)))
  /\ ((List.length (nodup string_dec (all_indicators llava gemma)) <= 10)%nat ->
      forall x, In x (all_indicators llava gemma) ->
                In x (combined_indicators r)).
Proof.
  intros Henum Hfields H.
  apply combine_analyses_ok in H
    as (sA & sB & pool & text & _ & _ & Hpool & _ & ->).
  cbn [combined_indicators].
  rewrite (pooled_lists _ _ Hfields) in Hpool. injection Hpool as <-.
  set (all := all_indicators llava gemma).
  pose proof (pooled_distinct all) as D.
  destruct (fold_set_add all [] (NoDup_nil _)) as (_ & M & _).
  set (pool := fold_left set_add all []) in *.
  pose proof (Henum pool) as P.
  pose proof (Permutation_length P) as L.
  split.
  - rewrite length_firstn, L, D. reflexivity.
  - intros Hlen x Hx. rewrite firstn_all2 by lia.
    apply (Permutation_in _ (Permutation_sym P)). apply M.
    right. exact Hx.
Qed.

(** ** The indicator lists of [EnsembleAnalyzer] on any text *)

Lemma folded_similar_iff (lower : string -> string) (a b : string) :
  Folding.similar lower a b = true <-> Folding.overlap lower a b.
Proof.
  unfold Folding.similar, Folding.overlap.
  rewrite orb_true_iff, !contains_iff. reflexivity.
Qed.

Lemma folded_add_new_app (lower : string -> string)
      (acc g1 g2 : list string) :
  Folding.add_new lower acc (g1 ++ g2)
  = Folding.add_new lower (Folding.add_new lower acc g1) g2.
Proof.
  revert acc. induction g1 as [ | i g1 IH]; intros acc; simpl.
  - reflexivity.
  - destruct (existsb (Folding.similar lower i) acc); simpl; apply IH.
Qed.

Lemma folded_add_new_extends (lower : string -> string)
      (acc g : list string) :
  exists kept, Folding.add_new lower acc g = (acc ++ kept)%list.
Proof.
  revert acc. induction g as [ | i g IH]; intros acc; simpl.
  - exists []. symmetry. apply app_nil_r.
  - destruct (existsb (Folding.similar lower i) acc); simpl.
    + apply IH.
    + destruct (IH (append acc i)) as [kept H]. exists (i :: kept).
      rewrite H. unfold append. rewrite <- app_assoc. reflexivity.
Qed.

Lemma folded_combine_indicators_eq (lower : string -> string)
      (llava gemma : list string) :
  Folding.combine_indicators lower llava gemma
  = firstn 15 (Folding.add_new lower llava gemma).
Proof.
  unfold Folding.combine_indicators.
  destruct llava, gemma; reflexivity.
Qed.

Lemma folded_add_new_step (lower : string -> string)
      (llava before : list string) (indicator : string) :
  let accepted := Folding.add_new lower llava before in
  ((exists e, In e accepted /\ Folding.overlap lower indicator e) ->
   Folding.add_new lower llava (before ++ [indicator]) = accepted)
  /\ ((forall e, In e accepted -> ~ Folding.overlap lower indicator e) ->
      Folding.add_new lower llava (before ++ [indicator])
      = (accepted ++ [indicator])%list).
Proof.
  intros accepted. rewrite folded_add_new_app. fold accepted. simpl.
  destruct (existsb (Folding.similar lower indicator) accepted) eqn:E;
    simpl; split; intros H; try reflexivity.
  - exfalso. apply existsb_exists in E as (e & He & Hs).
    apply (H e He). apply folded_similar_iff. exact Hs.
  - exfalso. destruct H as (e & He & Ho).
    assert (E' : existsb (Folding.similar lower indicator) accepted = true).
    { apply existsb_exists. exists e. split; [exact He | ].
      apply folded_similar_iff. exact Ho. }
    congruence.
Qed.

(** On ASCII text the method is what [EnsembleAnalyzer] computes with
    [Py.lower], whatever the folding does elsewhere. *)
Lemma similar_on_ascii (lower : string -> string) (a b : string) :
  Folding.lowers_ascii lower ->
  Folding.ascii_text a = true -> Folding.ascii_text b = true ->
  Folding.similar lower a b = EnsembleAnalyzer.similar a b.
Proof.
  intros L Ha Hb. unfold Folding.similar, EnsembleAnalyzer.similar.
  rewrite (L a Ha), (L b Hb). reflexivity.
Qed.

Lemma existsb_similar_on_ascii (lower : string -> string) (i : string)
      (acc : list string) :
  Folding.lowers_ascii lower ->
  Folding.ascii_text i = true ->
  forallb Folding.ascii_text acc = true ->
  existsb (Folding.similar lower i) acc
  = existsb (EnsembleAnalyzer.similar i) acc.
Proof.
  intros L Hi. induction acc as [ | e acc IH]; simpl; [reflexivity | ].
  intros H. apply andb_true_iff in H as [He Hacc].
  rewrite (similar_on_ascii lower i e L Hi He), (IH Hacc). reflexivity.
Qed.

Lemma add_new_on_ascii (lower : string -> string) (acc gemma : list string) :
  Folding.lowers_ascii lower ->
  forallb Folding.ascii_text acc = true ->
  forallb Folding.ascii_text gemma = true ->
  Folding.add_new lower acc gemma = EnsembleAnalyzer.add_new acc gemma.
Proof.
  intros L. revert acc. induction gemma as [ | i gemma IH]; intros acc Ha Hg.
  - reflexivity.
  - simpl in Hg. apply andb_true_iff in Hg as [Hi Hg]. simpl.
    rewrite (existsb_similar_on_ascii lower i acc L Hi Ha).
    destruct (existsb (EnsembleAnalyzer.similar i) acc); simpl.
    + apply IH; assumption.
    + apply IH; [ | exact Hg]. unfold append.
      rewrite forallb_app, Ha. simpl. rewrite Hi. reflexivity.
Qed.

Lemma combine_indicators_on_ascii (lower : string -> string)
      (llava gemma : list string) :
  Folding.lowers_ascii lower ->
  forallb Folding.ascii_text llava = true ->
  forallb Folding.ascii_text gemma = true ->
  Folding.combine_indicators lower llava gemma
  = EnsembleAnalyzer.combine_indicators llava gemma.
Proof.
  intros L Ha Hg.
  rewrite folded_combine_indicators_eq, combine_indicators_eq.
  rewrite (add_new_on_ascii lower llava gemma L Ha Hg). reflexivity.
Qed.

(** C3, as the code has it.  [EnsembleAnalyzer.combine_indicators] accepts
    the first model's indicators as they come, then takes the second
    model's indicators in order and drops one exactly when, both texts
    folded by [str.lower], it is found inside or contains an indicator
    accepted before it; the list is cut to 15.  This holds on every text,
    whatever [str.lower] folds.  [combine_analyses] pools the five
    indicator lists into a set, so only equal texts are merged, and keeps
    ten of the distinct texts, or all of them when there are no more than
    ten.  On either path [no helmets] and [no safety helmets worn] both
    survive, since neither contains the other, and so do [fenced area] and
    [guards]; [helmets] after [No Helmets] is dropped. *)
Theorem indicator_pooling :
  (forall (lower : string -> string) (llava gemma : list string),
      exists kept,
        Folding.combine_indicators lower llava gemma
        = firstn 15 (llava ++ kept))
  /\ (forall (lower : string -> string)
             (concern restriction gemma : list string),
         exists kept,
           Folding.row_indicators lower concern restriction gemma
           = firstn 15 (concern ++ restriction ++ kept))
  /\ (forall (lower : string -> string) (llava before : list string)
             (indicator : string) (after : list string),
         let accepted := Folding.add_new lower llava before in
         ((exists e, In e accepted /\ Folding.overlap lower indicator e) ->
          Folding.add_new lower llava (before ++ [indicator]) = accepted)
         /\ ((forall e, In e accepted ->
                        ~ Folding.overlap lower indicator e) ->
             Folding.add_new lower llava (before ++ [indicator])
             = (accepted ++ [indicator])%list)
         /\ Folding.combine_indicators
              lower llava (before ++ indicator :: after)
            = firstn 15
                (Folding.add_new lower
                   (Folding.add_new lower llava (before ++ [indicator]))
                   after))
  /\ (forall enum llava gemma r,
         set_order enum -> list_fields llava gemma ->
         combine_analyses enum llava gemma = Ok r ->
         NoDup (combined_indicators r)
         /\ (forall x, In x (combined_indicators r) ->
                       In x (all_indicators llava gemma))
         /\ List.length (combined_indicators r)
            = Nat.min 10 (List.length
                            (nodup string_dec (all_indicators llava gemma)))
         /\ ((List.length (nodup string_dec (all_indicators llava gemma))
              <= 10)%nat ->
             forall x, In x (all_indicators llava gemma) ->
                       In x (combined_indicators r)))
  /\ (forall lower : string -> string,
         Folding.lowers_ascii lower ->
         Folding.combine_indicators lower
           ["no helmets"] ["no safety helmets worn"]
         = ["no helmets"; "no safety helmets worn"]
         /\ Folding.combine_indicators lower ["fenced area"] ["guards"]
            = ["fenced area"; "guards"]
         /\ Folding.combine_indicators lower ["No Helmets"] ["helmets"]
            = ["No Helmets"]
         /\ Folding.combine_indicators lower ["helmets"] ["No Helmets"]
            = ["helmets"]
         /\ Folding.combine_indicators lower ["guards"; "guards"] []
            = ["guards"; "guards"]).
Proof.
  split; [ | split; [ | split; [ | split ] ] ].
  - intros lower llava gemma. rewrite folded_combine_indicators_eq.
    destruct (folded_add_new_extends lower llava gemma) as [kept H].
    exists kept. rewrite H. reflexivity.
  - intros lower concern restriction gemma.
    unfold Folding.row_indicators. rewrite folded_combine_indicators_eq.
    destruct (folded_add_new_extends lower (concern ++ restriction) gemma)
      as [kept H].
    exists kept. rewrite H, <- app_assoc. reflexivity.
  - intros lower llava before indicator after accepted.
    destruct (folded_add_new_step lower llava before indicator)
      as [Hdrop Hkeep].
    split; [exact Hdrop | split; [exact Hkeep | ]].
    rewrite folded_combine_indicators_eq.
    change (before ++ indicator :: after)%list
      with (before ++ [indicator] ++ after)%list.
    rewrite app_assoc, folded_add_new_app. reflexivity.
  - intros enum llava gemma r O F H.
    destruct (combined_indicators_set enum llava gemma r O F H)
      as (N & _ & I & _).
    destruct (combined_indicators_distinct enum llava gemma r O F H)
      as (L & A).
    split; [exact N | split; [exact I | split; [exact L | exact A]]].
  - intros lower L.
    rewrite !(combine_indicators_on_ascii lower _ _ L) by reflexivity.
    repeat split.
Qed.

(** The theorem at the two helmet indicators, pooled by [combine_analyses]
    in insertion order, and at the folding of ASCII text. *)
Lemma indicator_pooling_witness :
  set_order Sample.insertion_order
  /\ list_fields Sample.helmets_llava []
  /\ combine_analyses Sample.insertion_order Sample.helmets_llava []
     = Ok Sample.helmets_result
  /\ NoDup ["no helmets"; "no safety helmets worn"]
  /\ (forall x, In x ["no helmets"; "no safety helmets worn"] ->
                In x (all_indicators Sample.helmets_llava []))
  /\ List.length ["no helmets"; "no safety helmets worn"]
     = Nat.min 10 (List.length
                     (nodup string_dec
                            (all_indicators Sample.helmets_llava [])))
  /\ ((List.length (nodup string_dec (all_indicators Sample.helmets_llava []))
       <= 10)%nat ->
      forall x, In x (all_indicators Sample.helmets_llava []) ->
                In x ["no helmets"; "no safety helmets worn"])
  /\ Folding.lowers_ascii lower
  /\ Folding.combine_indicators lower
       ["no helmets"] ["no safety helmets worn"]
     = ["no helmets"; "no safety helmets worn"]
  /\ Folding.combine_indicators lower ["No Helmets"] ["helmets"]
     = ["No Helmets"].
Proof.
  assert (O : set_order Sample.insertion_order)
    by (intros s; apply Permutation_refl).
  assert (F : list_fields Sample.helmets_llava [])
    by (repeat split).
  assert (H : combine_analyses Sample.insertion_order Sample.helmets_llava []
              = Ok Sample.helmets_result) by reflexivity.
  assert (L : Folding.lowers_ascii lower) by (intros s _; reflexivity).
  split; [exact O | split; [exact F | split; [exact H | ]]].
  destruct (proj1 (proj2 (proj2 (proj2 indicator_pooling))) _ _ _ _ O F H)
    as (P1 & P2 & P3 & P4).
  destruct (proj2 (proj2 (proj2 (proj2 indicator_pooling))) lower L)
    as (E1 & _ & E3 & _).
  split; [exact P1 | split; [exact P2 | split; [exact P3 | split; [exact P4 | ]]]].
  split; [exact L | split; [exact E1 | exact E3]].
Defined.

(** C3 fails as stated: the second helmet indicator is not dropped, on
    either path and wherever the two indicators come from, because
    [no helmets] does not occur inside [no safety helmets worn]. *)
Lemma helmets_counterexample :
  EnsembleAnalyzer.similar "no safety helmets worn" "no helmets" = false
  /\ EnsembleAnalyzer.combine_indicators
       ["no helmets"] ["no safety helmets worn"]
     = ["no helmets"; "no safety helmets worn"]
  /\ EnsembleAnalyzer.combine_indicators
       ["no helmets"; "no safety helmets worn"] []
     = ["no helmets"; "no safety helmets worn"]
  /\ EnsembleAnalyzer.combine_indicators
       [] ["no helmets"; "no safety helmets worn"]
     = ["no helmets"; "no safety helmets worn"]
  /\ option_map combined_indicators
       (match combine_analyses Sample.insertion_order Sample.helmets_llava []
        with
        | Ok r => Some r
        | Raise _ => None
        end)
     = Some ["no helmets"; "no safety helmets worn"].
Proof. repeat split. Qed.

(** ** When the engine returns, and when it raises *)

Lemma combine_analyses_build enum llava gemma sA sB pool text :
  table_get concern_map (llava_label llava) 1 = Ok sA ->
  table_get concern_map (gemma_label gemma) 1 = Ok sB ->
  pooled llava gemma = Ok pool ->
  create_consensus_description llava gemma = Ok text ->
  combine_analyses enum llava gemma
  = Ok {| ensemble_concern_level := level_of sA sB;
          ensemble_confidence := round2 (confidence_of sA sB);
          llava_score := sA;
          gemma_score := sB;
          agreement_level := get_agreement_level (inject_Z (Z.abs (sA - sB)));
          combined_indicators := firstn 10 (enum pool);
          consensus_description := text |}.
Proof.
  unfold llava_label, gemma_label, pooled, combine_analyses.
  intros HA HB HP HT. rewrite HA; cbn [bind]. rewrite HB; cbn [bind].
  apply bind_ok in HP as (s1 & H1 & HP). rewrite H1; cbn [bind].
  apply bind_ok in HP as (s2 & H2 & HP). rewrite H2; cbn [bind].
  apply bind_ok in HP as (s3 & H3 & HP). rewrite H3; cbn [bind].
  apply bind_ok in HP as (s4 & H4 & HP). rewrite H4; cbn [bind].
  rewrite HP; cbn [bind]. rewrite HT; cbn [bind]. reflexivity.
Qed.

Lemma get_default (d : dict) (k : string) (v w : value) :
  get d k v = get d k w \/ (get d k v = v /\ get d k w = w).
Proof. unfold get. destruct (lookup d k); [left | right]; auto. Qed.

Lemma llava_label_typed (d : dict) :
  text_field d "concern_level" ->
  exists n, table_get concern_map (llava_label d) 1 = Ok n.
Proof.
  unfold text_field, llava_label. intros H.
  destruct (get_default d "concern_level" (VStr "low") VNone) as [E | [E _]];
    rewrite E.
  - destruct (get d "concern_level" VNone); try contradiction;
      eexists; reflexivity.
  - eexists; reflexivity.
Qed.

Lemma gemma_label_typed (d : dict) :
  text_field d "concern_level" -> text_field d "standard_concern_level" ->
  exists n, table_get concern_map (gemma_label d) 1 = Ok n.
Proof.
  unfold text_field, gemma_label, or_. intros H1 H2.
  destruct (get d "concern_level" VNone) as [ | b | n | s | l];
    try contradiction; simpl.
  - destruct (get_default d "standard_concern_level" (VStr "low") VNone)
      as [E | [E _]]; rewrite E.
    + destruct (get d "standard_concern_level" VNone); try contradiction;
        eexists; reflexivity.
    + eexists; reflexivity.
  - destruct (negb (String.eqb s "")).
    + eexists; reflexivity.
    + destruct (get_default d "standard_concern_level" (VStr "low") VNone)
        as [E | [E _]]; rewrite E.
      * destruct (get d "standard_concern_level" VNone); try contradiction;
          eexists; reflexivity.
      * eexists; reflexivity.
Qed.

Lemma describe_scene_typed (descriptions : list string) (d : dict)
      (prefix : string) :
  text_field d "scene_description" ->
  exists l, describe_scene descriptions d prefix = Ok l.
Proof.
  unfold text_field, describe_scene.
  destruct (get d "scene_description" VNone) as [ | b | n | s | l];
    try contradiction; intros _; simpl.
  - eexists; reflexivity.
  - destruct (negb (String.eqb s "")); eexists; reflexivity.
Qed.

Lemma create_consensus_description_typed (llava gemma : dict) :
  text_field llava "scene_description" ->
  text_field gemma "scene_description" ->
  count_field llava "personnel_count" ->
  exists text, create_consensus_description llava gemma = Ok text.
Proof.
  intros Hl Hg Hc. unfold create_consensus_description.
  match goal with
  | |- context [describe_scene ?l llava ?p] =>
      destruct (describe_scene_typed l llava p Hl) as [l1 E1]
  end.
  rewrite E1; cbn [bind].
  destruct (describe_scene_typed l1 gemma "Humanitarian perspective: " Hg)
    as [l2 E2].
  rewrite E2; cbn [bind].
  unfold count_field in Hc.
  destruct (get llava "personnel_count" (VInt 0)); try contradiction;
    cbn [gt_int bind]; eexists; reflexivity.
Qed.

(** On records whose fields are missing or of their declared type,
    [combine_analyses] returns a record. *)
Lemma combine_analyses_typed enum llava gemma :
  typed_llava llava -> typed_gemma gemma ->
  exists r, combine_analyses enum llava gemma = Ok r.
Proof.
  intros (L1 & L2 & L3 & L4 & L5) (G1 & G2 & G3 & G4 & G5 & G6).
  destruct (llava_label_typed llava L1) as [sA HA].
  destruct (gemma_label_typed gemma G1 G2) as [sB HB].
  destruct (create_consensus_description_typed llava gemma L2 G3 L3)
    as [text HT].
  assert (HP := pooled_lists llava gemma
                  (conj L4 (conj L5 (conj G4 (conj G5 G6))))).
  eexists. exact (combine_analyses_build enum _ _ _ _ _ _ HA HB HP HT).
Qed.

(** A personnel count that is present and [None] makes the description,
    and so the whole combination, raise. *)
Lemma create_consensus_description_null (llava gemma : dict) :
  lookup llava "personnel_count" = Some VNone ->
  create_consensus_description llava gemma = Raise TypeError.
Proof.
  intros H. unfold create_consensus_description.
  match goal with
  | |- context [describe_scene ?l llava ?p] =>
      destruct (describe_scene l llava p) as [l1 | []]
  end; cbn [bind]; [ | reflexivity].
  destruct (describe_scene l1 gemma "Humanitarian perspective: ")
    as [l2 | []]; cbn [bind]; [ | reflexivity].
  unfold get at 1. rewrite H. reflexivity.
Qed.

Lemma combine_analyses_null enum llava gemma :
  lookup llava "personnel_count" = Some VNone ->
  combine_analyses enum llava gemma = Raise TypeError.
Proof.
  intros H. destruct (combine_analyses enum llava gemma) as [r | []] eqn:E;
    [ | reflexivity].
  apply combine_analyses_ok in E as (? & ? & ? & text & _ & _ & _ & HT & _).
  rewrite (create_consensus_description_null llava gemma H) in HT.
  discriminate HT.
Qed.

Lemma calculate_priority_score_null r llava gemma :
  lookup llava "personnel_count" = Some VNone ->
  calculate_priority_score r llava gemma = Raise TypeError.
Proof.
  intros H. unfold calculate_priority_score, get. rewrite H. reflexivity.
Qed.

(** [None] in any other field is taken as missing. *)
Lemma combine_analyses_null_elsewhere :
  typed_llava Sample.null_elsewhere
  /\ combine_analyses Sample.insertion_order Sample.null_elsewhere []
     = Ok Sample.null_elsewhere_result.
Proof. repeat split. Qed.

(** C9 fails on the code: the record that the caller builds from a database
    row whose personnel count is NULL makes [combine_analyses] raise a
    [TypeError], whatever the second record and the iteration order. *)
Theorem combine_analyses_raises_on_null_personnel :
  forall enum gemma,
    combine_analyses enum Sample.null_personnel gemma = Raise TypeError.
Proof.
  intros enum gemma. apply combine_analyses_null. reflexivity.
Qed.

(** ** The order of the combined indicators *)

Lemma insertion_order_ok : set_order Sample.insertion_order.
Proof. intros s. apply Permutation_refl. Qed.

Lemma reverse_order_ok : set_order Sample.reverse_order.
Proof. intros s. apply Permutation_sym, Permutation_rev. Qed.

(** C8 fails on the code: the combined indicators are the first ten of a
    set in the interpreter's iteration order.  Under two iteration orders
    the same two records give different lists, and with eleven indicators
    different members. *)
Theorem combined_indicators_follow_iteration_order :
  set_order Sample.insertion_order
  /\ set_order Sample.reverse_order
  /\ combine_analyses Sample.insertion_order Sample.high_llava
                      Sample.severe_gemma
     = Ok Sample.high_severe
  /\ combine_analyses Sample.reverse_order Sample.high_llava
                      Sample.severe_gemma
     = Ok {| ensemble_concern_level := "high";
             ensemble_confidence := 1;
             llava_score := 3;
             gemma_score := 3;
             agreement_level := "perfect";
             combined_indicators :=
               ["overcrowded conditions"; "working at height";
                "no safety gear"];
             consensus_description :=
               "Models show high (llava) and severe (gemma) concern levels."
          |}
  /\ combined_indicators Sample.high_severe
     = ["no safety gear"; "working at height"; "overcrowded conditions"]
  /\ option_map combined_indicators
       (match combine_analyses Sample.insertion_order Sample.eleven_llava []
        with
        | Ok r => Some r
        | Raise _ => None
        end)
     = Some Sample.first_ten
  /\ option_map combined_indicators
       (match combine_analyses Sample.reverse_order Sample.eleven_llava []
        with
        | Ok r => Some r
        | Raise _ => None
        end)
     = Some Sample.last_ten
  /\ existsb (String.eqb "no helmets") Sample.first_ten = true
  /\ existsb (String.eqb "no helmets") Sample.last_ten = false.
Proof.
  split; [exact insertion_order_ok | ].
  split; [exact reverse_order_ok | ].
  repeat split.
Qed.

(** ** The priority score *)

Lemma round_half_even_comp (x y : Q) :
  (x == y)%Q -> round_half_even x = round_half_even y.
Proof.
  intros E. unfold round_half_even.
  rewrite (Qfloor_comp x y E).
  assert (C : (x - inject_Z (Qfloor y) ?= 1 # 2)%Q
              = (y - inject_Z (Qfloor y) ?= 1 # 2)%Q)
    by (apply Qcompare_comp; [rewrite E | ]; reflexivity).
  rewrite C. reflexivity.
Qed.

Lemma round2_comp (x y : Q) : (x == y)%Q -> round2 x = round2 y.
Proof.
  intros E. unfold round2.
  rewrite (round_half_even_comp (x * 100) (y * 100)); [reflexivity | ].
  rewrite E. reflexivity.
Qed.

(** Rounding to two decimals leaves a number of hundredths as it is. *)
Lemma round2_hundredths (x : Q) (k : Z) :
  (x * 100 == inject_Z k)%Q -> (round2 x == x)%Q.
Proof.
  intros E. unfold round2.
  rewrite (round_half_even_comp _ _ E).
  assert (R : round_half_even (inject_Z k) = k).
  { unfold round_half_even. rewrite Qfloor_Z.
    assert (C : (inject_Z k - inject_Z k ?= 1 # 2)%Q = Lt).
    { apply -> Qlt_alt. unfold Qlt, Qminus, Qplus, Qopp, inject_Z; simpl. lia. }
    rewrite C. reflexivity. }
  rewrite R, Qred_correct.
  assert (E' : (x == inject_Z k / 100)%Q).
  { rewrite <- E. field. }
  rewrite E'. unfold Qeq, Qdiv, Qmult, Qinv, inject_Z; simpl. lia.
Qed.

Lemma canonical_score_assoc (level : string) :
  match assoc concern_scores level with
  | Some n => n
  | None => 0
  end = Spec.canonical_score level.
Proof.
  unfold Spec.canonical_score. simpl.
  repeat match goal with
         | |- context [String.eqb level ?k] => destruct (String.eqb level k)
         end; reflexivity.
Qed.

Lemma min_half_three (n : nat) :
  (Py.min (inject_Z (Z.of_nat n) * 0.5) 3 ==
   if (n <=? 6)%nat then (1 # 2) * inject_Z (Z.of_nat n) else 3)%Q.
Proof.
  unfold Py.min.
  destruct (Nat.leb_spec n 6) as [Hn | Hn];
    destruct (Qle_bool (inject_Z (Z.of_nat n) * 0.5) 3) eqn:E.
  - ring.
  - exfalso. assert (Hq : (inject_Z (Z.of_nat n) * 0.5 <= 3)%Q)
      by (unfold Qle, Qmult, inject_Z; cbn [Qnum Qden]; lia).
    apply Qle_bool_iff in Hq. congruence.
  - exfalso. apply Qle_bool_iff in E.
    revert E. unfold Qle, Qmult, inject_Z; cbn [Qnum Qden]. lia.
  - reflexivity.
Qed.

(** Whenever the personnel count is missing or a number,
    [calculate_priority_score] returns the additive priority, rounded to
    two decimals. *)
Lemma calculate_priority_score_formula r llava gemma :
  count_field llava "personnel_count" ->
  calculate_priority_score r llava gemma
  = Ok (round2
          (Spec.priority_sum
             (Spec.canonical_score (ensemble_concern_level r))
             (ensemble_confidence r)
             (List.length (combined_indicators r))
             (personnel llava)
             (truthy (get llava "supervision_present" VNone)))).
Proof.
  unfold count_field, personnel, calculate_priority_score. intros Hc.
  rewrite canonical_score_assoc.
  set (L := Spec.canonical_score (ensemble_concern_level r)).
  set (n := List.length (combined_indicators r)).
  set (c := ensemble_confidence r).
  set (sup := truthy (get llava "supervision_present" VNone)).
  assert (M := min_half_three n).
  destruct (get llava "personnel_count" (VInt 0)) as [ | b | m | s | l];
    try contradiction; cbn [gt_int bind]; f_equal; apply round2_comp;
    unfold Spec.priority_sum.
  - destruct b; cbn [Z.ltb Z.compare Pos.compare Pos.compare_cont];
      destruct sup; rewrite M, inject_Z_mult;
      destruct (n <=? 6)%nat; simpl inject_Z at 2; ring.
  - destruct (5 <? m), (10 <? m), sup; rewrite M, inject_Z_mult;
      destruct (n <=? 6)%nat; ring.
Qed.

(** With a confidence of at most two decimals, as [combine_analyses]
    returns it, the rounding changes nothing. *)
Lemma priority_sum_hundredths (L : Z) (c : Q) (k : Z) (n : nat) (m : Z)
      (sup : bool) :
  (c * 100 == inject_Z k)%Q ->
  (round2 (Spec.priority_sum L c n m sup) == Spec.priority_sum L c n m sup)%Q.
Proof.
  intros E.
  apply round2_hundredths with
    (k := 200 * L + 2 * k
          + (if (n <=? 6)%nat then 50 * Z.of_nat n else 300)
          + (if 5 <? m then 100 else 0)
          + (if 10 <? m then 100 else 0)
          + (if sup then 100 else 0)).
  unfold Spec.priority_sum.
  rewrite !inject_Z_plus, !inject_Z_mult, <- E.
  destruct (n <=? 6)%nat, (5 <? m), (10 <? m), sup;
    rewrite ?inject_Z_mult; ring.
Qed.

(** The score of the test suite: critical, confidence 0.9, five
    indicators, fifteen persons, supervision. *)
Lemma calculate_priority_score_sample :
  calculate_priority_score Sample.critical_result Sample.crowded_llava []
  = Ok 15.3%Q.
Proof. reflexivity. Qed.

(** ** Agreement, confidence and the flag on combined records *)

(** What [combine_analyses] derives from the two scores alone. *)
Lemma combine_analyses_by_scores enum llava gemma r :
  combine_analyses enum llava gemma = Ok r ->
  1 <= llava_score r <= 4
  /\ 1 <= gemma_score r <= 4
  /\ ensemble_concern_level r = level_of (llava_score r) (gemma_score r)
  /\ ensemble_confidence r
     = round2 (confidence_of (llava_score r) (gemma_score r))
  /\ agreement_level r
     = get_agreement_level
         (inject_Z (Z.abs (llava_score r - gemma_score r))).
Proof.
  intros H. destruct (combine_analyses_scores _ _ _ _ H) as [HA HB].
  apply combine_analyses_ok in H
    as (sA & sB & pool & text & _ & _ & _ & _ & ->).
  cbn [llava_score gemma_score ensemble_concern_level ensemble_confidence
       agreement_level] in *.
  repeat split; lia.
Qed.

(** Rewrites the derived fields of a combined record by its scores and
    splits the scores into their sixteen pairs. *)
Ltac by_scores H :=
  let HA := fresh "HA" in
  let HB := fresh "HB" in
  let HL := fresh "HL" in
  let HC := fresh "HC" in
  let HG := fresh "HG" in
  apply combine_analyses_by_scores in H as (HA & HB & HL & HC & HG);
  try rewrite HL; try rewrite HC; try rewrite HG;
  split_score HA; split_score HB.

(** Replaces the derived fields, now closed terms, by their values. *)
Ltac eval_fields :=
  repeat match goal with
         | |- context [round2 ?x] =>
             let v := eval vm_compute in (round2 x) in
             change (round2 x) with v
         | |- context [get_agreement_level ?x] =>
             let v := eval vm_compute in (get_agreement_level x) in
             change (get_agreement_level x) with v
         | |- context [level_of ?a ?b] =>
             let v := eval vm_compute in (level_of a b) in
             change (level_of a b) with v
         end.

(** Settles a closed statement about labels and small numbers. *)
Ltac settle :=
  repeat match goal with
         | |- _ /\ _ => split
         | |- _ <-> _ => split
         | |- _ -> _ => intro
         | H : _ \/ _ |- _ => destruct H
         | H : _ /\ _ |- _ => destruct H
         end;
  try reflexivity; try discriminate;
  try (left; reflexivity); try (right; reflexivity);
  try (unfold Qle, Qlt, Qeq in *; cbn in *; lia).

(** X1: the agreement level of a combined record is perfect, high,
    moderate or low exactly when the two scores differ by 0, 1, 2 or 3. *)
Theorem agreement_level_by_difference enum llava gemma r :
  combine_analyses enum llava gemma = Ok r ->
  let d := Z.abs (llava_score r - gemma_score r) in
  (agreement_level r = "perfect" <-> d = 0)
  /\ (agreement_level r = "high" <-> d = 1)
  /\ (agreement_level r = "moderate" <-> d = 2)
  /\ (agreement_level r = "low" <-> d = 3).
Proof.
  intros H d. subst d. by_scores H; eval_fields; settle.
Qed.

Lemma agreement_level_by_difference_witness :
  combine_analyses Sample.insertion_order Sample.unlabelled
                   Sample.critical_gemma
  = Ok Sample.unlabelled_critical
  /\ ("low" = "perfect" <-> 3 = 0)
  /\ ("low" = "high" <-> 3 = 1)
  /\ ("low" = "moderate" <-> 3 = 2)
  /\ ("low" = "low" <-> 3 = 3).
Proof.
  assert (H : combine_analyses Sample.insertion_order Sample.unlabelled
                               Sample.critical_gemma
              = Ok Sample.unlabelled_critical) by reflexivity.
  split; [exact H | ].
  exact (agreement_level_by_difference _ _ _ _ H).
Defined.

(** X2: on a combined record the confidence is at least 0.75 exactly when
    the agreement is perfect or high, it is 1.0 whenever the agreement is
    perfect, and it is 0.25 exactly when the agreement is low. *)
Theorem confidence_follows_agreement enum llava gemma r :
  combine_analyses enum llava gemma = Ok r ->
  ((0.75 <= ensemble_confidence r)%Q
   <-> agreement_level r = "perfect" \/ agreement_level r = "high")
  /\ (agreement_level r = "perfect" -> ensemble_confidence r = 1%Q)
  /\ (agreement_level r = "low" <-> ensemble_confidence r = (1 # 4)%Q).
Proof.
  intros H. by_scores H; eval_fields; settle.
Qed.

Lemma confidence_follows_agreement_witness :
  combine_analyses Sample.insertion_order Sample.high_llava Sample.severe_gemma
  = Ok Sample.high_severe
  /\ ((0.75 <= 1)%Q <-> "perfect" = "perfect" \/ "perfect" = "high")
  /\ ("perfect" = "perfect" -> 1%Q = 1%Q)
  /\ ("perfect" = "low" <-> 1%Q = (1 # 4)%Q).
Proof.
  assert (H : combine_analyses Sample.insertion_order Sample.high_llava
                               Sample.severe_gemma
              = Ok Sample.high_severe) by reflexivity.
  split; [exact H | ].
  exact (confidence_follows_agreement _ _ _ _ H).
Defined.

(** X3: in both implementations the combined level is the average of the
    two scores rounded half up, so it never lies below the lower nor above
    the higher of the two. *)
Theorem level_is_average_rounded_up :
  (forall enum llava gemma r,
      combine_analyses enum llava gemma = Ok r ->
      let sA := llava_score r in
      let sB := gemma_score r in
      Spec.canonical_score (ensemble_concern_level r) = (sA + sB + 1) / 2
      /\ Z.min sA sB <= Spec.canonical_score (ensemble_concern_level r)
         <= Z.max sA sB)
  /\ (forall la ga : string,
         let sA := EnsembleAnalyzer.score_of la in
         let sB := EnsembleAnalyzer.score_of ga in
         let level := fst (EnsembleAnalyzer.combine_concern_levels la ga) in
         Spec.canonical_score level = (sA + sB + 1) / 2
         /\ Z.min sA sB <= Spec.canonical_score level <= Z.max sA sB).
Proof.
  split.
  - intros enum llava gemma r H sA sB. subst sA sB.
    by_scores H; eval_fields; vm_compute; settle.
  - intros la ga sA sB level. subst level.
    rewrite combine_concern_levels_level. fold sA. fold sB.
    assert (HA : 1 <= sA <= 4) by apply score_of_range.
    assert (HB : 1 <= sB <= 4) by apply score_of_range.
    clearbody sA sB. split_score HA; split_score HB; vm_compute; settle.
Qed.

Lemma level_is_average_rounded_up_witness :
  combine_analyses Sample.insertion_order Sample.unlabelled
                   Sample.critical_gemma
  = Ok Sample.unlabelled_critical
  /\ Spec.canonical_score "high" = (1 + 4 + 1) / 2
  /\ Z.min 1 4 <= Spec.canonical_score "high" <= Z.max 1 4.
Proof.
  assert (H : combine_analyses Sample.insertion_order Sample.unlabelled
                               Sample.critical_gemma
              = Ok Sample.unlabelled_critical) by reflexivity.
  split; [exact H | ].
  exact (proj1 level_is_average_rounded_up _ _ _ _ H).
Defined.

(** X4: a combined record is flagged for review exactly when it has five
    indicators or more, or when its scores sum to at least 5 without
    differing by exactly 2.  So every critical record is flagged, and a
    record scored (2,4) or (4,2) with fewer than five indicators is not. *)
Theorem flag_on_combined_record enum llava gemma r :
  combine_analyses enum llava gemma = Ok r ->
  should_flag_for_review r = true
  <-> (5 <= llava_score r + gemma_score r
       /\ Z.abs (llava_score r - gemma_score r) <> 2)
      \/ (5 <= List.length (combined_indicators r))%nat.
Proof.
  intros H. unfold should_flag_for_review.
  destruct (Nat.leb_spec 5 (List.length (combined_indicators r))) as [Hn | Hn].
  - rewrite !Tauto.if_same. split; [right; exact Hn | reflexivity].
  - by_scores H; eval_fields; cbn; split; intros E;
      try reflexivity; try discriminate E;
      try (left; split; lia);
      try (exfalso; destruct E as [[E1 E2] | E]; lia).
Qed.

Lemma flag_on_combined_record_witness :
  combine_analyses Sample.insertion_order Sample.unlabelled
                   Sample.critical_gemma
  = Ok Sample.unlabelled_critical
  /\ (should_flag_for_review Sample.unlabelled_critical = true
      <-> (5 <= 1 + 4 /\ Z.abs (1 - 4) <> 2) \/ (5 <= 0)%nat).
Proof.
  assert (H : combine_analyses Sample.insertion_order Sample.unlabelled
                               Sample.critical_gemma
              = Ok Sample.unlabelled_critical) by reflexivity.
  split; [exact H | ].
  exact (flag_on_combined_record _ _ _ _ H).
Defined.

(** ** Bounds and monotonicity of the priority score *)

(** The confidence of a combined record is a number of hundredths. *)
Lemma combined_confidence_hundredths enum llava gemma r :
  combine_analyses enum llava gemma = Ok r ->
  exists k : Z, (ensemble_confidence r * 100 == inject_Z k)%Q.
Proof.
  intros H. by_scores H; eval_fields;
    match goal with
    | |- exists k, (?c * 100 == _)%Q =>
        let v := eval vm_compute in (Qfloor (c * 100)) in exists v
    end; reflexivity.
Qed.

(** The additive priority lies between twice the level score plus twice
    the confidence, and that plus six. *)
Lemma priority_sum_bounds (L : Z) (c : Q) (n : nat) (m : Z) (sup : bool) :
  (2 * inject_Z L + 2 * c <= Spec.priority_sum L c n m sup
   <= 2 * inject_Z L + 2 * c + 6)%Q.
Proof.
  unfold Spec.priority_sum.
  set (base := (2 * inject_Z L + 2 * c)%Q).
  assert (I : (0 <= (if (n <=? 6)%nat
                     then (1 # 2) * inject_Z (Z.of_nat n) else 3) <= 3)%Q).
  { destruct (Nat.leb_spec n 6) as [Hn | Hn].
    - unfold Qle, Qmult, inject_Z; cbn [Qnum Qden]. lia.
    - split; discriminate. }
  set (ind := if (n <=? 6)%nat then ((1 # 2) * inject_Z (Z.of_nat n))%Q
              else 3%Q) in *.
  destruct I as [I0 I3].
  assert (P : forall b : bool, (0 <= (if b then 1 else 0) <= 1)%Q)
    by (intros []; split; discriminate).
  destruct (P (5 <? m)) as [A0 A1], (P (10 <? m)) as [B0 B1],
           (P sup) as [C0 C1].
  set (p5 := if 5 <? m then 1%Q else 0%Q) in *.
  set (p10 := if 10 <? m then 1%Q else 0%Q) in *.
  set (s := if sup then 1%Q else 0%Q) in *.
  clearbody base ind p5 p10 s.
  split.
  - setoid_replace base with (base + 0 + 0 + 0 + 0)%Q at 1 by ring.
    repeat apply Qplus_le_compat; try assumption; apply Qle_refl.
  - setoid_replace (base + 6)%Q with (base + 3 + 1 + 1 + 1)%Q by ring.
    repeat apply Qplus_le_compat; try assumption; apply Qle_refl.
Qed.

(** X5: on a combined record, and with a personnel count that is missing
    or a number, the priority score is returned and lies between 4 and
    16. *)
Theorem priority_score_range enum llava gemma r llava' gemma' :
  combine_analyses enum llava gemma = Ok r ->
  count_field llava' "personnel_count" ->
  exists q : Q,
    calculate_priority_score r llava' gemma' = Ok q /\ (4 <= q <= 16)%Q.
Proof.
  intros H Hc.
  rewrite (calculate_priority_score_formula r llava' gemma' Hc).
  eexists. split; [reflexivity | ].
  destruct (combined_confidence_hundredths _ _ _ _ H) as [k Hk].
  rewrite (priority_sum_hundredths _ _ k _ _ _ Hk).
  match goal with
  | |- (_ <= Spec.priority_sum ?L ?c ?n ?m ?s <= _)%Q =>
      destruct (priority_sum_bounds L c n m s) as [Lo Hi]
  end.
  assert (B : (4 <= 2 * inject_Z (Spec.canonical_score
                                    (ensemble_concern_level r))
                    + 2 * ensemble_confidence r <= 10)%Q).
  { clear Lo Hi Hk. by_scores H; eval_fields; vm_compute;
      split; discriminate. }
  destruct B as [B4 B10]. split.
  - eapply Qle_trans; [exact B4 | exact Lo].
  - eapply Qle_trans; [exact Hi | ].
    setoid_replace 16%Q with (10 + 6)%Q by reflexivity.
    apply Qplus_le_compat; [exact B10 | apply Qle_refl].
Qed.

Lemma priority_score_range_witness :
  combine_analyses Sample.insertion_order Sample.high_llava Sample.severe_gemma
  = Ok Sample.high_severe
  /\ count_field Sample.crowded_llava "personnel_count"
  /\ exists q : Q,
       calculate_priority_score Sample.high_severe Sample.crowded_llava []
       = Ok q
       /\ (4 <= q <= 16)%Q.
Proof.
  assert (H : combine_analyses Sample.insertion_order Sample.high_llava
                               Sample.severe_gemma
              = Ok Sample.high_severe) by reflexivity.
  assert (Hc : count_field Sample.crowded_llava "personnel_count")
    by exact I.
  split; [exact H | split; [exact Hc | ]].
  exact (priority_score_range _ _ _ _ Sample.crowded_llava [] H Hc).
Defined.

(** Both bounds of the priority score are reached. *)
Lemma priority_score_bounds_met :
  combine_analyses Sample.insertion_order [] [] = Ok
    {| ensemble_concern_level := "low";
       ensemble_confidence := 1;
       llava_score := 1;
       gemma_score := 1;
       agreement_level := "perfect";
       combined_indicators := [];
       consensus_description :=
         "Both models agree on unknown concern level." |}
  /\ calculate_priority_score
       {| ensemble_concern_level := "low";
          ensemble_confidence := 1;
          llava_score := 1;
          gemma_score := 1;
          agreement_level := "perfect";
          combined_indicators := [];
          consensus_description :=
            "Both models agree on unknown concern level." |} [] []
     = Ok 4%Q
  /\ calculate_priority_score
       {| ensemble_concern_level := "critical";
          ensemble_confidence := 1;
          llava_score := 4;
          gemma_score := 4;
          agreement_level := "perfect";
          combined_indicators := Sample.first_ten;
          consensus_description :=
            "Both models agree on critical concern level." |}
       Sample.crowded_llava []
     = Ok 16%Q.
Proof. repeat split. Qed.

Lemma flag_value (b : bool) : (0 <= (if b then 1 else 0) <= 1)%Q.
Proof. destruct b; split; discriminate. Qed.

(** X6: on a combined record the priority score never decreases when the
    personnel count grows or supervision appears, and these two signals
    together add at most 3. *)
Theorem priority_score_monotone enum llava gemma r l1 g1 l2 g2 :
  combine_analyses enum llava gemma = Ok r ->
  count_field l1 "personnel_count" ->
  count_field l2 "personnel_count" ->
  personnel l1 <= personnel l2 ->
  (truthy (get l1 "supervision_present" VNone) = true ->
   truthy (get l2 "supervision_present" VNone) = true) ->
  exists q1 q2 : Q,
    calculate_priority_score r l1 g1 = Ok q1
    /\ calculate_priority_score r l2 g2 = Ok q2
    /\ (q1 <= q2 <= q1 + 3)%Q.
Proof.
  intros H C1 C2 Hm Hs.
  rewrite (calculate_priority_score_formula r l1 g1 C1).
  rewrite (calculate_priority_score_formula r l2 g2 C2).
  do 2 eexists. split; [reflexivity | split; [reflexivity | ]].
  destruct (combined_confidence_hundredths _ _ _ _ H) as [k Hk].
  rewrite !(priority_sum_hundredths _ _ k _ _ _ Hk).
  unfold Spec.priority_sum.
  set (base := (2 * inject_Z (Spec.canonical_score (ensemble_concern_level r))
                + 2 * ensemble_confidence r
                + (if (List.length (combined_indicators r) <=? 6)%nat
                   then (1 # 2) * inject_Z (Z.of_nat
                                   (List.length (combined_indicators r)))
                   else 3))%Q).
  clearbody base.
  destruct (truthy (get l1 "supervision_present" VNone));
    destruct (truthy (get l2 "supervision_present" VNone));
    try (specialize (Hs eq_refl); discriminate Hs);
    destruct (Z.ltb_spec 5 (personnel l1)); destruct (Z.ltb_spec 5 (personnel l2));
    destruct (Z.ltb_spec 10 (personnel l1));
    destruct (Z.ltb_spec 10 (personnel l2));
    try lia;
    split; apply Qle_minus_iff; ring_simplify; discriminate.
Qed.

Lemma priority_score_monotone_witness :
  combine_analyses Sample.insertion_order Sample.high_llava Sample.severe_gemma
  = Ok Sample.high_severe
  /\ count_field Sample.high_llava "personnel_count"
  /\ count_field Sample.crowded_llava "personnel_count"
  /\ personnel Sample.high_llava <= personnel Sample.crowded_llava
  /\ exists q1 q2 : Q,
       calculate_priority_score Sample.high_severe Sample.high_llava [] = Ok q1
       /\ calculate_priority_score Sample.high_severe Sample.crowded_llava []
          = Ok q2
       /\ (q1 <= q2 <= q1 + 3)%Q.
Proof.
  assert (H : combine_analyses Sample.insertion_order Sample.high_llava
                               Sample.severe_gemma
              = Ok Sample.high_severe) by reflexivity.
  assert (C1 : count_field Sample.high_llava "personnel_count") by exact I.
  assert (C2 : count_field Sample.crowded_llava "personnel_count")
    by exact I.
  assert (Hm : personnel Sample.high_llava <= personnel Sample.crowded_llava)
    by (vm_compute; discriminate).
  assert (Hs : truthy (get Sample.high_llava "supervision_present" VNone)
               = true ->
               truthy (get Sample.crowded_llava "supervision_present" VNone)
               = true) by (intros _; reflexivity).
  split; [exact H | split; [exact C1 | split; [exact C2 | split; [exact Hm | ]]]].
  exact (priority_score_monotone _ _ _ _ _ [] _ [] H C1 C2 Hm Hs).
Defined.

Lemma indicator_points_saturate (n : nat) :
  (6 <= n)%nat ->
  ((if (n <=? 6)%nat then (1 # 2) * inject_Z (Z.of_nat n) else 3) == 3)%Q.
Proof.
  intros Hn. destruct (Nat.leb_spec n 6) as [H6 | H6]; [ | reflexivity].
  assert (n = 6%nat) by lia. subst n. reflexivity.
Qed.

(** X7: from the sixth indicator on, further indicators do not change the
    priority score: two records with the same level and confidence and at
    least six indicators each get the same score. *)
Theorem priority_score_saturates r1 r2 llava gemma gemma' :
  ensemble_concern_level r1 = ensemble_concern_level r2 ->
  ensemble_confidence r1 = ensemble_confidence r2 ->
  (6 <= List.length (combined_indicators r1))%nat ->
  (6 <= List.length (combined_indicators r2))%nat ->
  calculate_priority_score r1 llava gemma
  = calculate_priority_score r2 llava gemma'.
Proof.
  intros HL HC H1 H2. unfold calculate_priority_score.
  rewrite HL, HC.
  destruct (gt_int (get llava "personnel_count" (VInt 0)) 5) as [b5 | e];
    cbn [bind]; [ | reflexivity].
  destruct (gt_int (get llava "personnel_count" (VInt 0)) 10) as [b10 | e];
    cbn [bind]; [ | reflexivity].
  f_equal. apply round2_comp.
  assert (E : forall r, (6 <= List.length (combined_indicators r))%nat ->
                (Py.min (inject_Z (Z.of_nat
                           (List.length (combined_indicators r))) * 0.5) 3
                 == 3)%Q).
  { intros r Hr. rewrite min_half_three. apply indicator_points_saturate.
    exact Hr. }
  destruct b5, b10, (truthy (get llava "supervision_present" VNone));
    rewrite (E r1 H1), (E r2 H2); reflexivity.
Qed.

Lemma priority_score_saturates_witness :
  calculate_priority_score
    {| ensemble_concern_level := "critical";
       ensemble_confidence := 1;
       llava_score := 4;
       gemma_score := 4;
       agreement_level := "perfect";
       combined_indicators := Sample.first_ten;
       consensus_description := "" |}
    Sample.crowded_llava []
  = calculate_priority_score
      {| ensemble_concern_level := "critical";
         ensemble_confidence := 1;
         llava_score := 4;
         gemma_score := 4;
         agreement_level := "perfect";
         combined_indicators := firstn 6 Sample.first_ten;
         consensus_description := "" |}
      Sample.crowded_llava [].
Proof.
  apply priority_score_saturates; try reflexivity; vm_compute; lia.
Defined.

(** ** Exactly when [combine_analyses] returns *)

Lemma table_get_hashable (v : value) :
  (exists n, table_get concern_map v 1 = Ok n) <-> Shape.hashable v.
Proof.
  destruct v; simpl; split; intros H; try exact I;
    try (eexists; reflexivity).
  - destruct H as [n H]. discriminate H.
  - contradiction.
Qed.

Lemma update_from_sequence (s : pyset) (d : dict) (k : string) :
  (exists s', update_from s d k = Ok s')
  <-> Shape.skipped_or_sequence (get d k VNone).
Proof.
  unfold update_from.
  destruct (get d k VNone) as [ | b | n | t | l]; simpl.
  - split; [reflexivity | eexists; reflexivity].
  - destruct b; simpl; split; intros H; try reflexivity;
      try (eexists; reflexivity).
    + destruct H as [s' H]. discriminate H.
    + discriminate H.
  - destruct (n =? 0); simpl; split; intros H; try reflexivity;
      try (eexists; reflexivity).
    + destruct H as [s' H]. discriminate H.
    + discriminate H.
  - split; [intros _; exact I | intros _].
    destruct (negb (String.eqb t "")); eexists; reflexivity.
  - split; [intros _; exact I | intros _].
    destruct l; eexists; reflexivity.
Qed.

Lemma describe_scene_sequence (l : list string) (d : dict) (p : string) :
  (exists l', describe_scene l d p = Ok l')
  <-> Shape.skipped_or_sequence (get d "scene_description" VNone).
Proof.
  unfold describe_scene.
  destruct (get d "scene_description" VNone) as [ | b | n | t | ts]; simpl.
  - split; [reflexivity | eexists; reflexivity].
  - destruct b; simpl; split; intros H; try reflexivity;
      try (eexists; reflexivity).
    + destruct H as [s' H]. discriminate H.
    + discriminate H.
  - destruct (n =? 0); simpl; split; intros H; try reflexivity;
      try (eexists; reflexivity).
    + destruct H as [s' H]. discriminate H.
    + discriminate H.
  - split; [intros _; exact I | intros _].
    destruct (negb (String.eqb t "")); eexists; reflexivity.
  - split; [intros _; exact I | intros _].
    destruct ts; eexists; reflexivity.
Qed.

Lemma gt_int_number (v : value) (n : Z) :
  (exists b, gt_int v n = Ok b) <-> Shape.number v.
Proof.
  destruct v; simpl; split; intros H; try exact I;
    try (eexists; reflexivity); try contradiction;
    destruct H as [b H]; discriminate H.
Qed.

Lemma pooled_sequences (llava gemma : dict) :
  (exists pool, pooled llava gemma = Ok pool)
  <-> Shape.skipped_or_sequence (get llava "concern_indicators" VNone)
      /\ Shape.skipped_or_sequence (get llava "restriction_indicators" VNone)
      /\ Shape.skipped_or_sequence (get gemma "exploitation_indicators" VNone)
      /\ Shape.skipped_or_sequence (get gemma "control_indicators" VNone)
      /\ Shape.skipped_or_sequence (get gemma "welfare_concerns" VNone).
Proof.
  unfold pooled. split.
  - intros [pool H].
    apply bind_ok in H as (s1 & H1 & H).
    apply bind_ok in H as (s2 & H2 & H).
    apply bind_ok in H as (s3 & H3 & H).
    apply bind_ok in H as (s4 & H4 & H).
    repeat split; eapply update_from_sequence; eexists; eassumption.
  - intros (P1 & P2 & P3 & P4 & P5).
    destruct (proj2 (update_from_sequence [] llava _) P1) as [s1 H1].
    rewrite H1; cbn [bind].
    destruct (proj2 (update_from_sequence s1 llava _) P2) as [s2 H2].
    rewrite H2; cbn [bind].
    destruct (proj2 (update_from_sequence s2 gemma _) P3) as [s3 H3].
    rewrite H3; cbn [bind].
    destruct (proj2 (update_from_sequence s3 gemma _) P4) as [s4 H4].
    rewrite H4; cbn [bind].
    exact (proj2 (update_from_sequence s4 gemma _) P5).
Qed.

Lemma create_consensus_description_returns (llava gemma : dict) :
  (exists text, create_consensus_description llava gemma = Ok text)
  <-> Shape.skipped_or_sequence (get llava "scene_description" VNone)
      /\ Shape.skipped_or_sequence (get gemma "scene_description" VNone)
      /\ Shape.number (get llava "personnel_count" (VInt 0)).
Proof.
  unfold create_consensus_description. split.
  - intros [text H].
    apply bind_ok in H as (l1 & H1 & H).
    apply bind_ok in H as (l2 & H2 & H).
    apply bind_ok in H as (b & H3 & H).
    split; [ | split].
    + eapply describe_scene_sequence. eexists. exact H1.
    + eapply describe_scene_sequence. eexists. exact H2.
    + eapply gt_int_number. eexists. exact H3.
  - intros (P1 & P2 & P3).
    match goal with
    | |- context [describe_scene ?l llava ?p] =>
        destruct (proj2 (describe_scene_sequence l llava p) P1) as [l1 H1]
    end.
    rewrite H1; cbn [bind].
    destruct (proj2 (describe_scene_sequence
                       l1 gemma "Humanitarian perspective: ") P2)
      as [l2 H2].
    rewrite H2; cbn [bind].
    destruct (proj2 (gt_int_number _ 0) P3) as [b H3].
    rewrite H3; cbn [bind]. eexists. reflexivity.
Qed.

(** ** The priority score on the records the program scores *)




(** X8: [combine_analyses] returns a record exactly when both labels are
    hashable, each indicator field and scene description is either skipped
    by its truth test or a text or a list, and the personnel count is
    missing or a number; on every other pair of records it raises a
    [TypeError]. *)
Theorem combine_analyses_returns_iff enum llava gemma :
  ((exists r, combine_analyses enum llava gemma = Ok r)
   <-> Shape.accepted llava gemma)
  /\ (combine_analyses enum llava gemma = Raise TypeError
      <-> ~ Shape.accepted llava gemma).
Proof.
  assert (R : (exists r, combine_analyses enum llava gemma = Ok r)
              <-> Shape.accepted llava gemma).
  { unfold Shape.accepted. split.
    - intros [r H].
      apply combine_analyses_ok in H
        as (sA & sB & pool & text & HA & HB & HP & HT & _).
      assert (PA := proj1 (table_get_hashable _) (ex_intro _ sA HA)).
      assert (PB := proj1 (table_get_hashable _) (ex_intro _ sB HB)).
      assert (PP := proj1 (pooled_sequences _ _) (ex_intro _ pool HP)).
      assert (PT := proj1 (create_consensus_description_returns _ _)
                          (ex_intro _ text HT)).
      tauto.
    - intros (PA & PB & P1 & P2 & P3 & P4 & P5 & S1 & S2 & N).
      destruct (proj2 (table_get_hashable _) PA) as [sA HA].
      destruct (proj2 (table_get_hashable _) PB) as [sB HB].
      destruct (proj2 (pooled_sequences llava gemma))
        as [pool HP]; [tauto | ].
      destruct (proj2 (create_consensus_description_returns llava gemma))
        as [text HT]; [tauto | ].
      eexists. exact (combine_analyses_build enum _ _ _ _ _ _ HA HB HP HT). }
  split; [exact R | ].
  rewrite <- R.
  destruct (combine_analyses enum llava gemma) as [r | []]; split.
  - discriminate.
  - intros H. exfalso. apply H. exists r. reflexivity.
  - intros _ [r H]. discriminate H.
  - reflexivity.
Qed.

(** ** What the result depends on *)

Lemma get_agree (keys : list string) (d d' : dict) (k : string) (v : value) :
  Shape.agree_on keys d d' -> In k keys -> get d k v = get d' k v.
Proof. intros H Hk. unfold get. rewrite (H k Hk). reflexivity. Qed.

(** X10: [combine_analyses] depends on six fields of each record and on
    nothing else in them, and [calculate_priority_score] on the personnel
    count and the supervision flag of the first record only: it never
    reads the second record. *)
Theorem results_depend_on_read_fields :
  (forall enum llava llava' gemma gemma',
      Shape.agree_on Shape.llava_keys llava llava' ->
      Shape.agree_on Shape.gemma_keys gemma gemma' ->
      combine_analyses enum llava gemma = combine_analyses enum llava' gemma')
  /\ (forall r llava llava' gemma gemma',
         Shape.agree_on ["personnel_count"; "supervision_present"]
                        llava llava' ->
         calculate_priority_score r llava gemma
         = calculate_priority_score r llava' gemma').
Proof.
  split.
  - intros enum llava llava' gemma gemma' HL HG.
    unfold combine_analyses, create_consensus_description, describe_scene,
      update_from.
    rewrite !(get_agree _ _ _ "concern_level" _ HL) by (simpl; tauto).
    rewrite !(get_agree _ _ _ "concern_indicators" _ HL) by (simpl; tauto).
    rewrite !(get_agree _ _ _ "restriction_indicators" _ HL)
      by (simpl; tauto).
    rewrite !(get_agree _ _ _ "scene_description" _ HL) by (simpl; tauto).
    rewrite !(get_agree _ _ _ "personnel_count" _ HL) by (simpl; tauto).
    rewrite !(get_agree _ _ _ "supervision_present" _ HL) by (simpl; tauto).
    rewrite !(get_agree _ _ _ "concern_level" _ HG) by (simpl; tauto).
    rewrite !(get_agree _ _ _ "standard_concern_level" _ HG)
      by (simpl; tauto).
    rewrite !(get_agree _ _ _ "exploitation_indicators" _ HG)
      by (simpl; tauto).
    rewrite !(get_agree _ _ _ "control_indicators" _ HG) by (simpl; tauto).
    rewrite !(get_agree _ _ _ "welfare_concerns" _ HG) by (simpl; tauto).
    rewrite !(get_agree _ _ _ "scene_description" _ HG) by (simpl; tauto).
    reflexivity.
  - intros r llava llava' gemma gemma' HL.
    unfold calculate_priority_score.
    rewrite !(get_agree _ _ _ "personnel_count" _ HL) by (simpl; tauto).
    rewrite !(get_agree _ _ _ "supervision_present" _ HL) by (simpl; tauto).
    reflexivity.
Qed.

Lemma results_depend_on_read_fields_witness :
  Shape.agree_on Shape.llava_keys Sample.high_llava Shape.timed_llava
  /\ Shape.agree_on Shape.gemma_keys Sample.severe_gemma Sample.severe_gemma
  /\ combine_analyses Sample.insertion_order Sample.high_llava
                      Sample.severe_gemma
     = combine_analyses Sample.insertion_order Shape.timed_llava
                        Sample.severe_gemma.
Proof.
  assert (HL : Shape.agree_on Shape.llava_keys Sample.high_llava
                              Shape.timed_llava).
  { intros k Hk. simpl in Hk.
    repeat (destruct Hk as [<- | Hk]; [reflexivity | ]). contradiction. }
  assert (HG : Shape.agree_on Shape.gemma_keys Sample.severe_gemma
                              Sample.severe_gemma)
    by (intros k _; reflexivity).
  split; [exact HL | split; [exact HG | ]].
  exact (proj1 results_depend_on_read_fields _ _ _ _ _ HL HG).
Defined.

(** ** The narrative *)

Lemma prefix_append (p x y : string) :
  String.prefix p x = true -> String.prefix p (x ++ y) = true.
Proof.
  rewrite !prefix_iff. intros [after H]. exists (after ++ y). subst x.
  induction p as [ | c p IH]; simpl; [reflexivity | rewrite IH; reflexivity].
Qed.

Lemma concat_head (x : string) (rest : list string) :
  exists tail, String.concat " " (x :: rest) = x ++ tail.
Proof.
  destruct rest as [ | y rest]; simpl.
  - exists "". induction x as [ | c x IH]; simpl; [ | rewrite <- IH];
      reflexivity.
  - eexists. reflexivity.
Qed.

Lemma describe_scene_head (x : string) (rest : list string) (d : dict)
      (p : string) (l : list string) :
  describe_scene (x :: rest) d p = Ok l -> exists rest', l = x :: rest'.
Proof.
  unfold describe_scene. destruct (truthy (get d "scene_description" VNone)).
  - intros H. apply bind_ok in H as (cut & _ & H). injection H as <-.
    eexists. reflexivity.
  - intros H. injection H as <-. eexists. reflexivity.
Qed.

(** The narrative opens with the sentence on the two raw labels. *)
Lemma create_consensus_description_opening (llava gemma : dict)
      (text : string) :
  create_consensus_description llava gemma = Ok text ->
  let a := get llava "concern_level" (VStr "unknown") in
  let b := Shape.gemma_narrative_label gemma in
  exists tail,
    text = (if Py.eqb a b
            then "Both models agree on " ++ str a ++ " concern level."
            else "Models show " ++ str a ++ " (llava) and " ++ str b
                 ++ " (gemma) concern levels.") ++ tail.
Proof.
  intros H a b. subst a b.
  unfold create_consensus_description in H.
  unfold Shape.gemma_narrative_label.
  set (a := get llava "concern_level" (VStr "unknown")) in *.
  set (b := or_ (get gemma "concern_level" VNone)
                (get gemma "standard_concern_level" (VStr "unknown"))) in *.
  set (sentence := if Py.eqb a b
                   then "Both models agree on " ++ str a ++ " concern level."
                   else "Models show " ++ str a ++ " (llava) and " ++ str b
                        ++ " (gemma) concern levels.").
  assert (E : (if Py.eqb a b
               then append [] ("Both models agree on " ++ str a
                                 ++ " concern level.")
               else append [] ("Models show " ++ str a ++ " (llava) and "
                                 ++ str b ++ " (gemma) concern levels."))
              = [sentence])
    by (unfold sentence; destruct (Py.eqb a b); reflexivity).
  rewrite E in H.
  apply bind_ok in H as (l1 & H1 & H).
  apply describe_scene_head in H1 as [r1 ->].
  apply bind_ok in H as (l2 & H2 & H).
  apply describe_scene_head in H2 as [r2 ->].
  apply bind_ok in H as (has & _ & H).
  injection H as <-.
  match goal with
  | |- exists tail, String.concat " " ?l = _ =>
      assert (L : exists rest, l = sentence :: rest)
  end.
  { unfold append.
    destruct has, (truthy (get llava "supervision_present" VNone));
      eexists; simpl; reflexivity. }
  destruct L as [rest ->]. apply concat_head.
Qed.

(** X9: the narrative of a combined record opens with the agreement
    sentence exactly when the two raw labels are equal values, whatever
    their scores: labels that normalize to the same score, such as high and
    severe, give perfect agreement and a narrative that shows the models
    apart. *)
Theorem narrative_compares_raw_labels enum llava gemma r :
  combine_analyses enum llava gemma = Ok r ->
  String.prefix "Both models agree on " (consensus_description r)
  = Py.eqb (get llava "concern_level" (VStr "unknown"))
           (Shape.gemma_narrative_label gemma)
  /\ String.prefix "Models show " (consensus_description r)
     = negb (Py.eqb (get llava "concern_level" (VStr "unknown"))
                    (Shape.gemma_narrative_label gemma)).
Proof.
  intros H.
  apply combine_analyses_ok in H
    as (sA & sB & pool & text & _ & _ & _ & HT & ->).
  cbn [consensus_description].
  apply create_consensus_description_opening in HT as [tail ->].
  destruct (Py.eqb (get llava "concern_level" (VStr "unknown"))
                   (Shape.gemma_narrative_label gemma)); split.
  - apply prefix_append. apply prefix_iff. eexists. reflexivity.
  - reflexivity.
  - reflexivity.
  - apply prefix_append. apply prefix_iff. eexists. reflexivity.
Qed.

Lemma narrative_compares_raw_labels_witness :
  combine_analyses Sample.insertion_order Sample.high_llava Sample.severe_gemma
  = Ok Sample.high_severe
  /\ agreement_level Sample.high_severe = "perfect"
  /\ String.prefix "Both models agree on "
                   (consensus_description Sample.high_severe)
     = false
  /\ String.prefix "Models show " (consensus_description Sample.high_severe)
     = true.
Proof.
  assert (H : combine_analyses Sample.insertion_order Sample.high_llava
                               Sample.severe_gemma
              = Ok Sample.high_severe) by reflexivity.
  split; [exact H | split; [reflexivity | ]].
  exact (narrative_compares_raw_labels _ _ _ _ H).
Defined.

(** ** [EnsembleAnalyzer.combine_concern_levels] *)

(** X11: [combine_concern_levels] gives the same level and the same
    confidence when its two labels are exchanged. *)
Theorem combine_concern_levels_exchange (la ga : string) :
  EnsembleAnalyzer.combine_concern_levels la ga
  = EnsembleAnalyzer.combine_concern_levels ga la.
Proof.
  unfold EnsembleAnalyzer.combine_concern_levels.
  generalize (EnsembleAnalyzer.score_of la) (EnsembleAnalyzer.score_of ga).
  intros a b.
  replace (Z.abs (b - a)) with (Z.abs (a - b)) by lia.
  rewrite (Z.add_comm b a). reflexivity.
Qed.

(** X12: the confidence of [combine_concern_levels] lies between 0.35 and
    1.0; it is below 0.5, the threshold of the disagreement report, exactly
    when the scores differ by 3, and at least 0.75, the threshold of the
    high-confidence count, exactly when they differ by at most 1. *)
Theorem combine_concern_levels_confidence (la ga : string) :
  let d := Z.abs (EnsembleAnalyzer.score_of la - EnsembleAnalyzer.score_of ga)
  in
  let confidence := snd (EnsembleAnalyzer.combine_concern_levels la ga) in
  ((35 # 100) <= confidence <= 1)%Q
  /\ ((confidence < 0.5)%Q <-> d = 3)
  /\ ((0.75 <= confidence)%Q <-> d <= 1).
Proof.
  intros d confidence. subst d confidence.
  unfold EnsembleAnalyzer.combine_concern_levels.
  assert (HA := score_of_range la). assert (HB := score_of_range ga).
  revert HA HB.
  generalize (EnsembleAnalyzer.score_of la) (EnsembleAnalyzer.score_of ga).
  intros a b HA HB. split_score HA; split_score HB; vm_compute;
    repeat split; intros; try discriminate; try reflexivity;
    try (exfalso; auto; fail).
Qed.

Lemma score_of_as_normalize (label : string) :
  Spec.one_of label ["moderate"; "severe"; "extreme"] = false ->
  EnsembleAnalyzer.score_of label = Spec.normalize label.
Proof.
  rewrite score_of_normalize_standard.
  unfold Spec.normalize, Spec.normalize_standard, Spec.one_of. simpl.
  repeat match goal with
         | |- context [String.eqb label ?k] =>
             destruct (String.eqb_spec label k) as [-> | ?];
             [intros H; try discriminate H; reflexivity | ]
         end.
  reflexivity.
Qed.

(** The two implementations on labels that they score alike. *)
Lemma implementations_on_equal_scores enum llava gemma r (la ga : string) :
  combine_analyses enum llava gemma = Ok r ->
  EnsembleAnalyzer.score_of la = llava_score r ->
  EnsembleAnalyzer.score_of ga = gemma_score r ->
  fst (EnsembleAnalyzer.combine_concern_levels la ga)
  = ensemble_concern_level r
  /\ (snd (EnsembleAnalyzer.combine_concern_levels la ga) ==
      ensemble_confidence r
      + (if (5 <=? llava_score r + gemma_score r)
            && (Z.min (llava_score r) (gemma_score r) <=? 2)
         then 1 # 10 else 0))%Q.
Proof.
  intros H EA EB.
  rewrite combine_concern_levels_level.
  unfold EnsembleAnalyzer.combine_concern_levels.
  rewrite EA, EB. clear EA EB.
  by_scores H; eval_fields; split; vm_compute; reflexivity.
Qed.

(** X13: on labels outside moderate, severe and extreme, where the two
    implementations score alike, they give the same level, and the
    confidence of [combine_concern_levels] is that of [combine_analyses]
    plus 0.1 exactly when the scores sum to at least 5 while one of them
    is below 3; otherwise the two confidences are equal. *)
Theorem implementations_compared enum llava gemma r (la ga : string) :
  combine_analyses enum llava gemma = Ok r ->
  llava_label llava = VStr la ->
  gemma_label gemma = VStr ga ->
  Spec.one_of la ["moderate"; "severe"; "extreme"] = false ->
  Spec.one_of ga ["moderate"; "severe"; "extreme"] = false ->
  fst (EnsembleAnalyzer.combine_concern_levels la ga)
  = ensemble_concern_level r
  /\ (snd (EnsembleAnalyzer.combine_concern_levels la ga) ==
      ensemble_confidence r
      + (if (5 <=? llava_score r + gemma_score r)
            && (Z.min (llava_score r) (gemma_score r) <=? 2)
         then 1 # 10 else 0))%Q.
Proof.
  intros H EA EB NA NB.
  apply (implementations_on_equal_scores _ _ _ _ la ga H).
  - apply combine_analyses_ok in H
      as (sA & sB & pool & text & HA & HB & _ & _ & ->).
    cbn [llava_score].
    rewrite EA, table_get_normalize in HA. injection HA as <-.
    apply score_of_as_normalize. exact NA.
  - apply combine_analyses_ok in H
      as (sA & sB & pool & text & HA & HB & _ & _ & ->).
    cbn [gemma_score].
    rewrite EB, table_get_normalize in HB. injection HB as <-.
    apply score_of_as_normalize. exact NB.
Qed.

Lemma implementations_compared_witness :
  combine_analyses Sample.insertion_order [("concern_level", VStr "critical")]
                   [("concern_level", VStr "low")]
  = Ok {| ensemble_concern_level := "high";
          ensemble_confidence := 1 # 4;
          llava_score := 4;
          gemma_score := 1;
          agreement_level := "low";
          combined_indicators := [];
          consensus_description :=
            "Models show critical (llava) and low (gemma) concern levels." |}
  /\ fst (EnsembleAnalyzer.combine_concern_levels "critical" "low") = "high"
  /\ (snd (EnsembleAnalyzer.combine_concern_levels "critical" "low") ==
      (1 # 4) + (if (5 <=? 4 + 1) && (Z.min 4 1 <=? 2) then 1 # 10 else 0))%Q.
Proof.
  assert (H : combine_analyses Sample.insertion_order
                [("concern_level", VStr "critical")]
                [("concern_level", VStr "low")]
              = Ok {| ensemble_concern_level := "high";
                      ensemble_confidence := 1 # 4;
                      llava_score := 4;
                      gemma_score := 1;
                      agreement_level := "low";
                      combined_indicators := [];
                      consensus_description :=
                        "Models show critical (llava) and low (gemma) concern levels."
                   |}) by reflexivity.
  split; [exact H | ].
  exact (implementations_compared _ _ _ _ "critical" "low" H
           eq_refl eq_refl eq_refl eq_refl).
Defined.

(** ** [EnsembleAnalyzer.combine_indicators] *)

(** The loop over the second list, position by position: what it adds to
    the accepted indicators is the second list at the positions of a mask,
    and a position is left out exactly when its indicator overlaps an
    indicator accepted before it. *)
Lemma folded_add_new_mask (lower : string -> string)
      (acc gemma : list string) :
  exists mask : list bool,
    List.length mask = List.length gemma
    /\ Folding.add_new lower acc gemma
       = (acc ++ Folding.select mask gemma)%list
    /\ forall (i : nat) (g : string),
         nth_error gemma i = Some g ->
         nth_error mask i = Some false
         <-> exists e,
               In e (acc ++ Folding.select (firstn i mask)
                                           (firstn i gemma))%list
               /\ Folding.overlap lower g e.
Proof.
  revert acc. induction gemma as [ | g0 gemma IH]; intros acc.
  - exists []. split; [reflexivity | split].
    + simpl. symmetry. apply app_nil_r.
    + intros [ | i] g H; discriminate H.
  - simpl.
    destruct (existsb (Folding.similar lower g0) acc) eqn:E; simpl.
    + destruct (IH acc) as (mask & HL & HK & HP).
      exists (false :: mask).
      split; [simpl; rewrite HL; reflexivity | split; [exact HK | ]].
      intros [ | i] g Hg; simpl in Hg.
      * injection Hg as <-. simpl. rewrite app_nil_r.
        split; [intros _ | reflexivity].
        apply existsb_exists in E as (e & He & Hs).
        exists e. split; [exact He | apply folded_similar_iff; exact Hs].
      * simpl. apply HP. exact Hg.
    + destruct (IH (append acc g0)) as (mask & HL & HK & HP).
      unfold append in *.
      exists (true :: mask).
      split; [simpl; rewrite HL; reflexivity | split].
      * rewrite HK, <- app_assoc. reflexivity.
      * intros [ | i] g Hg; simpl in Hg.
        -- injection Hg as <-. simpl. rewrite app_nil_r.
           split; [discriminate | ].
           intros (e & He & Ho). exfalso.
           assert (E' : existsb (Folding.similar lower g0) acc = true).
           { apply existsb_exists. exists e. split; [exact He | ].
             apply folded_similar_iff. exact Ho. }
           congruence.
        -- simpl. rewrite (HP i g Hg), <- app_assoc. reflexivity.
Qed.

(** X14: on every text, [combine_indicators] returns the first 15 of the
    first list followed by the kept indicators of the second list, in
    their order; the indicator at a position of the second list is left
    out exactly when, both texts folded by [str.lower], it is found inside
    or contains an indicator of the first list or a kept indicator of an
    earlier position.  So the first list is never screened, and an
    indicator is screened against those accepted before it only. *)
Theorem combine_indicators_invariants (lower : string -> string)
        (llava gemma : list string) :
  exists mask : list bool,
    List.length mask = List.length gemma
    /\ Folding.combine_indicators lower llava gemma
       = firstn 15 (llava ++ Folding.select mask gemma)
    /\ forall (i : nat) (g : string),
         nth_error gemma i = Some g ->
         nth_error mask i = Some false
         <-> exists e,
               In e (llava ++ Folding.select (firstn i mask)
                                             (firstn i gemma))%list
               /\ Folding.overlap lower g e.
Proof.
  destruct (folded_add_new_mask lower llava gemma) as (mask & HL & HK & HP).
  exists mask. split; [exact HL | split; [ | exact HP]].
  rewrite folded_combine_indicators_eq, HK. reflexivity.
Qed.

(** The second list of the sample is kept at its second position only:
    [Helmets] is found, letter case aside, inside [no helmets]. *)
Example combine_indicators_mask_sample :
  Folding.combine_indicators lower ["no helmets"] ["Helmets"; "guards"]
  = firstn 15 (["no helmets"]
               ++ Folding.select [false; true] ["Helmets"; "guards"]).
Proof. reflexivity. Qed.

Lemma similar_empty (indicator : string) :
  EnsembleAnalyzer.similar indicator "" = true.
Proof.
  unfold EnsembleAnalyzer.similar. apply orb_true_iff. right.
  simpl lower at 1. destruct (lower indicator); reflexivity.
Qed.

Lemma add_new_blocked (llava gemma : list string) :
  In "" llava -> EnsembleAnalyzer.add_new llava gemma = llava.
Proof.
  intros H. induction gemma as [ | i gemma IH]; simpl; [reflexivity | ].
  assert (E : existsb (EnsembleAnalyzer.similar i) llava = true).
  { apply existsb_exists. exists "". split; [exact H | apply similar_empty]. }
  rewrite E. simpl. exact IH.
Qed.

(** X15: the second model's indicators are all lost when the first list
    holds an empty text, which every indicator contains, or when it
    already holds 15 indicators or more. *)
Theorem combine_indicators_second_list_lost (llava gemma : list string) :
  In "" llava \/ (15 <= List.length llava)%nat ->
  EnsembleAnalyzer.combine_indicators llava gemma = firstn 15 llava.
Proof.
  rewrite combine_indicators_eq. intros [H | H].
  - rewrite (add_new_blocked llava gemma H). reflexivity.
  - destruct (add_new_extends llava gemma) as [kept ->].
    rewrite firstn_app.
    replace (15 - List.length llava)%nat with 0%nat by lia.
    rewrite firstn_O. apply app_nil_r.
Qed.

Lemma combine_indicators_second_list_lost_witness :
  EnsembleAnalyzer.combine_indicators [""; "guards"] ["fenced area"]
  = firstn 15 [""; "guards"].
Proof.
  apply combine_indicators_second_list_lost. left. simpl. left. reflexivity.
Defined.

(** ** The batch over the table *)

Module BatchFacts.

Import Batch.

Lemma combined_level_known (la ga : string) :
  In (fst (EnsembleAnalyzer.combine_concern_levels la ga)) levels.
Proof.
  rewrite combine_concern_levels_level.
  assert (HA := score_of_range la). assert (HB := score_of_range ga).
  revert HA HB.
  generalize (EnsembleAnalyzer.score_of la) (EnsembleAnalyzer.score_of ga).
  intros a b HA HB. split_score HA; split_score HB; vm_compute; tauto.
Qed.

Lemma increment_known (d : list (string * Z)) (k : string) :
  In k (map fst d) ->
  exists d',
    increment d k = Some d'
    /\ map fst d' = map fst d
    /\ total d' = total d + 1
    /\ (Forall (fun kn => 0 <= snd kn) d ->
        Forall (fun kn => 0 <= snd kn) d').
Proof.
  induction d as [ | [k' n] d IH]; simpl; [intros [] | ].
  intros Hk. destruct (String.eqb_spec k k') as [-> | Hne].
  - eexists. split; [reflexivity | ]. simpl.
    split; [reflexivity | split; [lia | ]].
    intros F. inversion F; subst. constructor; simpl in *; [lia | assumption].
  - destruct Hk as [<- | Hk]; [contradiction | ].
    destruct (IH Hk) as (d' & E & K & T & P). rewrite E. simpl.
    eexists. split; [reflexivity | ]. simpl.
    split; [rewrite K; reflexivity | split; [lia | ]].
    intros F. inversion F; subst. constructor; [assumption | auto].
Qed.

Lemma update_row_ids (table : Table) (key : Z) (assign : Row -> Row) :
  (forall row, id (assign row) = id row) ->
  map id (update_row table key assign) = map id table.
Proof.
  intros H. induction table as [ | row table IH]; simpl; [reflexivity | ].
  destruct (id row =? key); simpl; [rewrite H | rewrite IH]; reflexivity.
Qed.

Lemma get_row_found (table : Table) (key : Z) :
  In key (map id table) -> exists row, get_row table key = Some row.
Proof.
  unfold get_row. induction table as [ | row table IH]; simpl; [intros [] | ].
  intros [E | H].
  - rewrite E, Z.eqb_refl. eexists. reflexivity.
  - destruct (id row =? key); [eexists; reflexivity | apply IH; exact H].
Qed.

(** The loop over records whose keys are in the table: every record is
    processed, the distribution gains one count per record, and the keys
    of the table stay. *)
Lemma process_records_counts (records : list Fetched) :
  forall (table : Table) (s : Summary),
    (forall record, In record records -> In (rec_id record) (map id table)) ->
    well_formed s ->
    exists table' s',
      process_records records table s = Done (table', s')
      /\ map id table' = map id table
      /\ well_formed s'
      /\ processed_count s'
         = processed_count s + Z.of_nat (List.length records)
      /\ total (concern_distribution s')
         = total (concern_distribution s) + Z.of_nat (List.length records)
      /\ high_confidence_count s <= high_confidence_count s'
         <= high_confidence_count s + Z.of_nat (List.length records).
Proof.
  induction records as [ | record records IH]; intros table s Hin [WK WP].
  - exists table, s. simpl.
    repeat split; try assumption; try reflexivity; lia.
  - cbn [process_records].
    destruct (EnsembleAnalyzer.combine_concern_levels
                (rec_concern_level record) (rec_gemma_concern_level record))
      as [level confidence] eqn:EC.
    destruct (get_row_found table (rec_id record)) as [row ER];
      [apply Hin; left; reflexivity | ].
    rewrite ER.
    assert (HL : In level (map fst (concern_distribution s))).
    { rewrite WK. replace level with
        (fst (EnsembleAnalyzer.combine_concern_levels
                (rec_concern_level record) (rec_gemma_concern_level record)))
        by (rewrite EC; reflexivity).
      apply combined_level_known. }
    destruct (increment_known _ _ HL) as (d' & EI & K & T & P).
    rewrite EI.
    set (table1 := update_row table (rec_id record)
                              (set_ensemble level confidence)).
    assert (I1 : map id table1 = map id table)
      by (apply update_row_ids; intros r; reflexivity).
    match goal with
    | |- context [process_records records table1 ?s1] =>
        destruct (IH table1 s1) as (table' & s' & E & I & W & C & D & G)
    end.
    + intros r Hr. rewrite I1. apply Hin. right. exact Hr.
    + split; simpl; [rewrite K; exact WK | apply P; exact WP].
    + exists table', s'. simpl in C, D, G.
      split; [exact E | ].
      split; [rewrite I; exact I1 | ].
      split; [exact W | ].
      cbn [List.length]. rewrite Nat2Z.inj_succ.
      split; [lia | split; [lia | ]].
      destruct (Qle_bool 0.75 confidence); lia.
Qed.

Lemma insert_by_result_id_in (a x : Fetched) (l : list Fetched) :
  In x (insert_by_result_id a l) <-> x = a \/ In x l.
Proof.
  induction l as [ | r l IH]; simpl.
  - intuition congruence.
  - destruct (rec_result_id a <? rec_result_id r); simpl.
    + intuition congruence.
    + rewrite IH. intuition congruence.
Qed.

Lemma insert_by_result_id_length (a : Fetched) (l : list Fetched) :
  List.length (insert_by_result_id a l) = S (List.length l).
Proof.
  induction l as [ | r l IH]; simpl; [reflexivity | ].
  destruct (rec_result_id a <? rec_result_id r); simpl; [ | rewrite IH];
    reflexivity.
Qed.

Lemma order_by_result_id_in (x : Fetched) (l : list Fetched) :
  In x (order_by_result_id l) <-> In x l.
Proof.
  induction l as [ | a l IH]; simpl; [tauto | ].
  rewrite insert_by_result_id_in, IH. intuition congruence.
Qed.

Lemma order_by_result_id_length (l : list Fetched) :
  List.length (order_by_result_id l) = List.length l.
Proof.
  induction l as [ | a l IH]; simpl; [reflexivity | ].
  rewrite insert_by_result_id_length, IH. reflexivity.
Qed.

Lemma select_all_in (force : bool) (table : Table) (record : Fetched) :
  In record (select_all force table)
  <-> exists row, In row table /\ select force row = Some record.
Proof.
  induction table as [ | row table IH]; simpl.
  - split; [intros [] | intros (r & [] & _)].
  - destruct (select force row) as [rec | ] eqn:E; simpl; rewrite IH.
    + split.
      * intros [<- | (r & Hr & Er)];
          [exists row | exists r]; auto.
      * intros (r & [<- | Hr] & Er).
        -- left. congruence.
        -- right. exists r. auto.
    + split.
      * intros (r & Hr & Er). exists r. auto.
      * intros (r & [<- | Hr] & Er); [congruence | exists r; auto].
Qed.

Lemma select_id (force : bool) (row : Row) (record : Fetched) :
  select force row = Some record -> rec_id record = id row.
Proof.
  unfold select.
  destruct (concern_level row), (gemma_concern_level row);
    try discriminate.
  destruct (force || _); [ | discriminate].
  intros H. injection H as <-. reflexivity.
Qed.

Lemma fetchall_ids (force : bool) (table : Table) (record : Fetched) :
  In record (fetchall force table) -> In (rec_id record) (map id table).
Proof.
  unfold fetchall. rewrite order_by_result_id_in, select_all_in.
  intros (row & Hr & E). rewrite (select_id _ _ _ E).
  apply in_map. exact Hr.
Qed.

Lemma limited_in (limit : option Z) (records : list Fetched) (x : Fetched) :
  In x (limited limit records) -> In x records.
Proof.
  unfold limited, slice_to. destruct limit as [n | ]; [ | tauto].
  destruct (negb (n =? 0) && (n <? Z.of_nat (List.length records)));
    [ | tauto].
  destruct (0 <=? n); apply in_firstn.
Qed.

(** How many records the loop runs over. *)
Lemma limited_length (limit : option Z) (records : list Fetched) :
  let total_records := Z.of_nat (List.length records) in
  Z.of_nat (List.length (limited limit records))
  = match limit with
    | None => total_records
    | Some n =>
        if n =? 0 then total_records
        else if 0 <? n then Z.min n total_records
             else Z.max 0 (total_records + n)
    end.
Proof.
  intros total_records. subst total_records.
  unfold limited, slice_to. destruct limit as [n | ]; [ | reflexivity].
  destruct (Z.eqb_spec n 0) as [-> | Hn]; simpl; [reflexivity | ].
  destruct (Z.ltb_spec n (Z.of_nat (List.length records))) as [Hlt | Hge];
    destruct (Z.ltb_spec 0 n) as [Hpos | Hneg];
    try (destruct (Z.leb_spec 0 n); [ | lia]);
    try (destruct (Z.leb_spec 0 n); [lia | ]);
    try rewrite length_firstn; lia.
Qed.

(** X16: the batch never fails on a missing distribution key.  It fails,
    with a division by zero in its summary and the table unchanged,
    exactly when there are records to process and a negative limit cuts
    all of them off; with no limit or a positive one it always completes. *)
Theorem process_ensemble_analysis_failure (table : Table) (limit : option Z)
        (force : bool) (e : exn) :
  let total_records := Z.of_nat (List.length (fetchall force table)) in
  process_ensemble_analysis table limit force = Fail e
  <-> e = ZeroDivisionError
      /\ exists n, limit = Some n /\ n < 0 /\ 0 < total_records
                   /\ total_records + n <= 0.
Proof.
  intros total_records. unfold process_ensemble_analysis.
  fold total_records.
  destruct (process_records_counts
              (limited limit (fetchall force table)) table initial_summary)
    as (table' & s' & E & _ & _ & C & _).
  { intros r Hr. apply fetchall_ids with force.
    apply limited_in in Hr. exact Hr. }
  { split; [reflexivity | repeat constructor; simpl; lia]. }
  rewrite E. simpl in C. rewrite C.
  pose proof (limited_length limit (fetchall force table)) as L.
  cbv zeta in L. fold total_records in L. rewrite L.
  assert (T : 0 <= total_records) by (unfold total_records; lia).
  destruct (Z.eqb_spec total_records 0) as [E0 | N0].
  - split; [discriminate | ]. intros (_ & n & _ & _ & H & _). lia.
  - destruct limit as [n | ].
    + destruct (Z.eqb_spec n 0) as [-> | Hn].
      * destruct (Z.eqb_spec total_records 0); [lia | ].
        split; [discriminate | ]. intros (_ & m & Em & Hm & _).
        injection Em as <-. lia.
      * destruct (Z.ltb_spec 0 n) as [Hpos | Hneg].
        -- destruct (Z.eqb_spec (Z.min n total_records) 0); [lia | ].
           split; [discriminate | ]. intros (_ & m & Em & Hm & _).
           injection Em as <-. lia.
        -- destruct (Z.eqb_spec (Z.max 0 (total_records + n)) 0) as [Z0 | Z0].
           ++ split.
              ** intros H. injection H as <-. split; [reflexivity | ].
                 exists n. repeat split; lia.
              ** intros (-> & _). reflexivity.
           ++ split; [discriminate | ]. intros (_ & m & Em & Hm & _ & Hs).
              injection Em as <-. lia.
    + destruct (Z.eqb_spec total_records 0); [lia | ].
      split; [discriminate | ]. intros (_ & m & Em & _). discriminate Em.
Qed.

(** X17: when the batch completes with a summary, the processed count is
    the number of records within the limit, the four counts of the level
    distribution are non-negative and add up to it, and the high
    confidence count lies between 0 and it. *)
Theorem process_ensemble_analysis_summary (table table' : Table)
        (limit : option Z) (force : bool) (s : Summary) :
  process_ensemble_analysis table limit force = Done (table', Some s) ->
  processed_count s
  = Z.of_nat (List.length (limited limit (fetchall force table)))
  /\ 0 < processed_count s
  /\ map fst (concern_distribution s) = levels
  /\ Forall (fun kn => 0 <= snd kn) (concern_distribution s)
  /\ total (concern_distribution s) = processed_count s
  /\ 0 <= high_confidence_count s <= processed_count s.
Proof.
  unfold process_ensemble_analysis.
  destruct (process_records_counts
              (limited limit (fetchall force table)) table initial_summary)
    as (t1 & s1 & E & _ & [WK WP] & C & D & G).
  { intros r Hr. apply fetchall_ids with force.
    apply limited_in in Hr. exact Hr. }
  { split; [reflexivity | repeat constructor; simpl; lia]. }
  rewrite E. simpl in C, D, G.
  destruct (Z.of_nat (List.length (fetchall force table)) =? 0);
    [discriminate | ].
  destruct (Z.eqb_spec (processed_count s1) 0) as [Z0 | Z0];
    [discriminate | ].
  intros H. injection H as <- <-.
  repeat split; try assumption; lia.
Qed.

Lemma process_ensemble_analysis_summary_witness :
  process_ensemble_analysis sample_table None true
  = Done (map combined_row sample_table,
          Some {| processed_count := 2;
                  concern_distribution :=
                    [("low", 1); ("medium", 0); ("high", 0); ("critical", 1)];
                  high_confidence_count := 2 |})
  /\ 2 = Z.of_nat (List.length (limited None (fetchall true sample_table)))
  /\ 0 < 2
  /\ map fst [("low", 1); ("medium", 0); ("high", 0); ("critical", 1)]
     = levels
  /\ Forall (fun kn => 0 <= snd kn)
            [("low", 1); ("medium", 0); ("high", 0); ("critical", 1)]
  /\ total [("low", 1); ("medium", 0); ("high", 0); ("critical", 1)] = 2
  /\ 0 <= 2 <= 2.
Proof.
  assert (H : process_ensemble_analysis sample_table None true
              = Done (map combined_row sample_table,
                      Some {| processed_count := 2;
                              concern_distribution :=
                                [("low", 1); ("medium", 0); ("high", 0);
                                 ("critical", 1)];
                              high_confidence_count := 2 |}))
    by reflexivity.
  split; [exact H | ].
  exact (process_ensemble_analysis_summary _ _ _ _ _ H).
Defined.

Lemma unique_row (table : Table) (r1 r2 : Row) :
  NoDup (map id table) -> In r1 table -> In r2 table -> id r1 = id r2 ->
  r1 = r2.
Proof.
  induction table as [ | row table IH]; simpl; [intros _ [] | ].
  intros N H1 H2 E. inversion N as [ | ? ? Hn N']; subst.
  destruct H1 as [<- | H1], H2 as [<- | H2].
  - reflexivity.
  - exfalso. apply Hn. rewrite E. apply in_map. exact H2.
  - exfalso. apply Hn. rewrite <- E. apply in_map. exact H1.
  - apply IH; assumption.
Qed.

Lemma update_row_as_map (table : Table) (key : Z) (assign : Row -> Row) :
  NoDup (map id table) ->
  update_row table key assign
  = map (fun row => if id row =? key then assign row else row) table.
Proof.
  induction table as [ | row table IH]; simpl; [reflexivity | ].
  intros N. inversion N as [ | ? ? Hn N']; subst.
  destruct (Z.eqb_spec (id row) key) as [E | E].
  - f_equal. rewrite <- (map_id table) at 1. apply map_ext_in.
    intros r Hr. destruct (Z.eqb_spec (id r) key) as [E' | ]; [ | reflexivity].
    exfalso. apply Hn. rewrite E, <- E'. apply in_map. exact Hr.
  - f_equal. apply IH. exact N'.
Qed.

Lemma combined_row_id (row : Row) : id (combined_row row) = id row.
Proof.
  unfold combined_row.
  destruct (concern_level row), (gemma_concern_level row); reflexivity.
Qed.

Lemma combined_where_ids (keys : list Z) (table : Table) :
  map id (combined_where keys table) = map id table.
Proof.
  unfold combined_where. rewrite map_map. apply map_ext. intros row.
  destruct (existsb (Z.eqb (id row)) keys);
    [apply combined_row_id | reflexivity].
Qed.

Lemma combined_where_nil (table : Table) : combined_where [] table = table.
Proof. unfold combined_where. simpl. apply map_id. Qed.

Lemma combined_where_ext (keys keys' : list Z) (table : Table) :
  (forall row, In row table -> (In (id row) keys <-> In (id row) keys')) ->
  combined_where keys table = combined_where keys' table.
Proof.
  intros H. unfold combined_where. apply map_ext_in. intros row Hr.
  assert (E : existsb (Z.eqb (id row)) keys
              = existsb (Z.eqb (id row)) keys').
  { apply eq_true_iff_eq. rewrite !existsb_exists. split.
    - intros (k & Hk & Ek). apply Z.eqb_eq in Ek. subst k.
      exists (id row). split; [apply H; assumption | apply Z.eqb_refl].
    - intros (k & Hk & Ek). apply Z.eqb_eq in Ek. subst k.
      exists (id row). split; [apply H; assumption | apply Z.eqb_refl]. }
  rewrite E. reflexivity.
Qed.

(** A selected row is combined from the labels of its record. *)
Lemma select_combined (force : bool) (row : Row) (record : Fetched) :
  select force row = Some record ->
  combined_row row
  = set_ensemble
      (fst (EnsembleAnalyzer.combine_concern_levels
              (rec_concern_level record) (rec_gemma_concern_level record)))
      (snd (EnsembleAnalyzer.combine_concern_levels
              (rec_concern_level record) (rec_gemma_concern_level record)))
      row.
Proof.
  unfold select, combined_row.
  destruct (concern_level row), (gemma_concern_level row);
    try discriminate.
  destruct (force || _); [ | discriminate].
  intros H. injection H as <-. reflexivity.
Qed.

Lemma set_ensemble_combined (level : string) (confidence : Q) (row : Row) :
  set_ensemble level confidence (combined_row row)
  = set_ensemble level confidence row.
Proof.
  unfold combined_row.
  destruct (concern_level row), (gemma_concern_level row); reflexivity.
Qed.

(** The table after the loop: the rows of the records, and no others, are
    combined. *)
Lemma process_records_effect (force : bool) (table0 : Table) :
  NoDup (map id table0) ->
  forall (records : list Fetched) (done : list Z) (s : Summary)
         (table' : Table) (s' : Summary),
    (forall record, In record records ->
                    exists row, In row table0
                                /\ select force row = Some record) ->
    process_records records (combined_where done table0) s
    = Done (table', s') ->
    table' = combined_where (rev (map rec_id records) ++ done) table0.
Proof.
  intros N. induction records as [ | record records IH];
    intros done s table' s' Hsel H.
  - simpl in *. injection H as <- _. reflexivity.
  - cbn [process_records] in H.
    destruct (Hsel record (or_introl eq_refl)) as (row0 & Hrow0 & Esel).
    pose proof (select_id _ _ _ Esel) as Eid.
    pose proof (select_combined _ _ _ Esel) as Ecomb.
    destruct (EnsembleAnalyzer.combine_concern_levels
                (rec_concern_level record) (rec_gemma_concern_level record))
      as [level confidence].
    cbn [fst snd] in Ecomb.
    destruct (get_row_found (combined_where done table0) (rec_id record))
      as [found Efound].
    { rewrite combined_where_ids, Eid. apply in_map. exact Hrow0. }
    rewrite Efound in H.
    assert (U : update_row (combined_where done table0) (rec_id record)
                           (set_ensemble level confidence)
                = combined_where (rec_id record :: done) table0).
    { rewrite update_row_as_map
        by (rewrite combined_where_ids; exact N).
      unfold combined_where. rewrite map_map. apply map_ext_in.
      intros row Hrow. cbn [existsb].
      assert (I : id (if existsb (Z.eqb (id row)) done
                      then combined_row row else row) = id row)
        by (destruct (existsb (Z.eqb (id row)) done);
            [apply combined_row_id | reflexivity]).
      rewrite I.
      destruct (Z.eqb_spec (id row) (rec_id record)) as [E | E]; simpl.
      - assert (row = row0)
          by (apply (unique_row table0); try assumption; congruence).
        subst row.
        destruct (existsb (Z.eqb (id row0)) done).
        + rewrite set_ensemble_combined. symmetry. exact Ecomb.
        + symmetry. exact Ecomb.
      - reflexivity. }
    rewrite U in H.
    destruct (increment (concern_distribution s) level); [ | discriminate H].
    apply IH in H.
    + rewrite H. simpl. rewrite <- app_assoc. reflexivity.
    + intros r Hr. apply Hsel. right. exact Hr.
Qed.

Lemma fetchall_selected (force : bool) (table : Table) (record : Fetched) :
  In record (fetchall force table)
  <-> exists row, In row table /\ select force row = Some record.
Proof.
  unfold fetchall. rewrite order_by_result_id_in. apply select_all_in.
Qed.

(** Without a limit the rows whose keys are fetched are the selected
    rows. *)
Lemma combined_where_fetched (force : bool) (table : Table) :
  NoDup (map id table) ->
  combined_where (map rec_id (fetchall force table)) table
  = map (processed_row force) table.
Proof.
  intros N. unfold combined_where. apply map_ext_in. intros row Hrow.
  unfold processed_row.
  destruct (select force row) as [record | ] eqn:E.
  - assert (X : existsb (Z.eqb (id row))
                        (map rec_id (fetchall force table)) = true).
    { apply existsb_exists. exists (id row).
      split; [ | apply Z.eqb_refl].
      rewrite <- (select_id _ _ _ E). apply in_map.
      apply fetchall_selected. exists row. auto. }
    rewrite X. reflexivity.
  - destruct (existsb (Z.eqb (id row))
                      (map rec_id (fetchall force table))) eqn:X;
      [ | reflexivity].
    exfalso. apply existsb_exists in X as (k & Hk & Ek).
    apply Z.eqb_eq in Ek. subst k.
    apply in_map_iff in Hk as (record & Eid & Hrec).
    apply fetchall_selected in Hrec as (row1 & Hrow1 & E1).
    assert (row1 = row).
    { apply (unique_row table); try assumption.
      rewrite <- (select_id _ _ _ E1). exact Eid. }
    subst row1. congruence.
Qed.

(** The table that a completed run leaves. *)
Lemma process_ensemble_analysis_table (table table' : Table)
      (limit : option Z) (force : bool) (summary : option Summary) :
  NoDup (map id table) ->
  process_ensemble_analysis table limit force = Done (table', summary) ->
  table'
  = combined_where (map rec_id (limited limit (fetchall force table))) table.
Proof.
  intros N. unfold process_ensemble_analysis.
  destruct (Z.of_nat (List.length (fetchall force table)) =? 0) eqn:E0.
  - intros H. injection H as <- _.
    apply Z.eqb_eq in E0.
    assert (L : fetchall force table = [])
      by (destruct (fetchall force table); [reflexivity | simpl in E0; lia]).
    rewrite L.
    assert (L' : limited limit [] = []).
    { unfold limited, slice_to. destruct limit as [n | ]; [ | reflexivity].
      destruct (negb (n =? 0) && _); [ | reflexivity].
      destruct (0 <=? n); apply firstn_nil. }
    rewrite L'. symmetry. apply combined_where_nil.
  - destruct (process_records (limited limit (fetchall force table)) table
                              initial_summary)
      as [[t1 s1] | e] eqn:E; [ | discriminate].
    destruct (processed_count s1 =? 0); [discriminate | ].
    intros H. injection H as <- _.
    assert (E' : process_records (limited limit (fetchall force table))
                                 (combined_where [] table) initial_summary
                 = Done (t1, s1))
      by (rewrite combined_where_nil; exact E).
    apply (process_records_effect force table N) in E'.
    + rewrite E'. apply combined_where_ext. intros row _.
      rewrite app_nil_r, <- in_rev. reflexivity.
    + intros r Hr. apply limited_in in Hr.
      apply fetchall_selected. exact Hr.
Qed.

(** X18: on a table with distinct primary keys, a completed run writes the
    level and confidence combined from a row's own two labels into the
    rows of the records it processed, and leaves every other row as it
    was; without a limit it combines exactly the selected rows. *)
Theorem process_ensemble_analysis_effect (table table' : Table)
        (limit : option Z) (force : bool) (summary : option Summary) :
  NoDup (map id table) ->
  process_ensemble_analysis table limit force = Done (table', summary) ->
  table'
  = map (fun row =>
           if existsb (Z.eqb (id row))
                      (map rec_id (limited limit (fetchall force table)))
           then combined_row row else row)
        table
  /\ (limit = None -> table' = map (processed_row force) table).
Proof.
  intros N H.
  pose proof (process_ensemble_analysis_table _ _ _ _ _ N H) as E.
  split; [exact E | ].
  intros ->. rewrite E. simpl limited.
  apply combined_where_fetched. exact N.
Qed.

Lemma sample_table_keys : NoDup (map id sample_table).
Proof.
  simpl. repeat constructor; simpl; intuition discriminate.
Qed.

Lemma process_ensemble_analysis_effect_witness :
  NoDup (map id sample_table)
  /\ process_ensemble_analysis sample_table None false
     = Done (map (processed_row false) sample_table,
             Some {| processed_count := 1;
                     concern_distribution :=
                       [("low", 0); ("medium", 0); ("high", 0);
                        ("critical", 1)];
                     high_confidence_count := 1 |})
  /\ map (processed_row false) sample_table
     = map (fun row =>
              if existsb (Z.eqb (id row))
                         (map rec_id
                              (limited None (fetchall false sample_table)))
              then combined_row row else row)
           sample_table
  /\ (@None Z = None ->
      map (processed_row false) sample_table
      = map (processed_row false) sample_table).
Proof.
  assert (H : process_ensemble_analysis sample_table None false
              = Done (map (processed_row false) sample_table,
                      Some {| processed_count := 1;
                              concern_distribution :=
                                [("low", 0); ("medium", 0); ("high", 0);
                                 ("critical", 1)];
                              high_confidence_count := 1 |}))
    by reflexivity.
  split; [exact sample_table_keys | split; [exact H | ]].
  exact (process_ensemble_analysis_effect _ _ _ _ _ sample_table_keys H).
Defined.

Lemma select_processed_row (row : Row) :
  select false (processed_row false row) = None.
Proof.
  unfold processed_row.
  destruct (select false row) as [record | ] eqn:E; [ | exact E].
  unfold select, combined_row in *.
  destruct (concern_level row) as [la | ] eqn:EA;
    destruct (gemma_concern_level row) as [ga | ] eqn:EB;
    try discriminate E.
  simpl. rewrite EA, EB. reflexivity.
Qed.

Lemma processed_row_twice (row : Row) :
  processed_row true (processed_row true row) = processed_row true row.
Proof.
  unfold processed_row, select, combined_row.
  destruct (concern_level row) as [la | ] eqn:EA;
    destruct (gemma_concern_level row) as [ga | ] eqn:EB; simpl;
    try rewrite EA; try rewrite EB; reflexivity.
Qed.

Lemma select_all_none (force : bool) (table : Table) :
  (forall row, In row table -> select force row = None) ->
  select_all force table = [].
Proof.
  induction table as [ | row table IH]; simpl; [reflexivity | ].
  intros H. rewrite (H row (or_introl eq_refl)). apply IH.
  intros r Hr. apply H. right. exact Hr.
Qed.

(** A run without limit completes. *)
Lemma process_ensemble_analysis_completes (table : Table) (force : bool) :
  exists table' summary,
    process_ensemble_analysis table None force = Done (table', summary).
Proof.
  unfold process_ensemble_analysis.
  destruct (process_records_counts
              (limited None (fetchall force table)) table initial_summary)
    as (t1 & s1 & E & _ & _ & C & _).
  { intros r Hr. apply fetchall_ids with force. exact Hr. }
  { split; [reflexivity | repeat constructor; simpl; lia]. }
  rewrite E. simpl in C. simpl limited in *.
  destruct (Z.eqb_spec (Z.of_nat (List.length (fetchall force table))) 0);
    [do 2 eexists; reflexivity | ].
  destruct (Z.eqb_spec (processed_count s1) 0); [lia | ].
  do 2 eexists. reflexivity.
Qed.

Lemma processed_row_id (force : bool) (row : Row) :
  id (processed_row force row) = id row.
Proof.
  unfold processed_row. destruct (select force row);
    [apply combined_row_id | reflexivity].
Qed.

Lemma process_ensemble_analysis_all (table table' : Table) (force : bool)
      (summary : option Summary) :
  NoDup (map id table) ->
  process_ensemble_analysis table None force = Done (table', summary) ->
  table' = map (processed_row force) table.
Proof.
  intros N H.
  rewrite (process_ensemble_analysis_table _ _ _ _ _ N H). simpl limited.
  apply combined_where_fetched. exact N.
Qed.

(** X19: on a table with distinct primary keys, running the batch again
    after a complete run changes nothing: a second run without force
    finds no record to process, and a second forced run writes the same
    table. *)
Theorem process_ensemble_analysis_again (table table' : Table) (force : bool)
        (summary : option Summary) :
  NoDup (map id table) ->
  process_ensemble_analysis table None force = Done (table', summary) ->
  (force = false ->
   process_ensemble_analysis table' None false = Done (table', None))
  /\ exists summary',
       process_ensemble_analysis table' None force = Done (table', summary').
Proof.
  intros N H.
  pose proof (process_ensemble_analysis_all _ _ _ _ N H) as E.
  assert (N' : NoDup (map id table')).
  { rewrite E, map_map.
    rewrite (map_ext _ id (processed_row_id force)). exact N. }
  assert (A : force = false ->
              process_ensemble_analysis table' None false
              = Done (table', None)).
  { intros ->. unfold process_ensemble_analysis, fetchall.
    rewrite select_all_none; [reflexivity | ].
    intros row Hrow. rewrite E in Hrow.
    apply in_map_iff in Hrow as (r & <- & _). apply select_processed_row. }
  split; [exact A | ].
  destruct force.
  - destruct (process_ensemble_analysis_completes table' true)
      as (table'' & summary' & H').
    exists summary'. rewrite H'. f_equal. f_equal.
    rewrite (process_ensemble_analysis_all _ _ _ _ N' H').
    rewrite E, map_map. apply map_ext. intros row.
    apply processed_row_twice.
  - exists None. apply A. reflexivity.
Qed.

Lemma process_ensemble_analysis_again_witness :
  NoDup (map id sample_table)
  /\ process_ensemble_analysis sample_table None false
     = Done (map (processed_row false) sample_table,
             Some {| processed_count := 1;
                     concern_distribution :=
                       [("low", 0); ("medium", 0); ("high", 0);
                        ("critical", 1)];
                     high_confidence_count := 1 |})
  /\ (false = false ->
      process_ensemble_analysis (map (processed_row false) sample_table)
                                None false
      = Done (map (processed_row false) sample_table, None))
  /\ exists summary',
       process_ensemble_analysis (map (processed_row false) sample_table)
                                 None false
       = Done (map (processed_row false) sample_table, summary').
Proof.
  assert (H : process_ensemble_analysis sample_table None false
              = Done (map (processed_row false) sample_table,
                      Some {| processed_count := 1;
                              concern_distribution :=
                                [("low", 0); ("medium", 0); ("high", 0);
                                 ("critical", 1)];
                              high_confidence_count := 1 |}))
    by reflexivity.
  split; [exact sample_table_keys | split; [exact H | ]].
  exact (process_ensemble_analysis_again _ _ _ _ sample_table_keys H).
Defined.

End BatchFacts.

(** ** The ensemble step on a row of the table *)

Lemma extend_from_list (l : list string) (d : dict) (k : string) :
  list_field d k -> exists l', MissingGemma.extend_from l d k = Ok l'.
Proof.
  unfold list_field, MissingGemma.extend_from.
  destruct (get d k VNone) as [ | b | n | t | items]; simpl;
    try contradiction; intros _.
  - eexists; reflexivity.
  - destruct items; eexists; reflexivity.
Qed.

Lemma llava_result_typed (analysis : MissingGemma.Analysis) :
  MissingGemma.column_typed analysis ->
  text_field (MissingGemma.llava_result analysis) "concern_level"
  /\ text_field (MissingGemma.llava_result analysis) "scene_description"
  /\ list_field (MissingGemma.llava_result analysis) "concern_indicators"
  /\ list_field (MissingGemma.llava_result analysis) "restriction_indicators".
Proof.
  destruct analysis as [cl ci ri sd pc sp].
  unfold MissingGemma.column_typed, text_field, list_field; simpl.
  intros (H1 & H2 & H3 & H4 & _).
  repeat split; try assumption.
  - destruct ci as [ | ? | ? | ? | [ | ? ?]]; try contradiction; exact I.
  - destruct ri as [ | ? | ? | ? | [ | ? ?]]; try contradiction; exact I.
Qed.

(** X20: for a row whose columns hold NULL or values of their declared
    types, and an answer of the second model with well-typed fields, the
    ensemble step of [process_missing_gemma.py] commits a result exactly
    when the personnel count is not NULL; a row with a NULL count is
    counted as failed and left without an ensemble result. *)
Theorem ensemble_step_fails_on_null_count enum analysis
        (first : string * value) (rest : dict) :
  MissingGemma.column_typed analysis ->
  typed_gemma (first :: rest) ->
  MissingGemma.lacks (first :: rest) "error_message" = true ->
  MissingGemma.ensemble_step enum analysis (Some (first :: rest)) = None
  <-> MissingGemma.personnel_count analysis = VNone.
Proof.
  intros CT TG NE. set (g := first :: rest) in *.
  unfold MissingGemma.ensemble_step. fold g. rewrite NE.
  pose proof (llava_result_typed analysis CT) as (T1 & T2 & T3 & T4).
  destruct TG as (G1 & G2 & G3 & G4 & G5 & G6).
  unfold MissingGemma.combine_row.
  destruct (extend_from_list [] g _ G4) as [l1 E1]. rewrite E1; cbn [bind].
  destruct (extend_from_list l1 g _ G5) as [l2 E2]. rewrite E2; cbn [bind].
  destruct (extend_from_list l2 g _ G6) as [l3 E3]. rewrite E3; cbn [bind].
  destruct CT as (_ & _ & _ & _ & PC & _).
  destruct (MissingGemma.personnel_count analysis) as [ | b | n | t | l] eqn:EP;
    try contradiction.
  - rewrite combine_analyses_null; [split; reflexivity | ].
    destruct analysis; simpl in *. rewrite EP. reflexivity.
  - assert (CF : count_field (MissingGemma.llava_result analysis)
                             "personnel_count")
      by (destruct analysis; unfold count_field; simpl in *;
          rewrite EP; exact I).
    destruct (combine_analyses_typed enum (MissingGemma.llava_result analysis)
                                     g) as [r Er].
    { repeat split; assumption. }
    { repeat split; assumption. }
    rewrite Er; cbn [bind].
    rewrite (calculate_priority_score_formula _ _ g CF); cbn [bind].
    split; discriminate.
Qed.

Lemma ensemble_step_fails_on_null_count_witness :
  MissingGemma.column_typed MissingGemma.uncounted_row
  /\ typed_gemma Sample.severe_gemma
  /\ MissingGemma.lacks Sample.severe_gemma "error_message" = true
  /\ (MissingGemma.ensemble_step Sample.insertion_order
        MissingGemma.uncounted_row (Some Sample.severe_gemma) = None
      <-> VNone = VNone).
Proof.
  assert (CT : MissingGemma.column_typed MissingGemma.uncounted_row)
    by (repeat split).
  assert (TG : typed_gemma Sample.severe_gemma) by (repeat split).
  assert (NE : MissingGemma.lacks Sample.severe_gemma "error_message" = true)
    by reflexivity.
  split; [exact CT | split; [exact TG | split; [exact NE | ]]].
  exact (ensemble_step_fails_on_null_count
           Sample.insertion_order MissingGemma.uncounted_row _ _ CT TG NE).
Defined.

(** ** The parser of the second model's answer *)

(** The labels the parser can assign. *)
Lemma parse_line_level (st : GemmaAnalyzer.State) (line : string) :
  In (GemmaAnalyzer.concern_level (GemmaAnalyzer.result st))
     ["minimal"; "moderate"; "severe"; "extreme"] ->
  In (GemmaAnalyzer.concern_level
        (GemmaAnalyzer.result (GemmaAnalyzer.parse_line st line)))
     ["minimal"; "moderate"; "severe"; "extreme"].
Proof.
  intros H. unfold GemmaAnalyzer.parse_line. cbv zeta.
  repeat match goal with
         | |- context [match GemmaAnalyzer.current_section st with _ => _ end] =>
             destruct (GemmaAnalyzer.current_section st) as [[ | | | | ] | ]
         | |- context [if ?c then _ else _] => destruct c
         end;
    cbn [GemmaAnalyzer.result GemmaAnalyzer.enter GemmaAnalyzer.concern_level
         GemmaAnalyzer.with_exploitation GemmaAnalyzer.with_control
         GemmaAnalyzer.with_living GemmaAnalyzer.with_welfare
         GemmaAnalyzer.with_concern];
    try exact H; simpl; tauto.
Qed.

Lemma parse_lines_level (lines : list string) (st : GemmaAnalyzer.State) :
  In (GemmaAnalyzer.concern_level (GemmaAnalyzer.result st))
     ["minimal"; "moderate"; "severe"; "extreme"] ->
  In (GemmaAnalyzer.concern_level
        (GemmaAnalyzer.result (fold_left GemmaAnalyzer.parse_line lines st)))
     ["minimal"; "moderate"; "severe"; "extreme"].
Proof.
  revert st. induction lines as [ | line lines IH]; intros st H.
  - exact H.
  - simpl. apply IH, parse_line_level, H.
Qed.

Lemma parsed_level (text : string) :
  In (GemmaAnalyzer.concern_level (GemmaAnalyzer.parse_analysis_response text))
     ["minimal"; "moderate"; "severe"; "extreme"].
Proof.
  unfold GemmaAnalyzer.parse_analysis_response. cbv zeta.
  match goal with
  | |- context [fold_left GemmaAnalyzer.parse_line ?l ?s] =>
      assert (H := parse_lines_level l s); set (st := fold_left _ l s) in *
  end.
  specialize (H (or_introl eq_refl)).
  destruct (_ || _)%bool;
    cbn [GemmaAnalyzer.concern_level GemmaAnalyzer.with_standard
         GemmaAnalyzer.with_scene]; exact H.
Qed.

Lemma parsed_standard (text : string) :
  GemmaAnalyzer.standard_concern_level
    (GemmaAnalyzer.parse_analysis_response text)
  = Some (GemmaAnalyzer.standard_level
            (GemmaAnalyzer.concern_level
               (GemmaAnalyzer.parse_analysis_response text))).
Proof.
  unfold GemmaAnalyzer.parse_analysis_response. cbv zeta.
  destruct (_ || _)%bool; reflexivity.
Qed.

Lemma standard_level_score (label : string) :
  In label ["minimal"; "moderate"; "severe"; "extreme"] ->
  In (GemmaAnalyzer.standard_level label) ["low"; "medium"; "high"; "critical"]
  /\ EnsembleAnalyzer.score_of (GemmaAnalyzer.standard_level label)
     = Spec.normalize label.
Proof.
  simpl. intros [<- | [<- | [<- | [<- | []]]]]; vm_compute; tauto.
Qed.

(** X21: whatever the second model answers, the parser labels the answer
    minimal, moderate, severe or extreme and adds the standard label that
    its translation table gives for it, one of low, medium, high and
    critical; the two labels carry the same score: the engine's table gives
    the same score for either, and it is the score that the table of the
    batch script gives for the standard label. *)
Theorem parsed_labels (text : string) :
  In (GemmaAnalyzer.concern_level (GemmaAnalyzer.parse_analysis_response text))
     ["minimal"; "moderate"; "severe"; "extreme"]
  /\ GemmaAnalyzer.standard_concern_level
       (GemmaAnalyzer.parse_analysis_response text)
     = Some (GemmaAnalyzer.standard_level
               (GemmaAnalyzer.concern_level
                  (GemmaAnalyzer.parse_analysis_response text)))
  /\ In (GemmaAnalyzer.standard_level
           (GemmaAnalyzer.concern_level
              (GemmaAnalyzer.parse_analysis_response text)))
        ["low"; "medium"; "high"; "critical"]
  /\ table_get concern_map
       (VStr (GemmaAnalyzer.concern_level
                (GemmaAnalyzer.parse_analysis_response text))) 1
     = table_get concern_map
         (VStr (GemmaAnalyzer.standard_level
                  (GemmaAnalyzer.concern_level
                     (GemmaAnalyzer.parse_analysis_response text)))) 1
  /\ table_get concern_map
       (VStr (GemmaAnalyzer.concern_level
                (GemmaAnalyzer.parse_analysis_response text))) 1
     = Ok (EnsembleAnalyzer.score_of
             (GemmaAnalyzer.standard_level
                (GemmaAnalyzer.concern_level
                   (GemmaAnalyzer.parse_analysis_response text)))).
Proof.
  pose proof (parsed_level text) as L.
  destruct (standard_level_score _ L) as [S E].
  assert (N : Spec.normalize
                (GemmaAnalyzer.standard_level
                   (GemmaAnalyzer.concern_level
                      (GemmaAnalyzer.parse_analysis_response text)))
              = Spec.normalize
                  (GemmaAnalyzer.concern_level
                     (GemmaAnalyzer.parse_analysis_response text))).
  { rewrite <- E. symmetry. apply score_of_as_normalize.
    revert S. simpl. intros [<- | [<- | [<- | [<- | []]]]]; reflexivity. }
  split; [exact L | ].
  split; [apply parsed_standard | ].
  split; [exact S | ].
  rewrite !table_get_normalize, N, E. split; reflexivity.
Qed.

(** The loop never writes the scene description. *)
Lemma parse_line_scene (st : GemmaAnalyzer.State) (line : string) :
  GemmaAnalyzer.scene_description
    (GemmaAnalyzer.result (GemmaAnalyzer.parse_line st line))
  = GemmaAnalyzer.scene_description (GemmaAnalyzer.result st).
Proof.
  unfold GemmaAnalyzer.parse_line. cbv zeta.
  repeat match goal with
         | |- context [match GemmaAnalyzer.current_section st with _ => _ end] =>
             destruct (GemmaAnalyzer.current_section st) as [[ | | | | ] | ]
         | |- context [if ?c then _ else _] => destruct c
         end;
    reflexivity.
Qed.

Lemma parse_lines_scene (lines : list string) (st : GemmaAnalyzer.State) :
  GemmaAnalyzer.scene_description
    (GemmaAnalyzer.result (fold_left GemmaAnalyzer.parse_line lines st))
  = GemmaAnalyzer.scene_description (GemmaAnalyzer.result st).
Proof.
  revert st. induction lines as [ | line lines IH]; intros st.
  - reflexivity.
  - simpl. rewrite IH. apply parse_line_scene.
Qed.

(** X22: the parser describes the scene exactly when the answer lists an
    exploitation or a control indicator: the description is empty if and
    only if both lists are empty, so an answer that lists welfare concerns
    alone gets no description; a description begins with the exploitation
    indicators when there are any, and with the control indicators
    otherwise. *)
Theorem parsed_scene_description (text : string) :
  (GemmaAnalyzer.scene_description (GemmaAnalyzer.parse_analysis_response text)
   = ""
   <-> GemmaAnalyzer.exploitation_indicators
         (GemmaAnalyzer.parse_analysis_response text) = []
       /\ GemmaAnalyzer.control_indicators
            (GemmaAnalyzer.parse_analysis_response text) = [])
  /\ match
       GemmaAnalyzer.exploitation_indicators
         (GemmaAnalyzer.parse_analysis_response text),
       GemmaAnalyzer.control_indicators
         (GemmaAnalyzer.parse_analysis_response text)
     with
     | _ :: _, _ =>
         String.prefix "Exploitation concerns: "
           (GemmaAnalyzer.scene_description
              (GemmaAnalyzer.parse_analysis_response text)) = true
     | [], _ :: _ =>
         String.prefix "Control indicators: "
           (GemmaAnalyzer.scene_description
              (GemmaAnalyzer.parse_analysis_response text)) = true
     | [], [] =>
         GemmaAnalyzer.scene_description
           (GemmaAnalyzer.parse_analysis_response text) = ""
     end.
Proof.
  unfold GemmaAnalyzer.parse_analysis_response. cbv zeta.
  match goal with
  | |- context [fold_left GemmaAnalyzer.parse_line ?l ?s] =>
      assert (H := parse_lines_scene l s); set (st := fold_left _ l s) in *
  end.
  cbn [GemmaAnalyzer.result GemmaAnalyzer.scene_description] in H.
  destruct (GemmaAnalyzer.result st) as [sd e c lc w cl cs raw std].
  cbn [GemmaAnalyzer.scene_description GemmaAnalyzer.exploitation_indicators
       GemmaAnalyzer.control_indicators GemmaAnalyzer.welfare_concerns] in *.
  subst sd.
  destruct e as [ | e1 e]; destruct c as [ | c1 c]; destruct w as [ | w1 w];
    cbn [GemmaAnalyzer.nonempty orb append app String.concat
         GemmaAnalyzer.with_scene GemmaAnalyzer.with_standard
         GemmaAnalyzer.scene_description
         GemmaAnalyzer.exploitation_indicators
         GemmaAnalyzer.control_indicators String.append];
    (split;
     [ split; [intros H | intros [H1 H2]]; try discriminate;
       try (split; reflexivity); reflexivity
     | try reflexivity; apply prefix_iff; eexists; reflexivity ]).
Qed.

(** The dictionary of a parsed answer. *)
Lemma as_dict_parsed (text : string) :
  GemmaAnalyzer.as_dict (GemmaAnalyzer.parse_analysis_response text)
  = [ ("scene_description",
       VStr (GemmaAnalyzer.scene_description
               (GemmaAnalyzer.parse_analysis_response text)));
      ("exploitation_indicators",
       VList (GemmaAnalyzer.exploitation_indicators
                (GemmaAnalyzer.parse_analysis_response text)));
      ("control_indicators",
       VList (GemmaAnalyzer.control_indicators
                (GemmaAnalyzer.parse_analysis_response text)));
      ("living_conditions",
       VStr (GemmaAnalyzer.living_conditions
               (GemmaAnalyzer.parse_analysis_response text)));
      ("welfare_concerns",
       VList (GemmaAnalyzer.welfare_concerns
                (GemmaAnalyzer.parse_analysis_response text)));
      ("concern_level",
       VStr (GemmaAnalyzer.concern_level
               (GemmaAnalyzer.parse_analysis_response text)));
      ("raw_analysis",
       VStr (GemmaAnalyzer.raw_analysis
               (GemmaAnalyzer.parse_analysis_response text)));
      ("standard_concern_level",
       VStr (GemmaAnalyzer.standard_level
               (GemmaAnalyzer.concern_level
                  (GemmaAnalyzer.parse_analysis_response text)))) ].
Proof.
  unfold GemmaAnalyzer.as_dict. rewrite parsed_standard. reflexivity.
Qed.

Lemma as_dict_typed (text : string) :
  typed_gemma
    (GemmaAnalyzer.as_dict (GemmaAnalyzer.parse_analysis_response text)).
Proof.
  rewrite as_dict_parsed.
  generalize (GemmaAnalyzer.parse_analysis_response text). intros r.
  repeat split.
Qed.

Lemma extend_from_listed (l items : list string) (d : dict) (k : string) :
  get d k VNone = VList items ->
  MissingGemma.extend_from l d k = Ok (l ++ items)%list.
Proof.
  unfold MissingGemma.extend_from. intros ->.
  destruct items; simpl; [rewrite app_nil_r | ]; reflexivity.
Qed.

(** X23: for a row whose columns hold values of their declared types, with
    a label of the first model outside moderate, severe and extreme and a
    personnel count that is a number, and for any answer of the second
    model, the ensemble step run on the parsed answer commits a result: it
    stores the parser's scene description, the standard label, and the first
    ten of the exploitation, control and welfare indicators in this order;
    and the batch script, run later on the two stored labels, finds the
    ensemble level that the step has stored, with a confidence that is
    higher by 0.1 exactly when the scores sum to at least 5 while one of
    them is at most 2. *)
Theorem ensemble_step_on_parsed_answer enum analysis (text la : string)
        (n : Z) :
  MissingGemma.column_typed analysis ->
  MissingGemma.concern_level analysis = VStr la ->
  Spec.one_of la ["moderate"; "severe"; "extreme"] = false ->
  MissingGemma.personnel_count analysis = VInt n ->
  exists stored,
    MissingGemma.ensemble_step enum analysis
      (Some (GemmaAnalyzer.as_dict
               (GemmaAnalyzer.parse_analysis_response text)))
    = Some stored
    /\ MissingGemma.gemma_description stored
       = VStr (GemmaAnalyzer.scene_description
                 (GemmaAnalyzer.parse_analysis_response text))
    /\ MissingGemma.gemma_concern_level stored
       = VStr (GemmaAnalyzer.standard_level
                 (GemmaAnalyzer.concern_level
                    (GemmaAnalyzer.parse_analysis_response text)))
    /\ MissingGemma.gemma_indicators stored
       = firstn 10
           (GemmaAnalyzer.exploitation_indicators
              (GemmaAnalyzer.parse_analysis_response text)
            ++ GemmaAnalyzer.control_indicators
                 (GemmaAnalyzer.parse_analysis_response text)
            ++ GemmaAnalyzer.welfare_concerns
                 (GemmaAnalyzer.parse_analysis_response text))%list
    /\ fst (EnsembleAnalyzer.combine_concern_levels la
              (GemmaAnalyzer.standard_level
                 (GemmaAnalyzer.concern_level
                    (GemmaAnalyzer.parse_analysis_response text))))
       = MissingGemma.ensemble_concern_level stored
    /\ (snd (EnsembleAnalyzer.combine_concern_levels la
               (GemmaAnalyzer.standard_level
                  (GemmaAnalyzer.concern_level
                     (GemmaAnalyzer.parse_analysis_response text))))
        == MissingGemma.ensemble_confidence stored
           + (if (5 <=? EnsembleAnalyzer.score_of la
                        + EnsembleAnalyzer.score_of
                            (GemmaAnalyzer.standard_level
                               (GemmaAnalyzer.concern_level
                                  (GemmaAnalyzer.parse_analysis_response
                                     text))))
                 && (Z.min (EnsembleAnalyzer.score_of la)
                           (EnsembleAnalyzer.score_of
                              (GemmaAnalyzer.standard_level
                                 (GemmaAnalyzer.concern_level
                                    (GemmaAnalyzer.parse_analysis_response
                                       text)))) <=? 2)
              then 1 # 10 else 0))%Q.
Proof.
  intros CT EL NL PC.
  pose proof (llava_result_typed analysis CT) as (T1 & T2 & T3 & T4).
  pose proof (as_dict_typed text) as TG.
  pose proof (parsed_level text) as L.
  destruct (standard_level_score _ L) as [S E].
  assert (CF : count_field (MissingGemma.llava_result analysis)
                           "personnel_count").
  { destruct CT as (_ & _ & _ & _ & C & _).
    destruct analysis as [cl ci ri sd pc sp]; unfold count_field; simpl in *.
    subst pc. exact I. }
  destruct (combine_analyses_typed
              enum (MissingGemma.llava_result analysis)
              (GemmaAnalyzer.as_dict
                 (GemmaAnalyzer.parse_analysis_response text)))
    as [r Er].
  { repeat split; assumption. }
  { exact TG. }
  assert (SA : EnsembleAnalyzer.score_of la = llava_score r).
  { apply combine_analyses_ok in Er
      as (sA & sB & pool & t & HA & _ & _ & _ & ->).
    cbn [llava_score].
    assert (EA : llava_label (MissingGemma.llava_result analysis) = VStr la)
      by (destruct analysis; simpl in *; subst; reflexivity).
    rewrite EA, table_get_normalize in HA. injection HA as <-.
    apply score_of_as_normalize, NL. }
  assert (SB : EnsembleAnalyzer.score_of
                 (GemmaAnalyzer.standard_level
                    (GemmaAnalyzer.concern_level
                       (GemmaAnalyzer.parse_analysis_response text)))
               = gemma_score r).
  { apply combine_analyses_ok in Er
      as (sA & sB & pool & t & _ & HB & _ & _ & ->).
    cbn [gemma_score]. rewrite as_dict_parsed in HB.
    revert HB L. generalize (GemmaAnalyzer.parse_analysis_response text).
    intros p. destruct p as [sd e c lc w cl cs raw std]; simpl.
    intros HB [<- | [<- | [<- | [<- | []]]]]; vm_compute in HB;
      injection HB as <-; reflexivity. }
  destruct (implementations_on_equal_scores _ _ _ _ la _ Er SA SB)
    as [LV CV].
  rewrite <- SA, <- SB in CV.
  rewrite as_dict_parsed in Er |- *.
  unfold MissingGemma.ensemble_step. cbv beta iota.
  match type of Er with
  | combine_analyses _ _ ?d = _ => set (g := d) in *
  end.
  assert (NE : MissingGemma.lacks g "error_message" = true) by reflexivity.
  rewrite NE. unfold MissingGemma.combine_row.
  rewrite (extend_from_listed [] _ g "exploitation_indicators" eq_refl);
    cbn [bind].
  rewrite (extend_from_listed _ _ g "control_indicators" eq_refl);
    cbn [bind].
  rewrite (extend_from_listed _ _ g "welfare_concerns" eq_refl);
    cbn [bind].
  rewrite Er; cbn [bind].
  rewrite (calculate_priority_score_formula _ _ g CF); cbn [bind].
  eexists. split; [reflexivity | ].
  cbn [MissingGemma.gemma_description MissingGemma.gemma_concern_level
       MissingGemma.gemma_indicators MissingGemma.ensemble_concern_level
       MissingGemma.ensemble_confidence].
  split; [reflexivity | ].
  split.
  { subst g. revert S.
    generalize (GemmaAnalyzer.parse_analysis_response text). intros p.
    generalize (GemmaAnalyzer.standard_level (GemmaAnalyzer.concern_level p)).
    intros s [<- | [<- | [<- | [<- | []]]]]; reflexivity. }
  split; [rewrite app_assoc; reflexivity | ].
  split; [exact LV | exact CV].
Qed.

Lemma ensemble_step_on_parsed_answer_witness :
  MissingGemma.column_typed MissingGemma.counted_row
  /\ MissingGemma.concern_level MissingGemma.counted_row = VStr "high"
  /\ Spec.one_of "high" ["moderate"; "severe"; "extreme"] = false
  /\ MissingGemma.personnel_count MissingGemma.counted_row = VInt 5
  /\ exists stored,
       MissingGemma.ensemble_step Sample.insertion_order
         MissingGemma.counted_row
         (Some (GemmaAnalyzer.as_dict
                  (GemmaAnalyzer.parse_analysis_response
                     GemmaAnalyzer.sample_response)))
       = Some stored
       /\ MissingGemma.gemma_concern_level stored = VStr "critical"
       /\ MissingGemma.gemma_indicators stored
          = ["no helmets"; "workers at height"; "guards at the gate"]
       /\ MissingGemma.ensemble_concern_level stored = "critical".
Proof.
  assert (CT : MissingGemma.column_typed MissingGemma.counted_row)
    by (repeat split).
  assert (EL : MissingGemma.concern_level MissingGemma.counted_row
               = VStr "high") by reflexivity.
  assert (NL : Spec.one_of "high" ["moderate"; "severe"; "extreme"] = false)
    by reflexivity.
  assert (PC : MissingGemma.personnel_count MissingGemma.counted_row = VInt 5)
    by reflexivity.
  destruct (ensemble_step_on_parsed_answer
              Sample.insertion_order MissingGemma.counted_row
              GemmaAnalyzer.sample_response "high" 5 CT EL NL PC)
    as (stored & H1 & H2 & H3 & H4 & H5 & H6).
  split; [exact CT | split; [exact EL | split; [exact NL | split; [exact PC | ]]]].
  exists stored.
  split; [exact H1 | split; [exact H3 | split; [exact H4 | ]]].
  rewrite <- H5. reflexivity.
Defined.

(** *** What the parser records as an indicator *)

Lemma string_app_assoc (a b c : string) :
  (a ++ (b ++ c) = (a ++ b) ++ c)%string.
Proof. induction a as [ | x a IH]; simpl; [ | rewrite IH]; reflexivity. Qed.

Lemma upper_app (a b : string) :
  GemmaAnalyzer.upper (a ++ b)
  = (GemmaAnalyzer.upper a ++ GemmaAnalyzer.upper b)%string.
Proof. induction a as [ | x a IH]; simpl; [ | rewrite IH]; reflexivity. Qed.

Lemma lstrip_suffix (s : string) :
  exists a, s = (a ++ GemmaAnalyzer.lstrip s)%string.
Proof.
  induction s as [ | c s [a IH]]; simpl.
  - exists "". reflexivity.
  - destruct (GemmaAnalyzer.is_space c).
    + exists (String c a). simpl. rewrite <- IH. reflexivity.
    + exists "". reflexivity.
Qed.

Lemma rstrip_prefix (s : string) :
  exists b, s = (GemmaAnalyzer.rstrip s ++ b)%string.
Proof.
  induction s as [ | c s [b IH]]; simpl.
  - exists "". reflexivity.
  - destruct (GemmaAnalyzer.rstrip s) as [ | x kept].
    + destruct (GemmaAnalyzer.is_space c).
      * exists (String c s). reflexivity.
      * exists s. reflexivity.
    + exists b. simpl. rewrite IH at 1. reflexivity.
Qed.

Lemma strip_inside (s : string) :
  exists a b, s = (a ++ GemmaAnalyzer.strip s ++ b)%string.
Proof.
  unfold GemmaAnalyzer.strip.
  destruct (lstrip_suffix s) as [a Ha].
  destruct (rstrip_prefix (GemmaAnalyzer.lstrip s)) as [b Hb].
  exists a, b. rewrite <- Hb. exact Ha.
Qed.

Lemma lstrip_head (s : string) :
  GemmaAnalyzer.lstrip s = ""
  \/ exists c t, GemmaAnalyzer.lstrip s = String c t
                 /\ GemmaAnalyzer.is_space c = false.
Proof.
  induction s as [ | c s IH]; simpl.
  - left. reflexivity.
  - destruct (GemmaAnalyzer.is_space c) eqn:E; [exact IH | ].
    right. exists c, s. split; [reflexivity | exact E].
Qed.

Lemma rstrip_head (c : ascii) (t : string) :
  GemmaAnalyzer.is_space c = false ->
  exists t', GemmaAnalyzer.rstrip (String c t) = String c t'.
Proof.
  intros H. simpl. destruct (GemmaAnalyzer.rstrip t).
  - rewrite H. eexists. reflexivity.
  - eexists. reflexivity.
Qed.

Lemma rstrip_idem (s : string) :
  GemmaAnalyzer.rstrip (GemmaAnalyzer.rstrip s) = GemmaAnalyzer.rstrip s.
Proof.
  induction s as [ | c s IH]; [reflexivity | ].
  simpl. destruct (GemmaAnalyzer.rstrip s) as [ | x kept] eqn:E.
  - destruct (GemmaAnalyzer.is_space c) eqn:Ec; simpl;
      [ | rewrite Ec]; reflexivity.
  - change (GemmaAnalyzer.rstrip (String c (String x kept)))
      with (match GemmaAnalyzer.rstrip (String x kept) with
            | EmptyString =>
                if GemmaAnalyzer.is_space c then EmptyString
                else String c EmptyString
            | String _ _ as k => String c k
            end).
    rewrite IH. reflexivity.
Qed.

(** Stripping twice changes nothing more. *)
Lemma strip_idem (s : string) :
  GemmaAnalyzer.strip (GemmaAnalyzer.strip s) = GemmaAnalyzer.strip s.
Proof.
  unfold GemmaAnalyzer.strip.
  destruct (lstrip_head s) as [-> | (c & t & -> & Hc)]; [reflexivity | ].
  destruct (rstrip_head c t Hc) as [t' E].
  rewrite E. cbn [GemmaAnalyzer.lstrip]. rewrite Hc.
  rewrite <- E. apply rstrip_idem.
Qed.

Lemma contains_inside (word a x b : string) :
  contains word (GemmaAnalyzer.upper x) = true ->
  contains word (GemmaAnalyzer.upper (a ++ x ++ b)) = true.
Proof.
  rewrite !contains_iff. intros (before & after & H).
  exists (GemmaAnalyzer.upper a ++ before)%string,
         (after ++ GemmaAnalyzer.upper b)%string.
  rewrite !upper_app, H, <- !string_app_assoc. reflexivity.
Qed.

Lemma mentions_heading_inside (a x b : string) :
  GemmaAnalyzer.mentions_heading (a ++ x ++ b) = false ->
  GemmaAnalyzer.mentions_heading x = false.
Proof.
  intros H. destruct (GemmaAnalyzer.mentions_heading x) eqn:E;
    [ | reflexivity].
  apply existsb_exists in E as (word & Hw & Hc).
  rewrite <- H. symmetry. apply existsb_exists.
  exists word. split; [exact Hw | apply contains_inside, Hc].
Qed.

Lemma mentions_heading_strip (s : string) :
  GemmaAnalyzer.mentions_heading s = false ->
  GemmaAnalyzer.mentions_heading (GemmaAnalyzer.strip s) = false.
Proof.
  destruct (strip_inside s) as (a & b & H). intros M.
  rewrite H in M. exact (mentions_heading_inside _ _ _ M).
Qed.

Lemma mentions_heading_tail (s : string) :
  GemmaAnalyzer.mentions_heading s = false ->
  GemmaAnalyzer.mentions_heading (GemmaAnalyzer.tail s) = false.
Proof.
  destruct s as [ | c s]; [intros H; exact H | ].
  intros M. apply (mentions_heading_inside (String c "") s "").
  replace (s ++ "")%string with s; [exact M | ].
  clear. induction s as [ | x s IH]; simpl; [ | rewrite <- IH]; reflexivity.
Qed.

(** The state of the loop holds stripped texts without heading words
    only. *)
Lemma parse_line_recorded (st : GemmaAnalyzer.State) (line : string) :
  let tidy x :=
    GemmaAnalyzer.strip x = x /\ GemmaAnalyzer.mentions_heading x = false in
  Forall tidy (GemmaAnalyzer.current_content st) ->
  Forall tidy (GemmaAnalyzer.indicators (GemmaAnalyzer.result st)) ->
  Forall tidy
    (GemmaAnalyzer.current_content (GemmaAnalyzer.parse_line st line))
  /\ Forall tidy
       (GemmaAnalyzer.indicators
          (GemmaAnalyzer.result (GemmaAnalyzer.parse_line st line))).
Proof.
  intros tidy HC HR. unfold GemmaAnalyzer.parse_line. cbv zeta.
  set (l := GemmaAnalyzer.strip line).
  destruct (String.eqb l ""); [split; assumption | ].
  destruct (contains "EXPLOITATION" (GemmaAnalyzer.upper l)) eqn:K1;
    [split; [constructor | exact HR] | ].
  destruct (contains "CONTROL" (GemmaAnalyzer.upper l)) eqn:K2;
    [split; [constructor | exact HR] | ].
  destruct (contains "RESTRICTION" (GemmaAnalyzer.upper l)) eqn:K3;
    [split; [constructor | exact HR] | ].
  cbn [orb].
  destruct (contains "LIVING" (GemmaAnalyzer.upper l)
            && contains "STANDARD" (GemmaAnalyzer.upper l))%bool;
    [split; [constructor | exact HR] | ].
  destruct (contains "WELFARE" (GemmaAnalyzer.upper l)) eqn:K4;
    [split; [constructor | exact HR] | ].
  destruct (contains "SEVERITY" (GemmaAnalyzer.upper l)) eqn:K5;
    [split; [constructor | exact HR] | ].
  destruct (contains "RATING" (GemmaAnalyzer.upper l)) eqn:K6;
    [split; [constructor | exact HR] | ].
  cbn [orb].
  assert (M : GemmaAnalyzer.mentions_heading l = false).
  { unfold GemmaAnalyzer.mentions_heading, GemmaAnalyzer.heading_words.
    cbn [existsb]. rewrite K1, K2, K3, K4, K5, K6. reflexivity. }
  assert (TL : tidy l) by (split; [apply strip_idem | exact M]).
  assert (TT : tidy (GemmaAnalyzer.strip (GemmaAnalyzer.tail l))).
  { split; [apply strip_idem | ].
    apply mentions_heading_strip, mentions_heading_tail, M. }
  destruct (GemmaAnalyzer.current_section st) as [s | ];
    [ | split; assumption].
  destruct (GemmaAnalyzer.numbered l); cbn [negb]; [split; assumption | ].
  match goal with
  | |- context [GemmaAnalyzer.with_welfare _ ?c] => set (content := c)
  end.
  assert (TC : Forall tidy content).
  { subst content. unfold append.
    destruct (String.prefix "-" l); apply Forall_app; split;
      try exact HC; constructor; try assumption; constructor. }
  cbn [GemmaAnalyzer.current_content GemmaAnalyzer.result].
  split; [exact TC | ].
  unfold GemmaAnalyzer.indicators in *.
  apply Forall_app in HR as [HE HR]. apply Forall_app in HR as [HK HW].
  destruct s;
    repeat match goal with
           | |- context [if ?c then _ else _] => destruct c
           end;
    cbn [GemmaAnalyzer.exploitation_indicators
         GemmaAnalyzer.control_indicators GemmaAnalyzer.welfare_concerns
         GemmaAnalyzer.with_exploitation GemmaAnalyzer.with_control
         GemmaAnalyzer.with_living GemmaAnalyzer.with_welfare
         GemmaAnalyzer.with_concern];
    repeat (apply Forall_app; split); assumption.
Qed.

Lemma parse_lines_recorded (lines : list string) (st : GemmaAnalyzer.State) :
  let tidy x :=
    GemmaAnalyzer.strip x = x /\ GemmaAnalyzer.mentions_heading x = false in
  Forall tidy (GemmaAnalyzer.current_content st) ->
  Forall tidy (GemmaAnalyzer.indicators (GemmaAnalyzer.result st)) ->
  Forall tidy
    (GemmaAnalyzer.indicators
       (GemmaAnalyzer.result (fold_left GemmaAnalyzer.parse_line lines st))).
Proof.
  intros tidy. revert st.
  induction lines as [ | line lines IH]; intros st HC HR.
  - exact HR.
  - simpl. destruct (parse_line_recorded st line HC HR) as [HC' HR'].
    apply IH; assumption.
Qed.

(** X24: every indicator in the parser's result is a stripped text that
    mentions none of the words EXPLOITATION, CONTROL, RESTRICTION, WELFARE,
    SEVERITY and RATING, in whatever letter case: a line that mentions one
    of them is read as a heading and is never recorded, even inside a
    section. *)
Theorem parsed_indicators_recorded (text x : string) :
  In x (GemmaAnalyzer.indicators
          (GemmaAnalyzer.parse_analysis_response text)) ->
  GemmaAnalyzer.strip x = x /\ GemmaAnalyzer.mentions_heading x = false.
Proof.
  assert (H : Forall
                (fun x => GemmaAnalyzer.strip x = x
                          /\ GemmaAnalyzer.mentions_heading x = false)
                (GemmaAnalyzer.indicators
                   (GemmaAnalyzer.parse_analysis_response text))).
  { unfold GemmaAnalyzer.parse_analysis_response. cbv zeta.
    match goal with
    | |- context [fold_left GemmaAnalyzer.parse_line ?l ?s] =>
        assert (H := parse_lines_recorded l s (Forall_nil _) (Forall_nil _));
        set (st := fold_left _ l s) in *
    end.
    cbv zeta in H.
    destruct (_ || _)%bool; exact H. }
  intros Hx. rewrite Forall_forall in H. exact (H x Hx).
Qed.

Lemma parsed_indicators_recorded_witness :
  In "no helmets"
     (GemmaAnalyzer.indicators
        (GemmaAnalyzer.parse_analysis_response GemmaAnalyzer.sample_response))
  /\ GemmaAnalyzer.strip "no helmets" = "no helmets"
  /\ GemmaAnalyzer.mentions_heading "no helmets" = false.
Proof.
  assert (H : In "no helmets"
                 (GemmaAnalyzer.indicators
                    (GemmaAnalyzer.parse_analysis_response
                       GemmaAnalyzer.sample_response)))
    by (left; reflexivity).
  split; [exact H | ].
  exact (parsed_indicators_recorded GemmaAnalyzer.sample_response _ H).
Defined.

(** A line of a section that mentions a heading word opens that section
    instead of being recorded: here the second line moves the parser to the
    control section, which then receives the third. *)
Example heading_word_moves_section :
  GemmaAnalyzer.exploitation_indicators
    (GemmaAnalyzer.parse_analysis_response
       (String.concat (String GemmaAnalyzer.newline "")
          [ "1. EXPLOITATION INDICATORS:";
            "- workers under strict control";
            "- no helmets" ])) = []
  /\ GemmaAnalyzer.control_indicators
       (GemmaAnalyzer.parse_analysis_response
          (String.concat (String GemmaAnalyzer.newline "")
             [ "1. EXPLOITATION INDICATORS:";
               "- workers under strict control";
               "- no helmets" ])) = ["no helmets"].
Proof. split; reflexivity. Qed.
